(** * EduManager: the row-level-security schema, embedded and verified

    The development embeds the schema migration
    [supabase/migrations/20251225093753_0e10aa57-42ee-4439-8548-c9b822b1ec72.sql]
    (tables, constraints, policies, functions and triggers) together with
    the two submit handlers of the Students and Courses pages, and proves
    properties of the embedded definitions.

    Tables are lists of tuples, in heap order.  Every column holds an
    [option]: [None] is SQL NULL, and NOT NULL is a constraint checked on
    write, as in the schema.  Statements run in the error monad [result]:
    a statement that raises leaves no new state behind.

    Text is held as its UTF-8 encoding.  A VARCHAR limit counts
    characters, the length checks of the pages' schemas count UTF-16 code
    units, and [trim] strips JavaScript's white space; the case mapping
    of the pages is modelled on ASCII text. *)

From Stdlib Require Import ZArith NArith List String Ascii Bool Lia.
From Stdlib Require Import DecimalString.
Import ListNotations.
Local Open Scope string_scope.
Local Open Scope Z_scope.
Local Open Scope list_scope.

Set Implicit Arguments.

(* ================================================================== *)
(** ** Values, three-valued logic, errors                              *)
(* ================================================================== *)

Definition UUID := N.
Definition timestamptz := Z.

(** [CREATE TYPE public.app_role AS ENUM ('admin', 'student')] *)
Inductive app_role := admin | student.

Definition app_role_eqb (a b : app_role) : bool :=
  match a, b with
  | admin, admin | student, student => true
  | _, _ => false
  end.

(** SQL comparison: NULL on either side gives NULL. *)
Definition sql_eq {A} (eqb : A -> A -> bool) (a b : option A) : option bool :=
  match a, b with
  | Some x, Some y => Some (eqb x y)
  | _, _ => None
  end.

Definition sql_and (a b : option bool) : option bool :=
  match a, b with
  | Some false, _ | _, Some false => Some false
  | Some true, Some true => Some true
  | _, _ => None
  end.

(** A WHERE, USING or WITH CHECK condition keeps a row only when it is
    true; NULL counts as false. *)
Definition holds (c : option bool) : bool :=
  match c with
  | Some true => true
  | _ => false
  end.

(** The errors a statement can raise, by SQLSTATE class. *)
Inductive pg_error :=
| string_data_right_truncation (n : nat)         (* 22001 *)
| numeric_value_out_of_range                     (* 22003 *)
| insufficient_privilege (table : string)        (* 42501, RLS check *)
| not_null_violation (table column : string)     (* 23502 *)
| unique_violation (constraint : string)         (* 23505 *)
| foreign_key_violation (table constraint : string)
                        (referenced_by : option string). (* 23503 *)

Inductive result (A : Type) :=
| Ok (a : A)
| Err (e : pg_error).
Arguments Ok {A} a.
Arguments Err {A} e.

Definition bind {A B} (r : result A) (k : A -> result B) : result B :=
  match r with
  | Ok a => k a
  | Err e => Err e
  end.

Notation "x <- r ;; k" := (bind r (fun x => k))
  (at level 61, r at next level, right associativity).

(** [guard b e]: raise [e] unless [b]. *)
Definition guard (b : bool) (e : pg_error) : result unit :=
  if b then Ok tt else Err e.

(* ================================================================== *)
(** ** Schema                                                          *)
(* ================================================================== *)

Module Course.
Record row := mk {
  id : option UUID;
  course_name : option string;
  course_code : option string;
  course_duration : option Z;
  created_at : option timestamptz;
  updated_at : option timestamptz
}.
End Course.

Module Student.
Record row := mk {
  id : option UUID;
  name : option string;
  email : option string;
  course_id : option UUID;
  user_id : option UUID;
  created_at : option timestamptz;
  updated_at : option timestamptz
}.
End Student.

Module UserRole.
Record row := mk {
  id : option UUID;
  user_id : option UUID;
  role : option app_role;
  created_at : option timestamptz
}.
End UserRole.

Module Profile.
Record row := mk {
  id : option UUID;
  user_id : option UUID;
  username : option string;
  created_at : option timestamptz;
  updated_at : option timestamptz
}.
End Profile.

(** [auth.users] belongs to the authentication provider; the migration
    uses its [id] and, in [handle_new_user], the text of one key of
    [raw_user_meta_data].  The metadata is kept as the JSON object's
    key/value pairs, a value being a string or JSON null. *)
Module AuthUser.
Record row := mk {
  id : UUID;
  raw_user_meta_data : option (list (string * option string))
}.
End AuthUser.

Record db := mkdb {
  courses : list Course.row;
  students : list Student.row;
  user_roles : list UserRole.row;
  profiles : list Profile.row;
  auth_users : list AuthUser.row
}.

Definition empty_db : db := mkdb [] [] [] [] [].

(* ================================================================== *)
(** ** The two SECURITY DEFINER functions                              *)
(* ================================================================== *)

(** [SELECT EXISTS (SELECT 1 FROM public.user_roles
                    WHERE user_id = _user_id AND role = _role)] *)
Definition has_role (d : db) (_user_id : option UUID)
           (_role : option app_role) : bool :=
  existsb (fun r =>
             holds (sql_and (sql_eq N.eqb (UserRole.user_id r) _user_id)
                            (sql_eq app_role_eqb (UserRole.role r) _role)))
          (user_roles d).

(** [SELECT id FROM public.students WHERE user_id = _user_id LIMIT 1]:
    the [id] of the first matching tuple in scan order, NULL when no
    tuple matches. *)
Definition get_user_student_id (d : db) (_user_id : option UUID)
  : option UUID :=
  match filter (fun s => holds (sql_eq N.eqb (Student.user_id s) _user_id))
               (students d) with
  | [] => None
  | s :: _ => Student.id s
  end.

(* ================================================================== *)
(** ** Sessions and row-level security                                 *)
(* ================================================================== *)

(** The database role a request runs as.  Every policy of the migration
    is declared [TO authenticated].  [bypassrls] stands for the roles row
    security does not apply to (the table owner, a superuser, the service
    role): the SECURITY DEFINER trigger functions and the referential
    actions run that way, and the first admin can only be granted so. *)
Inductive pg_role := authenticated | anon | bypassrls.

Definition pg_role_eqb (a b : pg_role) : bool :=
  match a, b with
  | authenticated, authenticated | anon, anon | bypassrls, bypassrls => true
  | _, _ => false
  end.

(** [uid] is what [auth.uid()] returns for the request. *)
Record session := mksession {
  current_role : pg_role;
  uid : option UUID
}.

Inductive command := SELECT | INSERT | UPDATE | DELETE | ALL.

Definition command_eqb (a b : command) : bool :=
  match a, b with
  | SELECT, SELECT | INSERT, INSERT | UPDATE, UPDATE
  | DELETE, DELETE | ALL, ALL => true
  | _, _ => false
  end.

(** A policy expression sees the database, [auth.uid()] and the row. *)
Definition policy_expr (R : Type) := db -> option UUID -> R -> option bool.

Record policy (R : Type) := mkpolicy {
  policy_name : string;
  for_command : command;
  to_role : pg_role;
  using_expr : option (policy_expr R);
  check_expr : option (policy_expr R)
}.

Section RowSecurity.
Context {R : Type}.
Variable policies : list (policy R).

Definition applies (c : command) (s : session) (p : policy R) : bool :=
  pg_role_eqb (to_role p) (current_role s)
  && (command_eqb (for_command p) c || command_eqb (for_command p) ALL).

Definition using_holds (d : db) (s : session) (r : R) (p : policy R)
  : bool :=
  match using_expr p with
  | Some e => holds (e d (uid s) r)
  | None => false
  end.

(** WITH CHECK falls back on the USING expression when the policy gives
    none. *)
Definition with_check_holds (d : db) (s : session) (r : R) (p : policy R)
  : bool :=
  match check_expr p with
  | Some e => holds (e d (uid s) r)
  | None => using_holds d s r p
  end.

(** Permissive policies are OR-ed; with no applicable policy nothing
    passes. *)
Definition passes_using (c : command) (d : db) (s : session) (r : R)
  : bool :=
  match current_role s with
  | bypassrls => true
  | _ => existsb (fun p => applies c s p && using_holds d s r p) policies
  end.

Definition passes_check (c : command) (d : db) (s : session) (r : R)
  : bool :=
  match current_role s with
  | bypassrls => true
  | _ => existsb (fun p => applies c s p && with_check_holds d s r p)
                 policies
  end.

(** Rows an UPDATE or DELETE with a WHERE clause can reach: the
    command's own USING policies and, because the WHERE clause reads the
    row, the SELECT policies as well. *)
Definition reachable_row (c : command) (d : db) (s : session) (r : R)
  : bool :=
  passes_using c d s r && passes_using SELECT d s r.

(** The new row of an UPDATE: the UPDATE policies' WITH CHECK and the
    SELECT policies' USING. *)
Definition new_row_allowed (d : db) (s : session) (r : R) : bool :=
  passes_check UPDATE d s r && passes_using SELECT d s r.
End RowSecurity.

(* ================================================================== *)
(** ** Statement environment                                           *)
(* ================================================================== *)

(** [now()] is fixed for the transaction; [gen_random_uuid k] is the value
    the k-th DEFAULT gen_random_uuid() of the transaction evaluates to. *)
Record env := mkenv {
  now : timestamptz;
  gen_random_uuid : nat -> UUID
}.

(* ================================================================== *)
(** ** Generic table engine                                            *)
(* ================================================================== *)

Record table (R : Type) := mktable {
  relname : string;
  (** NOT NULL columns in column order, each with its "is not null" test *)
  not_nulls : list (string * (R -> bool));
  (** unique indexes in creation order (primary key first), each with the
      test "these two rows have the same non-null key" *)
  uniques : list (string * (R -> R -> bool));
  rls : list (policy R);
  (** BEFORE UPDATE FOR EACH ROW trigger *)
  before_update : env -> R -> R
}.

Section Engine.
Context {R : Type}.
Variable T : table R.

Fixpoint check_not_null (cols : list (string * (R -> bool))) (r : R)
  : result unit :=
  match cols with
  | [] => Ok tt
  | (c, present) :: cols' =>
      if present r then check_not_null cols' r
      else Err (not_null_violation (relname T) c)
  end.

Fixpoint check_unique (ixs : list (string * (R -> R -> bool)))
         (others : list R) (r : R) : result unit :=
  match ixs with
  | [] => Ok tt
  | (ix, same_key) :: ixs' =>
      if existsb (same_key r) others then Err (unique_violation ix)
      else check_unique ixs' others r
  end.

(** Row security, then NOT NULL, then the unique indexes. *)
Definition check_row (allowed : bool) (others : list R) (r : R)
  : result unit :=
  _ <- guard allowed (insufficient_privilege (relname T)) ;;
  _ <- check_not_null (not_nulls T) r ;;
  check_unique (uniques T) others r.

Definition select_rows (d : db) (s : session) (rows : list R) : list R :=
  filter (passes_using (rls T) SELECT d s) rows.

Definition insert_row (d : db) (s : session) (r : R) (rows : list R)
  : result (list R) :=
  _ <- check_row (passes_check (rls T) INSERT d s r) rows r ;;
  Ok (rows ++ [r]).

(** The rows a statement with WHERE clause [w] acts on. *)
Definition hit (c : command) (d : db) (s : session) (w : R -> bool)
           (r : R) : bool :=
  reachable_row (rls T) c d s r && w r.

(** UPDATE, row by row in scan order.  [seen] holds the rows already
    passed (updated or not), [todo] the rest; a new row is checked
    against every other row of the table as it stands.  The result is
    the table and the (old, new) pairs written. *)
Fixpoint update_rows (e : env) (d : db) (s : session) (w : R -> bool)
         (assign : R -> R) (seen todo : list R)
  : result (list R * list (R * R)) :=
  match todo with
  | [] => Ok (seen, [])
  | r :: rest =>
      if hit UPDATE d s w r then
        let r' := before_update T e (assign r) in
        _ <- check_row (new_row_allowed (rls T) d s r') (seen ++ rest) r' ;;
        res <- update_rows e d s w assign (seen ++ [r']) rest ;;
        Ok (fst res, (r, r') :: snd res)
      else update_rows e d s w assign (seen ++ [r]) rest
  end.

(** DELETE: the rows kept and the rows removed. *)
Definition delete_rows (d : db) (s : session) (w : R -> bool)
           (rows : list R) : list R * list R :=
  (filter (fun r => negb (hit DELETE d s w r)) rows,
   filter (hit DELETE d s w) rows).
End Engine.

(* ================================================================== *)
(** ** Column types and statement arguments                            *)
(* ================================================================== *)

(** A text value is held as its UTF-8 encoding, the encoding of the
    database and of the requests.  A character starts at every byte that
    is not a continuation byte (10xxxxxx). *)
Definition is_continuation (c : ascii) : bool :=
  let n := nat_of_ascii c in
  ((128 <=? n) && (n <? 192))%nat.

(** The length in characters, as [char_length] and the VARCHAR limit
    count it. *)
Fixpoint char_length (s : string) : nat :=
  match s with
  | EmptyString => 0%nat
  | String c s' =>
      if is_continuation c then char_length s' else S (char_length s')
  end.

(** The first [n] characters, and what follows them. *)
Fixpoint char_take (n : nat) (s : string) : string :=
  match s with
  | EmptyString => EmptyString
  | String c s' =>
      if is_continuation c then String c (char_take n s')
      else match n with
           | O => EmptyString
           | S n' => String c (char_take n' s')
           end
  end.

Fixpoint char_drop (n : nat) (s : string) : string :=
  match s with
  | EmptyString => EmptyString
  | String c s' =>
      if is_continuation c then char_drop n s'
      else match n with
           | O => s
           | S n' => char_drop n' s'
           end
  end.

(** Text made of ASCII characters only. *)
Definition is_ascii (c : ascii) : bool := (nat_of_ascii c <? 128)%nat.

Fixpoint ascii_text (s : string) : bool :=
  match s with
  | EmptyString => true
  | String c s' => is_ascii c && ascii_text s'
  end.

Definition is_space (c : ascii) : bool := Ascii.eqb c " "%char.

Fixpoint all_spaces (s : string) : bool :=
  match s with
  | EmptyString => true
  | String c s' => is_space c && all_spaces s'
  end.

(** Assignment to VARCHAR(n): a value of more than [n] characters
    raises, unless the excess is all spaces, which is cut off. *)
Definition varchar (n : nat) (v : option string) : result (option string) :=
  match v with
  | None => Ok None
  | Some s =>
      if (char_length s <=? n)%nat then Ok (Some s)
      else if all_spaces (char_drop n s)
           then Ok (Some (char_take n s))
           else Err (string_data_right_truncation n)
  end.

(** Assignment to INTEGER (32 bits, signed). *)
Definition integer (v : option Z) : result (option Z) :=
  match v with
  | None => Ok None
  | Some z =>
      if (- 2147483648 <=? z) && (z <=? 2147483647) then Ok (Some z)
      else Err numeric_value_out_of_range
  end.

(** One column of an INSERT or of an UPDATE's SET list: left out, or given
    a value (possibly NULL). *)
Inductive arg (A : Type) :=
| omitted
| given (v : option A).
Arguments omitted {A}.
Arguments given {A} v.

(** The column's value: the given one, else [fallback] (the DEFAULT for an
    INSERT, the old value for an UPDATE). *)
Definition pick {A} (a : arg A) (fallback : option A) : option A :=
  match a with
  | omitted => fallback
  | given v => v
  end.

Definition coerce {A} (ty : option A -> result (option A)) (a : arg A)
  : result (arg A) :=
  match a with
  | omitted => Ok omitted
  | given v => v' <- ty v ;; Ok (given v')
  end.

Module CourseArgs.
Record t := mk {
  id : arg UUID;
  course_name : arg string;
  course_code : arg string;
  course_duration : arg Z;
  created_at : arg timestamptz;
  updated_at : arg timestamptz
}.
End CourseArgs.

Module StudentArgs.
Record t := mk {
  id : arg UUID;
  name : arg string;
  email : arg string;
  course_id : arg UUID;
  user_id : arg UUID;
  created_at : arg timestamptz;
  updated_at : arg timestamptz
}.
End StudentArgs.

Module UserRoleArgs.
Record t := mk {
  id : arg UUID;
  user_id : arg UUID;
  role : arg app_role;
  created_at : arg timestamptz
}.
End UserRoleArgs.

Module ProfileArgs.
Record t := mk {
  id : arg UUID;
  user_id : arg UUID;
  username : arg string;
  created_at : arg timestamptz;
  updated_at : arg timestamptz
}.
End ProfileArgs.

Definition coerce_course (a : CourseArgs.t) : result CourseArgs.t :=
  n <- coerce (varchar 255) (CourseArgs.course_name a) ;;
  c <- coerce (varchar 50) (CourseArgs.course_code a) ;;
  m <- coerce integer (CourseArgs.course_duration a) ;;
  Ok (CourseArgs.mk (CourseArgs.id a) n c m
        (CourseArgs.created_at a) (CourseArgs.updated_at a)).

Definition coerce_student (a : StudentArgs.t) : result StudentArgs.t :=
  n <- coerce (varchar 255) (StudentArgs.name a) ;;
  m <- coerce (varchar 255) (StudentArgs.email a) ;;
  Ok (StudentArgs.mk (StudentArgs.id a) n m (StudentArgs.course_id a)
        (StudentArgs.user_id a)
        (StudentArgs.created_at a) (StudentArgs.updated_at a)).

Definition coerce_profile (a : ProfileArgs.t) : result ProfileArgs.t :=
  n <- coerce (varchar 255) (ProfileArgs.username a) ;;
  Ok (ProfileArgs.mk (ProfileArgs.id a) (ProfileArgs.user_id a) n
        (ProfileArgs.created_at a) (ProfileArgs.updated_at a)).

(** The tuple a statement writes: every column from the arguments, else
    from [base]. *)
Definition course_tuple (a : CourseArgs.t) (base : Course.row)
  : Course.row :=
  Course.mk (pick (CourseArgs.id a) (Course.id base))
            (pick (CourseArgs.course_name a) (Course.course_name base))
            (pick (CourseArgs.course_code a) (Course.course_code base))
            (pick (CourseArgs.course_duration a) (Course.course_duration base))
            (pick (CourseArgs.created_at a) (Course.created_at base))
            (pick (CourseArgs.updated_at a) (Course.updated_at base)).

Definition student_tuple (a : StudentArgs.t) (base : Student.row)
  : Student.row :=
  Student.mk (pick (StudentArgs.id a) (Student.id base))
             (pick (StudentArgs.name a) (Student.name base))
             (pick (StudentArgs.email a) (Student.email base))
             (pick (StudentArgs.course_id a) (Student.course_id base))
             (pick (StudentArgs.user_id a) (Student.user_id base))
             (pick (StudentArgs.created_at a) (Student.created_at base))
             (pick (StudentArgs.updated_at a) (Student.updated_at base)).

Definition user_role_tuple (a : UserRoleArgs.t) (base : UserRole.row)
  : UserRole.row :=
  UserRole.mk (pick (UserRoleArgs.id a) (UserRole.id base))
              (pick (UserRoleArgs.user_id a) (UserRole.user_id base))
              (pick (UserRoleArgs.role a) (UserRole.role base))
              (pick (UserRoleArgs.created_at a) (UserRole.created_at base)).

Definition profile_tuple (a : ProfileArgs.t) (base : Profile.row)
  : Profile.row :=
  Profile.mk (pick (ProfileArgs.id a) (Profile.id base))
             (pick (ProfileArgs.user_id a) (Profile.user_id base))
             (pick (ProfileArgs.username a) (Profile.username base))
             (pick (ProfileArgs.created_at a) (Profile.created_at base))
             (pick (ProfileArgs.updated_at a) (Profile.updated_at base)).

(** Column DEFAULTs. *)
Definition course_defaults (e : env) : Course.row :=
  Course.mk (Some (gen_random_uuid e 0%nat)) None None (Some 1)
            (Some (now e)) (Some (now e)).

Definition student_defaults (e : env) : Student.row :=
  Student.mk (Some (gen_random_uuid e 0%nat)) None None None None
             (Some (now e)) (Some (now e)).

Definition user_role_defaults (e : env) : UserRole.row :=
  UserRole.mk (Some (gen_random_uuid e 0%nat)) None (Some student)
              (Some (now e)).

Definition profile_defaults (e : env) : Profile.row :=
  Profile.mk (Some (gen_random_uuid e 0%nat)) None None
             (Some (now e)) (Some (now e)).

(* ================================================================== *)
(** ** Timestamp trigger                                               *)
(* ================================================================== *)

(** Row types that carry an [updated_at] column. *)
Class HasUpdatedAt (R : Type) := {
  get_updated_at : R -> option timestamptz;
  set_updated_at : option timestamptz -> R -> R;
  get_set_updated_at :
    forall t r, get_updated_at (set_updated_at t r) = t
}.

#[export] Instance course_updated_at : HasUpdatedAt Course.row := {|
  get_updated_at := Course.updated_at;
  set_updated_at t r :=
    Course.mk (Course.id r) (Course.course_name r) (Course.course_code r)
              (Course.course_duration r) (Course.created_at r) t;
  get_set_updated_at := fun _ _ => eq_refl
|}.

#[export] Instance student_updated_at : HasUpdatedAt Student.row := {|
  get_updated_at := Student.updated_at;
  set_updated_at t r :=
    Student.mk (Student.id r) (Student.name r) (Student.email r)
               (Student.course_id r) (Student.user_id r)
               (Student.created_at r) t;
  get_set_updated_at := fun _ _ => eq_refl
|}.

#[export] Instance profile_updated_at : HasUpdatedAt Profile.row := {|
  get_updated_at := Profile.updated_at;
  set_updated_at t r :=
    Profile.mk (Profile.id r) (Profile.user_id r) (Profile.username r)
               (Profile.created_at r) t;
  get_set_updated_at := fun _ _ => eq_refl
|}.

(** [NEW.updated_at = now(); RETURN NEW;] *)
Definition update_updated_at_column {R} `{HasUpdatedAt R} (e : env) (NEW : R)
  : R :=
  set_updated_at (Some (now e)) NEW.

(* ================================================================== *)
(** ** Policies and tables of the migration                            *)
(* ================================================================== *)

(** [public.has_role(auth.uid(), 'admin')] *)
Definition is_admin {R} : policy_expr R :=
  fun d auth_uid _ => Some (has_role d auth_uid (Some admin)).

Definition courses_policies : list (policy Course.row) :=
  [ mkpolicy "Authenticated users can view courses" SELECT authenticated
             (Some (fun _ _ _ => Some true)) None;
    mkpolicy "Admins can insert courses" INSERT authenticated
             None (Some is_admin);
    mkpolicy "Admins can update courses" UPDATE authenticated
             (Some is_admin) None;
    mkpolicy "Admins can delete courses" DELETE authenticated
             (Some is_admin) None ].

Definition students_policies : list (policy Student.row) :=
  [ mkpolicy "Admins can view all students" SELECT authenticated
             (Some is_admin) None;
    mkpolicy "Students can view own profile" SELECT authenticated
             (Some (fun _ auth_uid r =>
                      sql_eq N.eqb (Student.user_id r) auth_uid)) None;
    mkpolicy "Admins can insert students" INSERT authenticated
             None (Some is_admin);
    mkpolicy "Admins can update students" UPDATE authenticated
             (Some is_admin) None;
    mkpolicy "Admins can delete students" DELETE authenticated
             (Some is_admin) None ].

Definition user_roles_policies : list (policy UserRole.row) :=
  [ mkpolicy "Users can view own roles" SELECT authenticated
             (Some (fun _ auth_uid r =>
                      sql_eq N.eqb (UserRole.user_id r) auth_uid)) None;
    mkpolicy "Admins can view all roles" SELECT authenticated
             (Some is_admin) None;
    mkpolicy "Admins can manage roles" ALL authenticated
             (Some is_admin) None ].

Definition profiles_policies : list (policy Profile.row) :=
  [ mkpolicy "Users can view own profile" SELECT authenticated
             (Some (fun _ auth_uid r =>
                      sql_eq N.eqb (Profile.user_id r) auth_uid)) None;
    mkpolicy "Admins can view all profiles" SELECT authenticated
             (Some is_admin) None;
    mkpolicy "Users can update own profile" UPDATE authenticated
             (Some (fun _ auth_uid r =>
                      sql_eq N.eqb (Profile.user_id r) auth_uid)) None;
    mkpolicy "Users can insert own profile" INSERT authenticated
             None
             (Some (fun _ auth_uid r =>
                      sql_eq N.eqb (Profile.user_id r) auth_uid)) ].

Definition present {R A} (col : R -> option A) (r : R) : bool :=
  match col r with
  | Some _ => true
  | None => false
  end.

(** Two rows collide on a unique column when both hold the same non-null
    value. *)
Definition same {R A} (eqb : A -> A -> bool) (col : R -> option A)
           (r1 r2 : R) : bool :=
  holds (sql_eq eqb (col r1) (col r2)).

Definition courses_table : table Course.row :=
  mktable "courses"
    [ ("id", present Course.id);
      ("course_name", present Course.course_name);
      ("course_code", present Course.course_code);
      ("course_duration", present Course.course_duration);
      ("created_at", present Course.created_at);
      ("updated_at", present Course.updated_at) ]
    [ ("courses_pkey", same N.eqb Course.id);
      ("courses_course_code_key", same String.eqb Course.course_code) ]
    courses_policies
    update_updated_at_column.

Definition students_table : table Student.row :=
  mktable "students"
    [ ("id", present Student.id);
      ("name", present Student.name);
      ("email", present Student.email);
      ("created_at", present Student.created_at);
      ("updated_at", present Student.updated_at) ]
    [ ("students_pkey", same N.eqb Student.id);
      ("students_email_key", same String.eqb Student.email) ]
    students_policies
    update_updated_at_column.

(** [UNIQUE(user_id, role)]; the table has no update trigger. *)
Definition user_roles_table : table UserRole.row :=
  mktable "user_roles"
    [ ("id", present UserRole.id);
      ("user_id", present UserRole.user_id);
      ("role", present UserRole.role);
      ("created_at", present UserRole.created_at) ]
    [ ("user_roles_pkey", same N.eqb UserRole.id);
      ("user_roles_user_id_role_key",
       fun r1 r2 => same N.eqb UserRole.user_id r1 r2
                    && same app_role_eqb UserRole.role r1 r2) ]
    user_roles_policies
    (fun _ r => r).

Definition profiles_table : table Profile.row :=
  mktable "profiles"
    [ ("id", present Profile.id);
      ("user_id", present Profile.user_id);
      ("created_at", present Profile.created_at);
      ("updated_at", present Profile.updated_at) ]
    [ ("profiles_pkey", same N.eqb Profile.id);
      ("profiles_user_id_key", same N.eqb Profile.user_id) ]
    profiles_policies
    update_updated_at_column.

(* ================================================================== *)
(** ** Foreign keys                                                    *)
(* ================================================================== *)

Definition course_exists (d : db) (c : UUID) : bool :=
  existsb (fun r => holds (sql_eq N.eqb (Course.id r) (Some c))) (courses d).

Definition user_exists (d : db) (u : UUID) : bool :=
  existsb (fun r => N.eqb (AuthUser.id r) u) (auth_users d).

(** A referencing column passes when it is NULL or its target exists. *)
Definition references (target : UUID -> bool) (key : option UUID) : bool :=
  match key with
  | None => true
  | Some k => target k
  end.

(** On UPDATE the check runs only for a key that changed. *)
Definition key_changed (old new : option UUID) : bool :=
  match old, new with
  | Some a, Some b => negb (N.eqb a b)
  | None, None => false
  | _, _ => true
  end.

Definition fk_insert (tbl fk : string) (target : UUID -> bool)
           (key : option UUID) : result unit :=
  guard (references target key) (foreign_key_violation tbl fk None).

Definition fk_update {R} (tbl fk : string) (target : UUID -> bool)
           (col : R -> option UUID) (written : list (R * R)) : result unit :=
  guard (forallb (fun on => negb (key_changed (col (fst on)) (col (snd on)))
                            || references target (col (snd on)))
                 written)
        (foreign_key_violation tbl fk None).

Definition set_courses (d : db) (l : list Course.row) : db :=
  mkdb l (students d) (user_roles d) (profiles d) (auth_users d).
Definition set_students (d : db) (l : list Student.row) : db :=
  mkdb (courses d) l (user_roles d) (profiles d) (auth_users d).
Definition set_user_roles (d : db) (l : list UserRole.row) : db :=
  mkdb (courses d) (students d) l (profiles d) (auth_users d).
Definition set_profiles (d : db) (l : list Profile.row) : db :=
  mkdb (courses d) (students d) (user_roles d) l (auth_users d).
Definition set_auth_users (d : db) (l : list AuthUser.row) : db :=
  mkdb (courses d) (students d) (user_roles d) (profiles d) l.

(* ================================================================== *)
(** ** Statements on the four tables                                   *)
(* ================================================================== *)

(** *** courses *)

Definition select_courses (s : session) (d : db) : list Course.row :=
  select_rows courses_table d s (courses d).

Definition insert_course (e : env) (s : session) (a : CourseArgs.t) (d : db)
  : result db :=
  a' <- coerce_course a ;;
  rows <- insert_row courses_table d s
            (course_tuple a' (course_defaults e)) (courses d) ;;
  Ok (set_courses d rows).

(** [students.course_id] has no ON UPDATE action: changing a course id
    that students still reference, with no course left under the old id,
    raises. *)
Definition course_key_dangling (d : db) (key : option UUID) : bool :=
  match key with
  | None => false
  | Some c =>
      negb (course_exists d c)
      && existsb (fun st => holds (sql_eq N.eqb (Student.course_id st)
                                          (Some c)))
                 (students d)
  end.

Definition update_courses (e : env) (s : session) (w : Course.row -> bool)
           (a : CourseArgs.t) (d : db) : result db :=
  a' <- coerce_course a ;;
  res <- update_rows courses_table e d s w (course_tuple a') [] (courses d) ;;
  let d' := set_courses d (fst res) in
  _ <- guard (forallb
                (fun on =>
                   negb (key_changed (Course.id (fst on)) (Course.id (snd on)))
                   || negb (course_key_dangling d' (Course.id (fst on))))
                (snd res))
             (foreign_key_violation "courses" "students_course_id_fkey"
                (Some "students")) ;;
  Ok d'.

Definition set_course_id (c : option UUID) (r : Student.row) : Student.row :=
  Student.mk (Student.id r) (Student.name r) (Student.email r) c
             (Student.user_id r) (Student.created_at r) (Student.updated_at r).

(** [course_id ... ON DELETE SET NULL]: for a deleted course the
    referential action runs
    [UPDATE students SET course_id = NULL WHERE course_id = <old id>]
    outside row security; being an UPDATE of [students], it fires that
    table's BEFORE UPDATE trigger on every row it changes. *)
Definition students_set_null (e : env) (old_id : option UUID)
           (rows : list Student.row) : list Student.row :=
  map (fun st =>
         if holds (sql_eq N.eqb (Student.course_id st) old_id)
         then before_update students_table e (set_course_id None st)
         else st)
      rows.

Definition delete_courses (e : env) (s : session) (w : Course.row -> bool)
           (d : db) : db :=
  let (kept, removed) := delete_rows courses_table d s w (courses d) in
  set_students (set_courses d kept)
    (fold_left (fun studs c => students_set_null e (Course.id c) studs)
               removed (students d)).

(** *** students *)

Definition select_students (s : session) (d : db) : list Student.row :=
  select_rows students_table d s (students d).

Definition insert_student (e : env) (s : session) (a : StudentArgs.t)
           (d : db) : result db :=
  a' <- coerce_student a ;;
  let r := student_tuple a' (student_defaults e) in
  rows <- insert_row students_table d s r (students d) ;;
  _ <- fk_insert "students" "students_course_id_fkey" (course_exists d)
         (Student.course_id r) ;;
  _ <- fk_insert "students" "students_user_id_fkey" (user_exists d)
         (Student.user_id r) ;;
  Ok (set_students d rows).

Definition update_students (e : env) (s : session) (w : Student.row -> bool)
           (a : StudentArgs.t) (d : db) : result db :=
  a' <- coerce_student a ;;
  res <- update_rows students_table e d s w (student_tuple a') []
           (students d) ;;
  _ <- fk_update "students" "students_course_id_fkey" (course_exists d)
         Student.course_id (snd res) ;;
  _ <- fk_update "students" "students_user_id_fkey" (user_exists d)
         Student.user_id (snd res) ;;
  Ok (set_students d (fst res)).

Definition delete_students (s : session) (w : Student.row -> bool) (d : db)
  : db :=
  set_students d (fst (delete_rows students_table d s w (students d))).

(** *** user_roles *)

Definition select_user_roles (s : session) (d : db) : list UserRole.row :=
  select_rows user_roles_table d s (user_roles d).

Definition insert_user_role (e : env) (s : session) (a : UserRoleArgs.t)
           (d : db) : result db :=
  let r := user_role_tuple a (user_role_defaults e) in
  rows <- insert_row user_roles_table d s r (user_roles d) ;;
  _ <- fk_insert "user_roles" "user_roles_user_id_fkey" (user_exists d)
         (UserRole.user_id r) ;;
  Ok (set_user_roles d rows).

Definition update_user_roles (e : env) (s : session)
           (w : UserRole.row -> bool) (a : UserRoleArgs.t) (d : db)
  : result db :=
  res <- update_rows user_roles_table e d s w (user_role_tuple a) []
           (user_roles d) ;;
  _ <- fk_update "user_roles" "user_roles_user_id_fkey" (user_exists d)
         UserRole.user_id (snd res) ;;
  Ok (set_user_roles d (fst res)).

Definition delete_user_roles (s : session) (w : UserRole.row -> bool)
           (d : db) : db :=
  set_user_roles d (fst (delete_rows user_roles_table d s w (user_roles d))).

(** *** profiles *)

Definition select_profiles (s : session) (d : db) : list Profile.row :=
  select_rows profiles_table d s (profiles d).

Definition insert_profile (e : env) (s : session) (a : ProfileArgs.t)
           (d : db) : result db :=
  a' <- coerce_profile a ;;
  let r := profile_tuple a' (profile_defaults e) in
  rows <- insert_row profiles_table d s r (profiles d) ;;
  _ <- fk_insert "profiles" "profiles_user_id_fkey" (user_exists d)
         (Profile.user_id r) ;;
  Ok (set_profiles d rows).

Definition update_profiles (e : env) (s : session) (w : Profile.row -> bool)
           (a : ProfileArgs.t) (d : db) : result db :=
  a' <- coerce_profile a ;;
  res <- update_rows profiles_table e d s w (profile_tuple a') []
           (profiles d) ;;
  _ <- fk_update "profiles" "profiles_user_id_fkey" (user_exists d)
         Profile.user_id (snd res) ;;
  Ok (set_profiles d (fst res)).

Definition delete_profiles (s : session) (w : Profile.row -> bool) (d : db)
  : db :=
  set_profiles d (fst (delete_rows profiles_table d s w (profiles d))).

(* ================================================================== *)
(** ** Identity events and the provisioning trigger                    *)
(* ================================================================== *)

(** [raw_user_meta_data ->> key]: the text under [key], NULL when the
    metadata is NULL, has no such key, or holds JSON null there. *)
Definition json_text (j : option (list (string * option string)))
           (key : string) : option string :=
  match j with
  | None => None
  | Some obj =>
      match find (fun kv => String.eqb (fst kv) key) obj with
      | Some kv => snd kv
      | None => None
      end
  end.

(** The trigger function is SECURITY DEFINER: its statements run outside
    row security. *)
Definition definer : session := mksession bypassrls None.

(** The environment after one [gen_random_uuid()] has been drawn. *)
Definition next (e : env) : env :=
  mkenv (now e) (fun k => gen_random_uuid e (S k)).

(** [INSERT INTO public.profiles (user_id, username)
       VALUES (NEW.id, NEW.raw_user_meta_data ->> 'username');
     INSERT INTO public.user_roles (user_id, role)
       VALUES (NEW.id, 'student');] *)
Definition handle_new_user (e : env) (NEW : AuthUser.row) (d : db)
  : result db :=
  d1 <- insert_profile e definer
          (ProfileArgs.mk omitted (given (Some (AuthUser.id NEW)))
             (given (json_text (AuthUser.raw_user_meta_data NEW) "username"))
             omitted omitted)
          d ;;
  insert_user_role (next e) definer
    (UserRoleArgs.mk omitted (given (Some (AuthUser.id NEW)))
       (given (Some student)) omitted)
    d1.

(** The provider inserts the identity; [on_auth_user_created] fires AFTER
    INSERT, in the same transaction: if the trigger raises, the identity
    is not created either. *)
Definition create_identity (e : env) (NEW : AuthUser.row) (d : db)
  : result db :=
  _ <- guard (negb (user_exists d (AuthUser.id NEW)))
         (unique_violation "users_pkey") ;;
  handle_new_user e NEW (set_auth_users d (auth_users d ++ [NEW])).

(** Deleting an identity: the three [REFERENCES auth.users(id) ON DELETE
    CASCADE] columns delete their rows. *)
Definition delete_identity (u : UUID) (d : db) : db :=
  let other {R} (col : R -> option UUID) (r : R) :=
    negb (holds (sql_eq N.eqb (col r) (Some u))) in
  mkdb (courses d)
       (filter (other Student.user_id) (students d))
       (filter (other UserRole.user_id) (user_roles d))
       (filter (other Profile.user_id) (profiles d))
       (filter (fun r => negb (N.eqb (AuthUser.id r) u)) (auth_users d)).

(* ================================================================== *)
(** ** Requests, events, reachable states                              *)
(* ================================================================== *)

Inductive statement :=
| InsertCourse (a : CourseArgs.t)
| UpdateCourses (w : Course.row -> bool) (a : CourseArgs.t)
| DeleteCourses (w : Course.row -> bool)
| InsertStudent (a : StudentArgs.t)
| UpdateStudents (w : Student.row -> bool) (a : StudentArgs.t)
| DeleteStudents (w : Student.row -> bool)
| InsertUserRole (a : UserRoleArgs.t)
| UpdateUserRoles (w : UserRole.row -> bool) (a : UserRoleArgs.t)
| DeleteUserRoles (w : UserRole.row -> bool)
| InsertProfile (a : ProfileArgs.t)
| UpdateProfiles (w : Profile.row -> bool) (a : ProfileArgs.t)
| DeleteProfiles (w : Profile.row -> bool).

Definition exec (e : env) (s : session) (q : statement) (d : db)
  : result db :=
  match q with
  | InsertCourse a => insert_course e s a d
  | UpdateCourses w a => update_courses e s w a d
  | DeleteCourses w => Ok (delete_courses e s w d)
  | InsertStudent a => insert_student e s a d
  | UpdateStudents w a => update_students e s w a d
  | DeleteStudents w => Ok (delete_students s w d)
  | InsertUserRole a => insert_user_role e s a d
  | UpdateUserRoles w a => update_user_roles e s w a d
  | DeleteUserRoles w => Ok (delete_user_roles s w d)
  | InsertProfile a => insert_profile e s a d
  | UpdateProfiles w a => update_profiles e s w a d
  | DeleteProfiles w => Ok (delete_profiles s w d)
  end.

(** What can happen to the database: a request of some session, or the
    authentication provider creating or deleting an identity. *)
Inductive event :=
| Request (s : session) (q : statement)
| IdentityCreated (NEW : AuthUser.row)
| IdentityDeleted (u : UUID).

Definition step (e : env) (ev : event) (d : db) : result db :=
  match ev with
  | Request s q => exec e s q d
  | IdentityCreated NEW => create_identity e NEW d
  | IdentityDeleted u => Ok (delete_identity u d)
  end.

(** States reached from the freshly migrated, empty database. *)
Inductive reachable : db -> Prop :=
| reachable_empty : reachable empty_db
| reachable_step e ev d d' :
    reachable d -> step e ev d = Ok d' -> reachable d'.

(** Running a list of events, each in its own environment. *)
Fixpoint run (evs : list (env * event)) (d : db) : result db :=
  match evs with
  | [] => Ok d
  | (e, ev) :: evs' => d' <- step e ev d ;; run evs' d'
  end.

(* ================================================================== *)
(** ** Error messages                                                  *)
(* ================================================================== *)

Definition dquote : string := String (ascii_of_nat 34) EmptyString.

Definition quoted (s : string) : string := (dquote ++ s ++ dquote)%string.

Definition decimal (n : nat) : string :=
  NilEmpty.string_of_uint (Nat.to_uint n).

(** The primary message the server sends, which the API hands to the
    client as [error.message]. *)
Definition message (err : pg_error) : string :=
  match err with
  | string_data_right_truncation n =>
      ("value too long for type character varying(" ++ decimal n ++ ")")%string
  | numeric_value_out_of_range => "integer out of range"
  | insufficient_privilege t =>
      ("new row violates row-level security policy for table "
         ++ quoted t)%string
  | not_null_violation t c =>
      ("null value in column " ++ quoted c ++ " of relation " ++ quoted t
         ++ " violates not-null constraint")%string
  | unique_violation c =>
      ("duplicate key value violates unique constraint " ++ quoted c)%string
  | foreign_key_violation t c None =>
      ("insert or update on table " ++ quoted t
         ++ " violates foreign key constraint " ++ quoted c)%string
  | foreign_key_violation t c (Some t') =>
      ("update or delete on table " ++ quoted t
         ++ " violates foreign key constraint " ++ quoted c
         ++ " on table " ++ quoted t')%string
  end.

(* ================================================================== *)
(** ** The submit handlers of the Courses and Students pages           *)
(* ================================================================== *)

Module Client.

(** A JavaScript string is held as the UTF-8 text it is sent as (a
    string with an unpaired surrogate has none and is left out).  Its
    [length] counts UTF-16 code units: two for a character outside the
    basic plane (a four-byte sequence), one for any other. *)
Definition utf16_units (c : ascii) : nat :=
  if is_continuation c then 0%nat
  else if (240 <=? nat_of_ascii c)%nat then 2%nat else 1%nat.

Fixpoint js_length (s : string) : nat :=
  match s with
  | EmptyString => 0%nat
  | String c s' => (utf16_units c + js_length s')%nat
  end.

(** White space and line terminators, as [trim] strips them: U+0009 to
    U+000D and U+0020 in one byte; U+00A0 in two; U+1680, U+2000 to
    U+200A, U+2028, U+2029, U+202F, U+205F, U+3000 and U+FEFF in three. *)
Definition is_white (c : ascii) : bool :=
  let n := nat_of_ascii c in
  ((n =? 32) || ((9 <=? n) && (n <=? 13)))%nat.

Definition is_white2 (c1 c2 : ascii) : bool :=
  ((nat_of_ascii c1 =? 194) && (nat_of_ascii c2 =? 160))%nat.

Definition is_white3 (c1 c2 c3 : ascii) : bool :=
  let n1 := nat_of_ascii c1 in
  let n2 := nat_of_ascii c2 in
  let n3 := nat_of_ascii c3 in
  ((n1 =? 225) && (n2 =? 154) && (n3 =? 128)
   || (n1 =? 226) && (n2 =? 128)
      && (((128 <=? n3) && (n3 <=? 138))
          || (n3 =? 168) || (n3 =? 169) || (n3 =? 175))
   || (n1 =? 226) && (n2 =? 129) && (n3 =? 159)
   || (n1 =? 227) && (n2 =? 128) && (n3 =? 128)
   || (n1 =? 239) && (n2 =? 187) && (n3 =? 191))%nat.

(** The string is one white-space character. *)
Definition is_white_char (s : string) : bool :=
  match s with
  | String c1 EmptyString => is_white c1
  | String c1 (String c2 EmptyString) => is_white2 c1 c2
  | String c1 (String c2 (String c3 EmptyString)) => is_white3 c1 c2 c3
  | _ => false
  end.

Fixpoint trimStart (s : string) : string :=
  match s with
  | EmptyString => EmptyString
  | String c1 r1 =>
      if is_white c1 then trimStart r1
      else
        match r1 with
        | String c2 r2 =>
            if is_white2 c1 c2 then trimStart r2
            else
              match r2 with
              | String c3 r3 =>
                  if is_white3 c1 c2 c3 then trimStart r3 else s
              | EmptyString => s
              end
        | EmptyString => s
        end
  end.

Fixpoint trimEnd (s : string) : string :=
  match s with
  | EmptyString => EmptyString
  | String c s' =>
      let t := String c (trimEnd s') in
      if is_white_char t then EmptyString else t
  end.

Definition trim (s : string) : string := trimEnd (trimStart s).

(** [toUpperCase] and [toLowerCase] are the case mapping of the ASCII
    letters; every other byte is kept.  On ASCII text ([ascii_text])
    that is the whole of JavaScript's mapping, and the statements that
    depend on what the mapping does to a text assume the text is ASCII. *)
Definition upper (c : ascii) : ascii :=
  let n := nat_of_ascii c in
  if ((97 <=? n) && (n <=? 122))%nat then ascii_of_nat (n - 32) else c.

Fixpoint toUpperCase (s : string) : string :=
  match s with
  | EmptyString => EmptyString
  | String c s' => String (upper c) (toUpperCase s')
  end.

Definition lower (c : ascii) : ascii :=
  let n := nat_of_ascii c in
  if ((65 <=? n) && (n <=? 90))%nat then ascii_of_nat (n + 32) else c.

Fixpoint toLowerCase (s : string) : string :=
  match s with
  | EmptyString => EmptyString
  | String c s' => String (lower c) (toLowerCase s')
  end.

(** [s.includes(sub)] *)
Fixpoint includes (s sub : string) : bool :=
  prefix sub s
  || match s with
     | EmptyString => false
     | String _ s' => includes s' sub
     end.

(** [a || b] on strings: the empty string is falsy. *)
Definition or_else (a b : string) : string :=
  match a with
  | EmptyString => b
  | _ => a
  end.

(** [.min(lo).max(hi)] of a string schema: bounds on [length]. *)
Definition length_between (lo hi : nat) (s : string) : bool :=
  ((lo <=? js_length s) && (js_length s <=? hi))%nat.

(** What the handler shows: nothing sent because validation failed, a
    success toast, the dedicated duplicate toast with its form-field
    error, or the catch block's toast. *)
Inductive outcome :=
| Invalid
| Success (toast : string)
| Duplicate (toast field field_error : string)
| Failure (toast : string).

Definition by_id {R} (col : R -> option UUID) (id : UUID) (r : R) : bool :=
  holds (sql_eq N.eqb (col r) (Some id)).

Module Courses.
Record form := mkform {
  course_name : string;
  course_code : string;
  course_duration : Z
}.

(** [courseSchema.parse(formData)] succeeds *)
Definition validateForm (formData : form) : bool :=
  length_between 2 255 (trim (course_name formData))
  && length_between 2 50 (trim (course_code formData))
  && (1 <=? course_duration formData)
  && (course_duration formData <=? 120).

Definition payload (formData : form) : CourseArgs.t :=
  CourseArgs.mk omitted
    (given (Some (trim (course_name formData))))
    (given (Some (toUpperCase (trim (course_code formData)))))
    (given (Some (course_duration formData)))
    omitted omitted.

Definition handleSubmit (e : env) (s : session)
           (editingCourse : option UUID) (formData : form) (d : db)
  : outcome * db :=
  if negb (validateForm formData) then (Invalid, d)
  else
    match editingCourse with
    | Some id =>
        match update_courses e s (by_id Course.id id)
                             (payload formData) d with
        | Err error =>
            (Failure (or_else (message error) "Failed to save course"), d)
        | Ok d' => (Success "Course updated successfully", d')
        end
    | None =>
        match insert_course e s (payload formData) d with
        | Err error =>
            if includes (message error) "duplicate"
               || includes (message error) "unique"
            then (Duplicate "A course with this code already exists"
                            "course_code"
                            "This course code is already in use", d)
            else (Failure (or_else (message error)
                                   "Failed to save course"), d)
        | Ok d' => (Success "Course added successfully", d')
        end
    end.

(** [interface Course]: a course as the page keeps it. *)
Module Item.
Record t := mk {
  id : UUID;
  course_name : string;
  course_code : string;
  course_duration : Z;
  student_count : option nat
}.
End Item.

(** The object [countMap], used as a map from course id to a count; keys
    in insertion order. *)
Fixpoint get (countMap : list (UUID * nat)) (key : UUID) : option nat :=
  match countMap with
  | [] => None
  | (k, n) :: rest => if N.eqb k key then Some n else get rest key
  end.

Fixpoint set (countMap : list (UUID * nat)) (key : UUID) (n : nat)
  : list (UUID * nat) :=
  match countMap with
  | [] => [(key, n)]
  | (k, m) :: rest =>
      if N.eqb k key then (k, n) :: rest else (k, m) :: set rest key n
  end.

(** [n || 0] *)
Definition or_zero (n : option nat) : nat :=
  match n with
  | Some m => m
  | None => 0%nat
  end.

(** [studentCounts?.forEach((s) => { if (s.course_id)
      countMap[s.course_id] = (countMap[s.course_id] || 0) + 1 })] *)
Definition countStudents (studentCounts : option (list (option UUID)))
  : list (UUID * nat) :=
  match studentCounts with
  | None => []
  | Some rows =>
      fold_left (fun countMap course_id =>
                   match course_id with
                   | Some c => set countMap c (or_zero (get countMap c) + 1)%nat
                   | None => countMap
                   end)
                rows []
  end.

(** [coursesData?.map((course) => ({ ...course,
      student_count: countMap[course.id] || 0 })) || []] *)
Definition coursesWithCounts (coursesData : option (list Item.t))
           (studentCounts : option (list (option UUID))) : list Item.t :=
  let countMap := countStudents studentCounts in
  match coursesData with
  | None => []
  | Some rows =>
      map (fun course =>
             Item.mk (Item.id course) (Item.course_name course)
                     (Item.course_code course) (Item.course_duration course)
                     (Some (or_zero (get countMap (Item.id course)))))
          rows
  end.

Definition filteredCourses (courses : list Item.t) (searchTerm : string)
  : list Item.t :=
  filter (fun course =>
            includes (toLowerCase (Item.course_name course))
                     (toLowerCase searchTerm)
            || includes (toLowerCase (Item.course_code course))
                        (toLowerCase searchTerm))
         courses.

(** [supabase.from('courses').delete().eq('id', id)]: the statement
    raises no error of its own, so the handler goes on to its success
    toast. *)
Definition handleDelete (e : env) (s : session) (id : UUID) (d : db)
  : outcome * db :=
  (Success "Course deleted successfully",
   delete_courses e s (by_id Course.id id) d).
End Courses.

Module Students.
Record form := mkform {
  name : string;
  email : string;
  course_id : option UUID
}.

Section WithEmailSyntax.
(** The address syntax accepted by the schema's [.email()] check. *)
Variable is_email : string -> bool.

(** [studentSchema.parse(formData)] succeeds *)
Definition validateForm (formData : form) : bool :=
  length_between 2 255 (trim (name formData))
  && is_email (trim (email formData))
  && (js_length (trim (email formData)) <=? 255)%nat.

Definition payload (formData : form) : StudentArgs.t :=
  StudentArgs.mk omitted
    (given (Some (trim (name formData))))
    (given (Some (trim (email formData))))
    (given (course_id formData))
    omitted omitted omitted.

Definition handleSubmit (e : env) (s : session)
           (editingStudent : option UUID) (formData : form) (d : db)
  : outcome * db :=
  if negb (validateForm formData) then (Invalid, d)
  else
    match editingStudent with
    | Some id =>
        match update_students e s (by_id Student.id id)
                              (payload formData) d with
        | Err error =>
            (Failure (or_else (message error)
                              "Failed to save student"), d)
        | Ok d' => (Success "Student updated successfully", d')
        end
    | None =>
        match insert_student e s (payload formData) d with
        | Err error =>
            if includes (message error) "duplicate"
            then (Duplicate "A student with this email already exists"
                            "email"
                            "This email is already registered", d)
            else (Failure (or_else (message error)
                                   "Failed to save student"), d)
        | Ok d' => (Success "Student added successfully", d')
        end
    end.
End WithEmailSyntax.

(** [interface Student]: a student as the page keeps it, with the joined
    course's id, name and code. *)
Module Item.
Record t := mk {
  id : UUID;
  name : string;
  email : string;
  course_id : option UUID;
  courses : option (UUID * string * string)
}.
End Item.

(** [filterCourse] is ['all'] ([None]) or a course id. *)
Definition filteredStudents (students : list Item.t) (searchTerm : string)
           (filterCourse : option UUID) : list Item.t :=
  filter (fun student =>
            let matchesSearch :=
              includes (toLowerCase (Item.name student))
                       (toLowerCase searchTerm)
              || includes (toLowerCase (Item.email student))
                          (toLowerCase searchTerm) in
            let matchesCourse :=
              match filterCourse with
              | None => true
              | Some c =>
                  match Item.course_id student with
                  | Some c' => N.eqb c' c
                  | None => false
                  end
              end in
            matchesSearch && matchesCourse)
         students.

Definition handleDelete (s : session) (id : UUID) (d : db) : outcome * db :=
  (Success "Student deleted successfully",
   delete_students s (by_id Student.id id) d).
End Students.

Module Dashboard.
(** [interface StudentProfile]; [course] is the joined course's name, code
    and duration. *)
Record StudentProfile := mkprofile {
  id : option UUID;
  name : option string;
  email : option string;
  course : option (option string * option string * option Z)
}.

(** [.maybeSingle()]: no row gives no data, one row gives it, several
    rows give an error and no data. *)
Definition maybeSingle {A} (rows : list A) : option A * bool :=
  match rows with
  | [] => (None, false)
  | [row] => (Some row, false)
  | _ => (None, true)
  end.

(** The value [fetchStudentProfile] stores with [setStudentProfile], if
    any: the students query under the session's policies, narrowed by
    [.eq('user_id', user.id)], with the course joined through
    [course_id] from the courses the session can read. *)
Definition fetchStudentProfile (user : option UUID) (s : session) (d : db)
  : option StudentProfile :=
  match user with
  | None => None
  | Some user_id =>
      match maybeSingle (filter (by_id Student.user_id user_id)
                                (select_students s d)) with
      | (Some data, false) =>
          Some (mkprofile
                  (Student.id data) (Student.name data) (Student.email data)
                  (option_map
                     (fun c => (Course.course_name c, Course.course_code c,
                                Course.course_duration c))
                     (find (fun c => holds (sql_eq N.eqb (Course.id c)
                                                   (Student.course_id data)))
                           (select_courses s d))))
      | _ => None
      end
  end.
End Dashboard.

Module DashboardLayout.
(** [email.split('@')[0]] *)
Fixpoint before_at (email : string) : string :=
  match email with
  | EmptyString => EmptyString
  | String c rest =>
      if Ascii.eqb c "@"%char then EmptyString else String c (before_at rest)
  end.

(** [user?.email?.split('@')[0] || 'User']; [user] is [None] when nobody
    is signed in, [Some None] when the identity has no email. *)
Definition userName (user : option (option string)) : string :=
  match user with
  | Some (Some email) => or_else (before_at email) "User"
  | _ => "User"
  end.

(** [user?.email?.[0].toUpperCase() || 'U']: on an empty email the first
    character is undefined and calling [toUpperCase] on it throws
    ([None]). *)
Definition userInitial (user : option (option string)) : option string :=
  match user with
  | Some (Some (String c _)) =>
      Some (or_else (toUpperCase (String c EmptyString)) "U")
  | Some (Some EmptyString) => None
  | _ => Some "U"
  end.
End DashboardLayout.

Module Auth.
Inductive shown :=
| toast_error (message : string)
| toast_success (message : string).

Section WithEmailSyntax.
(** The address syntax accepted by the schema's [.email()] check. *)
Variable is_email : string -> bool.

(** The first issue [authSchema] raises on each field, if any. *)
Definition email_issue (email : string) : option string :=
  if negb (is_email (trim email)) then Some "Invalid email address"
  else if (255 <? js_length (trim email))%nat
       then Some "String must contain at most 255 character(s)"
       else None.

Definition password_issue (password : string) : option string :=
  if (js_length password <? 6)%nat
  then Some "Password must be at least 6 characters"
  else if (100 <? js_length password)%nat
       then Some "String must contain at most 100 character(s)"
       else None.

Definition username_issue (username : string) : option string :=
  if (js_length (trim username) <? 2)%nat
  then Some "Username must be at least 2 characters"
  else if (50 <? js_length (trim username))%nat
       then Some "String must contain at most 50 character(s)"
       else None.

(** [err.errors[0].message]: fields are checked in the schema's order. *)
Definition first_issue (issues : list (option string)) : option string :=
  match filter (fun i => match i with Some _ => true | None => false end)
               issues with
  | Some m :: _ => Some m
  | _ => None
  end.

(** [signIn] and [signUp] come from the authentication hook; each answers
    with an error message or with none. *)
Definition handleSignIn (signIn : string -> string -> option string)
           (email password : string) : shown :=
  match first_issue [email_issue email; password_issue password] with
  | Some m => toast_error m
  | None =>
      match signIn email password with
      | Some message =>
          if includes message "Invalid login credentials"
          then toast_error "Invalid email or password"
          else toast_error message
      | None => toast_success "Welcome back!"
      end
  end.

Definition handleSignUp
           (signUp : string -> string -> string -> option string)
           (email password username : string) : shown :=
  match first_issue [email_issue email; password_issue password;
                     username_issue username] with
  | Some m => toast_error m
  | None =>
      match signUp email password username with
      | Some message =>
          if includes message "already registered"
          then toast_error "This email is already registered"
          else toast_error message
      | None => toast_success "Account created successfully!"
      end
  end.
End WithEmailSyntax.
End Auth.

End Client.

(* ================================================================== *)
(** ** Notions used in the statements                                  *)
(* ================================================================== *)

(** The session of a signed-in identity. *)
Definition signed_in (I : UUID) : session := mksession authenticated (Some I).

(** The row an UPDATE leaves in place of [r]. *)
Definition updated {R} (T : table R) (e : env) (d : db) (s : session)
           (w : R -> bool) (assign : R -> R) (r : R) : R :=
  if hit T UPDATE d s w r then before_update T e (assign r) else r.

(** [owned_by I r]: the student row's [user_id] is [I]. *)
Definition owned_by (I : UUID) (r : Student.row) : bool :=
  holds (sql_eq N.eqb (Student.user_id r) (Some I)).

(** No two rows of the list collide under [same_key]. *)
Definition distinct_by {R} (same_key : R -> R -> bool) (rows : list R)
  : Prop :=
  ForallOrdPairs (fun a b => same_key a b = false /\ same_key b a = false)
                 rows.

(** The declared NOT NULL and UNIQUE / PRIMARY KEY constraints of a table
    hold of its rows. *)
Definition constraints_hold {R} (T : table R) (rows : list R) : Prop :=
  Forall (fun r => check_not_null T (not_nulls T) r = Ok tt) rows
  /\ Forall (fun ix => distinct_by (snd ix) rows) (uniques T).

(** [refreshed T e d s w old new]: row by row, an UPDATE by [s] with WHERE
    clause [w] left [updated_at] at the transaction's [now()] on the rows
    it hit and left the other rows alone. *)
Definition refreshed {R} `{HasUpdatedAt R} (T : table R) (e : env) (d : db)
           (s : session) (w : R -> bool) (old new : list R) : Prop :=
  Forall2 (fun o n => if hit T UPDATE d s w o
                      then get_updated_at n = Some (now e)
                      else n = o)
          old new.

(** The student row references one of the deleted courses. *)
Definition references_deleted (removed : list Course.row)
           (st : Student.row) : bool :=
  existsb (fun c => holds (sql_eq N.eqb (Student.course_id st) (Course.id c)))
          removed.

(** The student row with its course reference cleared and [updated_at]
    set to the transaction's [now()]; every other column as it was. *)
Definition detached (e : env) (st : Student.row) : Student.row :=
  Student.mk (Student.id st) (Student.name st) (Student.email st) None
             (Student.user_id st) (Student.created_at st) (Some (now e)).

(** The two rows [handle_new_user] writes for identity [u]. *)
Definition provisioned_profile (e : env) (u : UUID) (name : option string)
  : Profile.row :=
  Profile.mk (Some (gen_random_uuid e 0%nat)) (Some u) name
             (Some (now e)) (Some (now e)).

Definition provisioned_role (e : env) (u : UUID) : UserRole.row :=
  UserRole.mk (Some (gen_random_uuid e 1%nat)) (Some u) (Some student)
              (Some (now e)).

Definition profile_of (u : UUID) (p : Profile.row) : bool :=
  holds (sql_eq N.eqb (Profile.user_id p) (Some u)).

Definition role_of (u : UUID) (r : UserRole.row) : bool :=
  holds (sql_eq N.eqb (UserRole.user_id r) (Some u)).

(** Every table satisfies its NOT NULL, PRIMARY KEY and UNIQUE
    constraints. *)
Definition tables_ok (d : db) : Prop :=
  constraints_hold courses_table (courses d)
  /\ constraints_hold students_table (students d)
  /\ constraints_hold user_roles_table (user_roles d)
  /\ constraints_hold profiles_table (profiles d).

(** Every foreign key points at an existing row, and identities have
    distinct ids. *)
Definition refers {R} (target : UUID -> bool) (col : R -> option UUID)
           (rows : list R) : Prop :=
  Forall (fun r => references target (col r) = true) rows.

Definition references_ok (d : db) : Prop :=
  refers (course_exists d) Student.course_id (students d)
  /\ refers (user_exists d) Student.user_id (students d)
  /\ refers (user_exists d) UserRole.user_id (user_roles d)
  /\ refers (user_exists d) Profile.user_id (profiles d)
  /\ NoDup (map AuthUser.id (auth_users d)).

Definition schema_ok (d : db) : Prop := tables_ok d /\ references_ok d.

(** Entries of the students response that name course [k]. *)
Definition names_course (k : UUID) (course_id : option UUID) : bool :=
  match course_id with
  | Some c => N.eqb c k
  | None => false
  end.

(** Every stored course code is in upper case. *)
Definition upper_case_codes (d : db) : Prop :=
  forall c code,
    In c (courses d) -> Course.course_code c = Some code ->
    Client.toUpperCase code = code.

(* ================================================================== *)
(** ** A worked history                                                *)
(* ================================================================== *)

(** The examples below run on one small history: identities 1 and 2 sign
    up, identity 1 is granted the admin role from outside row security,
    and then, signed in, creates a course and two student records, both
    for identity 2. *)

(** The environment of a transaction at time [t] whose generated ids are
    [u0], [u0 + 1], ... *)
Definition at_time (t : Z) (u0 : N) : env :=
  mkenv t (fun k => (u0 + N.of_nat k)%N).

Definition superuser : session := mksession bypassrls None.

Definition history : list (env * event) :=
  [ (at_time 1 100,
     IdentityCreated (AuthUser.mk 1%N (Some [("username", Some "alice")])));
    (at_time 2 200, IdentityCreated (AuthUser.mk 2%N None));
    (at_time 3 300,
     Request superuser
       (InsertUserRole (UserRoleArgs.mk omitted (given (Some 1%N))
                          (given (Some admin)) omitted)));
    (at_time 4 400,
     Request (signed_in 1%N)
       (InsertCourse (CourseArgs.mk omitted (given (Some "Algebra"))
                        (given (Some "cs101")) omitted omitted omitted)));
    (at_time 5 500,
     Request (signed_in 1%N)
       (InsertStudent (StudentArgs.mk omitted (given (Some "Bob"))
                         (given (Some "bob@example.org"))
                         (given (Some 400%N)) (given (Some 2%N))
                         omitted omitted)));
    (at_time 6 600,
     Request (signed_in 1%N)
       (InsertStudent (StudentArgs.mk omitted (given (Some "Bobby"))
                         (given (Some "bobby@example.org"))
                         (given (Some 400%N)) (given (Some 2%N))
                         omitted omitted))) ].

Definition campus : db :=
  Eval vm_compute in
    match run history empty_db with
    | Ok d => d
    | Err _ => empty_db
    end.

(** The admin re-dates every course at time 9, asking for [updated_at]
    77. *)
Definition redate : CourseArgs.t :=
  CourseArgs.mk omitted omitted omitted omitted omitted (given (Some 77)).

Definition campus_redated : db :=
  Eval vm_compute in
    match update_courses (at_time 9 900) (signed_in 1%N) (fun _ => true)
                         redate campus with
    | Ok d => d
    | Err _ => campus
    end.

(** [campus] after the admin has added a second course, "LOG1". *)
Definition campus_two_courses : db :=
  Eval vm_compute in
    match insert_course (at_time 7 700) (signed_in 1%N)
            (CourseArgs.mk omitted (given (Some "Logic"))
               (given (Some "LOG1")) (given (Some 6)) omitted omitted)
            campus with
    | Ok d => d
    | Err _ => campus
    end.

(** The two accounts and the admin grant of [history], followed by the
    admin adding one course through the Courses page. *)
Definition campus_by_page : db :=
  Eval vm_compute in
    match run (firstn 3 history) empty_db with
    | Ok d =>
        snd (Client.Courses.handleSubmit (at_time 4 400) (signed_in 1%N) None
               (Client.Courses.mkform "Algebra" " cs101 " 12) d)
    | Err _ => empty_db
    end.


(** A username of 300 characters, longer than the profile column. *)
Fixpoint repeat_char (c : ascii) (n : nat) : string :=
  match n with
  | O => EmptyString
  | S n' => String c (repeat_char c n')
  end.

Definition overlong_name : string := repeat_char "a"%char 300.

(** A username of 200 characters of two bytes each (e with an acute
    accent, U+00E9): 400 bytes. *)
Fixpoint repeat_text (t : string) (n : nat) : string :=
  match n with
  | O => EmptyString
  | S n' => (t ++ repeat_text t n')%string
  end.

Definition e_acute : string :=
  String (ascii_of_nat 195) (String (ascii_of_nat 169) EmptyString).

Definition accented_name : string := repeat_text e_acute 200.

(* ================================================================== *)
(** * Properties                                                       *)
(* ================================================================== *)

(** ** The error monad *)

Lemma bind_Ok {A B} (r : result A) (k : A -> result B) (b : B) :
  bind r k = Ok b -> exists a, r = Ok a /\ k a = Ok b.
Proof.
  destruct r as [a|err]; simpl; intros H; [eauto | discriminate].
Qed.

Lemma guard_Ok (b : bool) (err : pg_error) (u : unit) :
  guard b err = Ok u -> b = true.
Proof.
  destruct b; simpl; [reflexivity | discriminate].
Qed.

Lemma guard_true (err : pg_error) : guard true err = Ok tt.
Proof. reflexivity. Qed.

(** Splits a hypothesis [bind r k = Ok b] into its two runs. *)
Ltac bind_inv H :=
  let a := fresh "a" in
  let Ha := fresh "Hrun" in
  apply bind_Ok in H; destruct H as (a & Ha & H).

(** ** Three-valued comparisons and column values *)

Lemma holds_sql_eq_N (a b : option UUID) :
  holds (sql_eq N.eqb a b) = true <-> exists u, a = Some u /\ b = Some u.
Proof.
  destruct a as [x|], b as [y|]; simpl; split;
    try discriminate; try (intros (u & H1 & H2); discriminate).
  - destruct (N.eqb_spec x y); [subst; eauto | discriminate].
  - intros (u & H1 & H2). inversion H1; inversion H2; subst.
    now rewrite N.eqb_refl.
Qed.

Lemma app_role_eqb_eq (a b : app_role) : app_role_eqb a b = true <-> a = b.
Proof. destruct a, b; simpl; split; congruence. Qed.

Lemma holds_sql_eq_role (a b : option app_role) :
  holds (sql_eq app_role_eqb a b) = true
  <-> exists r, a = Some r /\ b = Some r.
Proof.
  destruct a as [[]|], b as [[]|]; simpl; split;
    try discriminate; try (intros (r & H1 & H2); congruence); eauto.
Qed.

Lemma holds_sql_and (a b : option bool) :
  holds (sql_and a b) = holds a && holds b.
Proof. destruct a as [[]|], b as [[]|]; reflexivity. Qed.

Lemma same_sym_N {R} (col : R -> option UUID) (r1 r2 : R) :
  same N.eqb col r1 r2 = same N.eqb col r2 r1.
Proof.
  unfold same. destruct (col r1), (col r2); simpl; try reflexivity.
  now rewrite N.eqb_sym.
Qed.

Lemma same_sym_string {R} (col : R -> option string) (r1 r2 : R) :
  same String.eqb col r1 r2 = same String.eqb col r2 r1.
Proof.
  unfold same. destruct (col r1), (col r2); simpl; try reflexivity.
  now rewrite String.eqb_sym.
Qed.

Lemma same_sym_role {R} (col : R -> option app_role) (r1 r2 : R) :
  same app_role_eqb col r1 r2 = same app_role_eqb col r2 r1.
Proof.
  unfold same. destruct (col r1) as [[]|], (col r2) as [[]|]; reflexivity.
Qed.

(** ** Text *)

Lemma char_length_le_bytes (s : string) :
  (char_length s <= String.length s)%nat.
Proof.
  induction s as [|c s IH]; simpl; [lia|].
  destruct (is_continuation c); lia.
Qed.

Lemma char_length_le_units (s : string) :
  (char_length s <= Client.js_length s)%nat.
Proof.
  induction s as [|c s IH]; simpl; [lia|].
  unfold Client.utf16_units. destruct (is_continuation c); [lia|].
  destruct (240 <=? nat_of_ascii c)%nat; lia.
Qed.

(** On ASCII text characters, code units and bytes are the same count. *)
Lemma ascii_text_lengths (s : string) :
  ascii_text s = true ->
  char_length s = String.length s /\ Client.js_length s = String.length s.
Proof.
  induction s as [|c s IH]; simpl; [now split|].
  intros H. apply andb_prop in H. destruct H as [Hc Hs].
  destruct (IH Hs) as [IH1 IH2].
  assert (Hk : is_continuation c = false /\ Client.utf16_units c = 1%nat).
  { unfold is_ascii in Hc. apply Nat.ltb_lt in Hc.
    assert (H128 : (128 <=? nat_of_ascii c)%nat = false)
      by (apply Nat.leb_gt; lia).
    assert (H240 : (240 <=? nat_of_ascii c)%nat = false)
      by (apply Nat.leb_gt; lia).
    unfold Client.utf16_units, is_continuation.
    cbv zeta. rewrite H128, H240. now split. }
  destruct Hk as [Hk1 Hk2]. rewrite Hk1, Hk2. lia.
Qed.

Lemma varchar_fits (n : nat) (v : string) :
  (char_length v <= n)%nat -> varchar n (Some v) = Ok (Some v).
Proof.
  intros H. unfold varchar.
  now replace (char_length v <=? n)%nat with true
    by (symmetry; now apply Nat.leb_le).
Qed.

Lemma present_Some {R A} (col : R -> option A) (r : R) :
  present col r = true -> exists v, col r = Some v.
Proof. unfold present. destruct (col r); [eauto | discriminate]. Qed.

Lemma key_changed_false (a b : option UUID) : key_changed a b = false -> a = b.
Proof.
  destruct a as [x|], b as [y|]; simpl; try discriminate; try reflexivity.
  intros H. apply negb_false_iff in H. apply N.eqb_eq in H. now subst.
Qed.

(** ** Lists *)

Lemma filter_all {A} (f : A -> bool) (l : list A) :
  (forall x, In x l -> f x = true) -> filter f l = l.
Proof.
  induction l as [|x l IH]; intros H; simpl; [reflexivity|].
  rewrite (H x (or_introl eq_refl)), IH; [reflexivity|].
  intros y Hy. apply H. now right.
Qed.

Lemma filter_none {A} (f : A -> bool) (l : list A) :
  (forall x, In x l -> f x = false) -> filter f l = [].
Proof.
  induction l as [|x l IH]; intros H; simpl; [reflexivity|].
  rewrite (H x (or_introl eq_refl)), IH; [reflexivity|].
  intros y Hy. apply H. now right.
Qed.

Lemma NoDup_map_filter {A B} (f : A -> B) (g : A -> bool) (l : list A) :
  NoDup (map f l) -> NoDup (map f (filter g l)).
Proof.
  induction l as [|x l IH]; simpl; intros H; [assumption|].
  inversion H as [|y l' Hx Hl]; subst.
  destruct (g x); [|now apply IH]. simpl. constructor; [|now apply IH].
  intros Hin. apply Hx. apply in_map_iff in Hin.
  destruct Hin as (z & Hz & Hzl). apply filter_In in Hzl.
  apply in_map_iff. exists z. tauto.
Qed.

Lemma NoDup_snoc {A} (l : list A) (x : A) :
  NoDup l -> ~ In x l -> NoDup (l ++ [x]).
Proof.
  induction l as [|y l IH]; simpl; intros Hl Hx.
  - constructor; [tauto | constructor].
  - inversion Hl; subst. constructor.
    + intros Hin. apply in_app_or in Hin. simpl in Hin. intuition.
    + apply IH; tauto.
Qed.

Lemma existsb_same_string {R} (col : R -> option string) (r : R)
      (rows : list R) :
  (exists r0 v, In r0 rows /\ col r0 = Some v /\ col r = Some v) ->
  existsb (same String.eqb col r) rows = true.
Proof.
  intros (r0 & v & Hin & H0 & Hr). apply existsb_exists. exists r0.
  split; [assumption|]. unfold same. rewrite H0, Hr. simpl.
  now rewrite String.eqb_refl.
Qed.

(** ** The engine *)

Section EngineFacts.
Context {R : Type}.
Variable T : table R.
Variables (e : env) (d : db) (s : session) (w : R -> bool).
Variable assign : R -> R.

(** A successful UPDATE rewrites exactly the rows it hits, in place, and
    reports them. *)
Lemma update_rows_Ok (todo : list R) :
  forall seen res,
    update_rows T e d s w assign seen todo = Ok res ->
    fst res = seen ++ map (updated T e d s w assign) todo
    /\ snd res = map (fun r => (r, before_update T e (assign r)))
                     (filter (hit T UPDATE d s w) todo).
Proof.
  induction todo as [|r rest IH]; intros seen res H; simpl in *.
  - inversion H; subst; simpl. now rewrite app_nil_r.
  - unfold updated at 1. destruct (hit T UPDATE d s w r) eqn:Hhit.
    + bind_inv H. bind_inv H. inversion H; subst; clear H; simpl.
      apply IH in Hrun0. destruct Hrun0 as [H1 H2].
      rewrite H1, H2, <- app_assoc. now split.
    + apply IH in H. destruct H as [H1 H2].
      rewrite H1, H2, <- app_assoc. now split.
Qed.

(** An UPDATE that hits no row succeeds and changes nothing. *)
Lemma update_rows_miss (todo : list R) :
  forallb (fun r => negb (hit T UPDATE d s w r)) todo = true ->
  forall seen,
    update_rows T e d s w assign seen todo = Ok (seen ++ todo, []).
Proof.
  induction todo as [|r rest IH]; intros Hmiss seen; simpl in *.
  - now rewrite app_nil_r.
  - apply andb_prop in Hmiss. destruct Hmiss as [Hr Hrest].
    apply negb_true_iff in Hr. rewrite Hr, (IH Hrest), <- app_assoc.
    reflexivity.
Qed.
End EngineFacts.

Lemma insert_row_inv {R} (T : table R) (d : db) (s : session) (r : R)
      (rows rows' : list R) :
  insert_row T d s r rows = Ok rows' -> rows' = rows ++ [r].
Proof.
  unfold insert_row. intros H. bind_inv H. now inversion H.
Qed.

Section EngineSuccess.
Context {R : Type}.
Variable T : table R.

Lemma check_unique_free (others : list R) (r : R) :
  forall ixs,
    (forall ix, In ix ixs -> existsb (snd ix r) others = false) ->
    check_unique ixs others r = Ok tt.
Proof.
  induction ixs as [|[n k] ixs IH]; intros H; simpl; [reflexivity|].
  pose proof (H (n, k) (or_introl eq_refl)) as Hk. simpl in Hk.
  rewrite Hk. apply IH.
  intros ix Hix. apply H. now right.
Qed.

(** An INSERT the policies admit, with no NOT NULL column NULL and no
    key collision, appends its row. *)
Lemma insert_row_Ok (d : db) (s : session) (r : R) (rows : list R) :
  passes_check (rls T) INSERT d s r = true ->
  check_not_null T (not_nulls T) r = Ok tt ->
  (forall ix, In ix (uniques T) -> existsb (snd ix r) rows = false) ->
  insert_row T d s r rows = Ok (rows ++ [r]).
Proof.
  intros Hrls Hnn Hfree. unfold insert_row, check_row.
  rewrite Hrls, Hnn. simpl. now rewrite check_unique_free.
Qed.
End EngineSuccess.

Section EngineCollision.
Context {R : Type}.
Variable T : table R.

(** With the primary key free and the second unique index hit, the
    error names the second index. *)
Lemma check_unique_second (pk ix : string) (k1 k2 : R -> R -> bool)
      (others : list R) (r : R) :
  existsb (k1 r) others = false ->
  existsb (k2 r) others = true ->
  check_unique [(pk, k1); (ix, k2)] others r = Err (unique_violation ix).
Proof. intros H1 H2. simpl. now rewrite H1, H2. Qed.

Lemma insert_row_Err (d : db) (s : session) (r : R) (rows : list R)
      (err : pg_error) :
  passes_check (rls T) INSERT d s r = true ->
  check_not_null T (not_nulls T) r = Ok tt ->
  check_unique (uniques T) rows r = Err err ->
  insert_row T d s r rows = Err err.
Proof.
  intros Hrls Hnn Hu. unfold insert_row, check_row.
  now rewrite Hrls, Hnn, Hu.
Qed.

Variables (e : env) (d : db) (s : session) (w : R -> bool).
Variable assign : R -> R.

Lemma update_rows_skip (l1 : list R) :
  forallb (fun x => negb (hit T UPDATE d s w x)) l1 = true ->
  forall seen todo,
    update_rows T e d s w assign seen (l1 ++ todo)
    = update_rows T e d s w assign (seen ++ l1) todo.
Proof.
  induction l1 as [|x l1 IH]; intros Hmiss seen todo; simpl in *.
  - now rewrite app_nil_r.
  - apply andb_prop in Hmiss. destruct Hmiss as [Hx Hl1].
    apply negb_true_iff in Hx. rewrite Hx, (IH Hl1), <- app_assoc.
    reflexivity.
Qed.

(** The first row an UPDATE hits decides: if its new row fails a check,
    the statement raises that error. *)
Lemma update_rows_Err (l1 l2 : list R) (o : R) (err : pg_error) :
  forallb (fun x => negb (hit T UPDATE d s w x)) l1 = true ->
  hit T UPDATE d s w o = true ->
  new_row_allowed (rls T) d s (before_update T e (assign o)) = true ->
  check_not_null T (not_nulls T) (before_update T e (assign o)) = Ok tt ->
  check_unique (uniques T) (l1 ++ l2) (before_update T e (assign o))
  = Err err ->
  update_rows T e d s w assign [] (l1 ++ o :: l2) = Err err.
Proof.
  intros Hmiss Hhit Hrls Hnn Hu. rewrite update_rows_skip by assumption.
  simpl. rewrite Hhit. unfold check_row. now rewrite Hrls, Hnn, Hu.
Qed.
End EngineCollision.

(** ** Declared constraints are kept by the engine *)

Lemma distinct_by_In {R} (same_key : R -> R -> bool) (rows : list R)
      (a b : R) :
  distinct_by same_key rows -> In a rows -> In b rows ->
  a = b \/ same_key a b = false.
Proof.
  intros Hd Ha Hb.
  destruct (ForallOrdPairs_In Hd a b Ha Hb) as [H|[[H _]|[_ H]]]; auto.
Qed.

Lemma distinct_by_app {R} (k : R -> R -> bool) (l1 l2 : list R) :
  distinct_by k (l1 ++ l2)
  <-> distinct_by k l1 /\ distinct_by k l2
      /\ forall a b, In a l1 -> In b l2 -> k a b = false /\ k b a = false.
Proof.
  unfold distinct_by. induction l1 as [|x l1 IH]; simpl.
  - split.
    + intros H. split; [constructor|]. split; [assumption|].
      intros a b [].
    + now intros (_ & H & _).
  - split.
    + intros H. inversion H as [|x0 l0 Hx Hrest]; subst.
      apply Forall_app in Hx. destruct Hx as [Hx1 Hx2].
      apply IH in Hrest. destruct Hrest as (H1 & H2 & H12).
      split; [now constructor|]. split; [assumption|].
      intros a b [<-|Ha] Hb.
      * rewrite Forall_forall in Hx2. now apply Hx2.
      * now apply H12.
    + intros (H1 & H2 & H12). inversion H1 as [|x0 l0 Hx Hrest]; subst.
      constructor.
      * apply Forall_app. split; [assumption|].
        apply Forall_forall. intros b Hb. apply H12; auto.
      * apply IH. split; [assumption|]. split; [assumption|].
        intros a b Ha Hb; apply H12; auto.
Qed.

Lemma distinct_by_cons {R} (k : R -> R -> bool) (x : R) (l : list R) :
  distinct_by k (x :: l)
  <-> distinct_by k l
      /\ forall b, In b l -> k x b = false /\ k b x = false.
Proof.
  unfold distinct_by. split.
  - intros H. inversion H as [|x0 l0 Hx Hrest]; subst.
    split; [assumption|]. now apply Forall_forall.
  - intros [H1 H2]. constructor; [now apply Forall_forall | assumption].
Qed.

(** Replacing one row by a row that collides with none of the others. *)
Lemma distinct_by_replace {R} (k : R -> R -> bool) (l1 l2 : list R)
      (r r' : R) :
  (forall a b, k a b = k b a) ->
  distinct_by k (l1 ++ r :: l2) ->
  existsb (k r') (l1 ++ l2) = false ->
  distinct_by k (l1 ++ r' :: l2).
Proof.
  intros Hsym Hd Hfree.
  assert (Hnone : forall o, In o (l1 ++ l2) ->
                            k r' o = false /\ k o r' = false).
  { intros o Ho. assert (H : k r' o = false).
    { destruct (k r' o) eqn:Hk; [|reflexivity].
      rewrite <- Hfree. symmetry. apply existsb_exists. eauto. }
    split; [assumption | now rewrite Hsym]. }
  apply distinct_by_app in Hd. destruct Hd as (H1 & H2 & H12).
  apply distinct_by_cons in H2. destruct H2 as [H2 Hr].
  apply distinct_by_app. split; [assumption|]. split.
  - apply distinct_by_cons. split; [assumption|].
    intros b Hb. apply Hnone, in_or_app. now right.
  - intros a b Ha [<-|Hb].
    + destruct (Hnone a) as [Hx Hy]; [apply in_or_app; now left | auto].
    + apply H12; [assumption | now right].
Qed.

Lemma distinct_by_filter {R} (k : R -> R -> bool) (f : R -> bool)
      (l : list R) :
  distinct_by k l -> distinct_by k (filter f l).
Proof.
  induction l as [|x l IH]; simpl; intros H; [assumption|].
  apply distinct_by_cons in H. destruct H as [Hl Hx].
  destruct (f x); [|now apply IH].
  apply distinct_by_cons. split; [now apply IH|].
  intros b Hb. apply filter_In in Hb. now apply Hx.
Qed.

(** A rewrite of the rows that keeps every key keeps them distinct. *)
Lemma distinct_by_map {R} (k : R -> R -> bool) (g : R -> R) (l : list R) :
  (forall a b, k (g a) (g b) = k a b) ->
  distinct_by k l -> distinct_by k (map g l).
Proof.
  intros Hg. induction l as [|x l IH]; simpl; intros H; [assumption|].
  apply distinct_by_cons in H. destruct H as [Hl Hx].
  apply distinct_by_cons. split; [now apply IH|].
  intros b Hb. apply in_map_iff in Hb. destruct Hb as (b0 & <- & Hb0).
  rewrite !Hg. now apply Hx.
Qed.

Section EngineKeepsConstraints.
Context {R : Type}.
Variable T : table R.
Hypothesis uniques_sym :
  forall ix, In ix (uniques T) -> forall a b, snd ix a b = snd ix b a.

Lemma check_unique_Ok (others : list R) (r : R) :
  forall ixs, check_unique ixs others r = Ok tt ->
              forall ix, In ix ixs -> existsb (snd ix r) others = false.
Proof.
  induction ixs as [|[n k] ixs IH]; simpl; intros H ix Hix;
    [contradiction|].
  destruct (existsb (k r) others) eqn:Hk; [discriminate|].
  destruct Hix as [<-|Hix]; [assumption | now apply IH].
Qed.

Lemma check_row_Ok (allowed : bool) (others : list R) (r : R) (u : unit) :
  check_row T allowed others r = Ok u ->
  allowed = true
  /\ check_not_null T (not_nulls T) r = Ok tt
  /\ forall ix, In ix (uniques T) -> existsb (snd ix r) others = false.
Proof.
  unfold check_row. intros H. bind_inv H. bind_inv H.
  apply guard_Ok in Hrun. destruct a0, u.
  split; [assumption|]. split; [assumption|].
  now apply check_unique_Ok.
Qed.

Lemma constraints_hold_replace (l1 l2 : list R) (r r' : R) :
  constraints_hold T (l1 ++ r :: l2) ->
  check_not_null T (not_nulls T) r' = Ok tt ->
  (forall ix, In ix (uniques T) -> existsb (snd ix r') (l1 ++ l2) = false) ->
  constraints_hold T (l1 ++ r' :: l2).
Proof.
  intros [Hnn Hu] Hr' Hfree. split.
  - apply Forall_app in Hnn. destruct Hnn as [H1 H2].
    inversion H2; subst. apply Forall_app. split; [assumption|].
    now constructor.
  - rewrite Forall_forall in *. intros ix Hix.
    apply distinct_by_replace with (r := r); auto.
Qed.

Lemma insert_row_keeps (d : db) (s : session) (r : R) (rows rows' : list R) :
  constraints_hold T rows ->
  insert_row T d s r rows = Ok rows' ->
  constraints_hold T rows'.
Proof.
  intros [Hnn Hu] H. unfold insert_row in H. bind_inv H.
  inversion H; subst. apply check_row_Ok in Hrun.
  destruct Hrun as (_ & Hr & Hfree). split.
  - apply Forall_app. split; [assumption | now repeat constructor].
  - rewrite Forall_forall in *. intros ix Hix.
    apply distinct_by_app. split; [now apply Hu|]. split.
    + apply distinct_by_cons. split; [constructor | contradiction].
    + intros x y Hx [<-|[]].
      assert (Hk : snd ix r x = false).
      { destruct (snd ix r x) eqn:Hk; [|reflexivity].
        rewrite <- (Hfree ix Hix). symmetry. apply existsb_exists. eauto. }
      split; [rewrite uniques_sym|]; assumption.
Qed.

Lemma update_rows_keeps (e : env) (d : db) (s : session) (w : R -> bool)
      (assign : R -> R) (todo : list R) :
  forall seen res,
    constraints_hold T (seen ++ todo) ->
    update_rows T e d s w assign seen todo = Ok res ->
    constraints_hold T (fst res).
Proof.
  induction todo as [|r rest IH]; intros seen res Hc H; simpl in H.
  - inversion H; subst; simpl. now rewrite app_nil_r in Hc.
  - destruct (hit T UPDATE d s w r).
    + bind_inv H. bind_inv H. inversion H; subst; clear H; simpl.
      apply check_row_Ok in Hrun. destruct Hrun as (_ & Hr & Hfree).
      apply (IH _ _ ) in Hrun0; [assumption|].
      rewrite <- app_assoc. simpl.
      now apply constraints_hold_replace with (r := r).
    + apply IH in H; [assumption|]. now rewrite <- app_assoc.
Qed.

Lemma filter_keeps (f : R -> bool) (rows : list R) :
  constraints_hold T rows -> constraints_hold T (filter f rows).
Proof.
  intros [Hnn Hu]. split.
  - rewrite Forall_forall in *. intros r Hr. apply filter_In in Hr.
    now apply Hnn.
  - rewrite Forall_forall in *. intros ix Hix.
    now apply distinct_by_filter, Hu.
Qed.
End EngineKeepsConstraints.

(** ** Every reachable state satisfies the table constraints *)

Lemma courses_uniques_sym :
  forall ix, In ix (uniques courses_table) ->
             forall a b, snd ix a b = snd ix b a.
Proof.
  intros ix [<-|[<-|[]]] a b; simpl;
    [apply same_sym_N | apply same_sym_string].
Qed.

Lemma students_uniques_sym :
  forall ix, In ix (uniques students_table) ->
             forall a b, snd ix a b = snd ix b a.
Proof.
  intros ix [<-|[<-|[]]] a b; simpl;
    [apply same_sym_N | apply same_sym_string].
Qed.

Lemma user_roles_uniques_sym :
  forall ix, In ix (uniques user_roles_table) ->
             forall a b, snd ix a b = snd ix b a.
Proof.
  intros ix [<-|[<-|[]]] a b; simpl; [apply same_sym_N|].
  now rewrite same_sym_N, same_sym_role.
Qed.

Lemma profiles_uniques_sym :
  forall ix, In ix (uniques profiles_table) ->
             forall a b, snd ix a b = snd ix b a.
Proof.
  intros ix [<-|[<-|[]]] a b; simpl; apply same_sym_N.
Qed.

Create HintDb schema.

#[local] Hint Resolve courses_uniques_sym students_uniques_sym
  user_roles_uniques_sym profiles_uniques_sym : schema.

(** The SET NULL action keeps the students table's constraints: it
    touches neither [id] nor [email], and leaves [updated_at] non-null. *)
Lemma students_set_null_keeps (e : env) (c : option UUID)
      (rows : list Student.row) :
  constraints_hold students_table rows ->
  constraints_hold students_table (students_set_null e c rows).
Proof.
  intros [Hnn Hu]. unfold students_set_null. split.
  - apply Forall_map. rewrite Forall_forall in *. intros st Hst.
    specialize (Hnn st Hst).
    destruct (holds (sql_eq N.eqb (Student.course_id st) c));
      [|assumption].
    simpl in *. unfold present in *. simpl.
    destruct (Student.id st), (Student.name st), (Student.email st),
      (Student.created_at st); simpl in *; try discriminate; reflexivity.
  - rewrite Forall_forall in *. intros ix Hix.
    apply distinct_by_map; [|now apply Hu].
    intros a b.
    destruct Hix as [<-|[<-|[]]]; simpl; unfold same;
      destruct (holds (sql_eq N.eqb (Student.course_id a) c)),
        (holds (sql_eq N.eqb (Student.course_id b) c)); reflexivity.
Qed.

Lemma fold_set_null_keeps (e : env) (removed : list Course.row) :
  forall rows,
    constraints_hold students_table rows ->
    constraints_hold students_table
      (fold_left (fun studs c => students_set_null e (Course.id c) studs)
                 removed rows).
Proof.
  induction removed as [|c removed IH]; intros rows H; simpl;
    [assumption|].
  now apply IH, students_set_null_keeps.
Qed.

(** Splits [tables_ok] into its four tables and closes those that are
    untouched. *)
Ltac four_tables :=
  unfold tables_ok; split; [|split; [|split]]; simpl; try assumption.

Lemma exec_keeps_tables (e : env) (s : session) (q : statement) (d d' : db) :
  tables_ok d -> exec e s q d = Ok d' -> tables_ok d'.
Proof.
  intros (Hc & Hs & Hr & Hp) H.
  destruct q; simpl in H.
  - unfold insert_course in H. bind_inv H. bind_inv H. inversion H; subst.
    apply insert_row_keeps in Hrun0; auto with schema.
    four_tables.
  - unfold update_courses in H. bind_inv H. bind_inv H. bind_inv H.
    inversion H; subst.
    apply update_rows_keeps in Hrun0; auto with schema.
    four_tables.
  - inversion H; subst. unfold delete_courses, delete_rows. simpl.
    four_tables; [now apply filter_keeps | now apply fold_set_null_keeps].
  - unfold insert_student in H. bind_inv H. bind_inv H. bind_inv H.
    bind_inv H. inversion H; subst.
    apply insert_row_keeps in Hrun0; auto with schema.
    four_tables.
  - unfold update_students in H. bind_inv H. bind_inv H. bind_inv H.
    bind_inv H. inversion H; subst.
    apply update_rows_keeps in Hrun0; auto with schema.
    four_tables.
  - inversion H; subst. unfold delete_students, delete_rows. simpl.
    four_tables. now apply filter_keeps.
  - unfold insert_user_role in H. bind_inv H. bind_inv H.
    inversion H; subst.
    apply insert_row_keeps in Hrun; auto with schema.
    four_tables.
  - unfold update_user_roles in H. bind_inv H. bind_inv H.
    inversion H; subst.
    apply update_rows_keeps in Hrun; auto with schema.
    four_tables.
  - inversion H; subst. unfold delete_user_roles, delete_rows. simpl.
    four_tables. now apply filter_keeps.
  - unfold insert_profile in H. bind_inv H. bind_inv H. bind_inv H.
    inversion H; subst.
    apply insert_row_keeps in Hrun0; auto with schema.
    four_tables.
  - unfold update_profiles in H. bind_inv H. bind_inv H. bind_inv H.
    inversion H; subst.
    apply update_rows_keeps in Hrun0; auto with schema.
    four_tables.
  - inversion H; subst. unfold delete_profiles, delete_rows. simpl.
    four_tables. now apply filter_keeps.
Qed.

Lemma step_keeps_tables (e : env) (ev : event) (d d' : db) :
  tables_ok d -> step e ev d = Ok d' -> tables_ok d'.
Proof.
  intros Hok H. destruct ev as [s q|NEW|u]; simpl in H.
  - eapply exec_keeps_tables; eauto.
  - unfold create_identity in H. bind_inv H.
    unfold handle_new_user in H. bind_inv H.
    apply (exec_keeps_tables _ _ (InsertProfile _)) in Hrun0.
    + now apply (exec_keeps_tables _ _ (InsertUserRole _)) in H.
    + destruct Hok as (Hc & Hs & Hr & Hp). four_tables.
  - inversion H; subst. destruct Hok as (Hc & Hs & Hr & Hp).
    unfold delete_identity. four_tables; now apply filter_keeps.
Qed.

Lemma reachable_tables_ok (d : db) : reachable d -> tables_ok d.
Proof.
  induction 1 as [|e ev d d' _ IH Hstep].
  - four_tables; split; repeat constructor.
  - eapply step_keeps_tables; eauto.
Qed.

(** ** Foreign keys hold in every reachable state *)

Lemma refers_weaken {R} (t t' : UUID -> bool) (col : R -> option UUID)
      (rows : list R) :
  (forall k, t k = true -> t' k = true) ->
  refers t col rows -> refers t' col rows.
Proof.
  intros Hmono. unfold refers. apply Forall_impl. intros r.
  destruct (col r); simpl; auto.
Qed.

Lemma refers_filter {R} (t : UUID -> bool) (col : R -> option UUID)
      (f : R -> bool) (rows : list R) :
  refers t col rows -> refers t col (filter f rows).
Proof.
  unfold refers. rewrite !Forall_forall. intros H r Hr.
  apply filter_In in Hr. now apply H.
Qed.

Lemma refers_insert {R} (T : table R) (t : UUID -> bool)
      (col : R -> option UUID) (d : db) (s : session) (r : R)
      (rows rows' : list R) (tbl fk : string) (u : unit) :
  refers t col rows ->
  insert_row T d s r rows = Ok rows' ->
  fk_insert tbl fk t (col r) = Ok u ->
  refers t col rows'.
Proof.
  intros Hrows Hins Hfk. apply insert_row_inv in Hins. subst.
  apply guard_Ok in Hfk. unfold refers. apply Forall_app.
  split; [assumption | now repeat constructor].
Qed.

Lemma refers_update {R} (T : table R) (t : UUID -> bool)
      (col : R -> option UUID) (e : env) (d : db) (s : session)
      (w : R -> bool) (assign : R -> R) (rows : list R)
      (res : list R * list (R * R)) (tbl fk : string) (u : unit) :
  refers t col rows ->
  update_rows T e d s w assign [] rows = Ok res ->
  fk_update tbl fk t col (snd res) = Ok u ->
  refers t col (fst res).
Proof.
  intros Hrows Hupd Hfk. apply update_rows_Ok in Hupd.
  destruct Hupd as [Hfst Hsnd]. rewrite Hfst. simpl.
  apply guard_Ok in Hfk. rewrite Hsnd in Hfk.
  rewrite forallb_forall in Hfk.
  unfold refers in *. rewrite Forall_forall in *.
  intros r' Hr'. apply in_map_iff in Hr'. destruct Hr' as (r & <- & Hr).
  unfold updated. destruct (hit T UPDATE d s w r) eqn:Hhit; [|now apply Hrows].
  specialize (Hfk (r, before_update T e (assign r))). simpl in Hfk.
  assert (Hin : In (r, before_update T e (assign r))
                   (map (fun r0 => (r0, before_update T e (assign r0)))
                        (filter (hit T UPDATE d s w) rows))).
  { apply in_map_iff. exists r. split; [reflexivity|].
    apply filter_In. now split. }
  specialize (Hfk Hin). apply orb_prop in Hfk. destruct Hfk as [Hsame|Hok].
  - apply negb_true_iff, key_changed_false in Hsame. rewrite <- Hsame.
    now apply Hrows.
  - exact Hok.
Qed.

Lemma course_exists_iff (d : db) (c : UUID) :
  course_exists d c = true
  <-> exists o, In o (courses d) /\ Course.id o = Some c.
Proof.
  unfold course_exists. rewrite existsb_exists. split.
  - intros (o & Ho & Hid). apply holds_sql_eq_N in Hid.
    destruct Hid as (u & Hu & Hc). inversion Hc; subst. eauto.
  - intros (o & Ho & Hid). exists o. split; [assumption|].
    apply holds_sql_eq_N. eauto.
Qed.

Lemma user_exists_iff (d : db) (u : UUID) :
  user_exists d u = true
  <-> exists o, In o (auth_users d) /\ AuthUser.id o = u.
Proof.
  unfold user_exists. rewrite existsb_exists. split.
  - intros (o & Ho & Hid). apply N.eqb_eq in Hid. eauto.
  - intros (o & Ho & Hid). exists o. split; [assumption|].
    now apply N.eqb_eq.
Qed.

Lemma fold_set_null (e : env) (removed : list Course.row) :
  forall rows,
    fold_left (fun studs c => students_set_null e (Course.id c) studs)
              removed rows
    = map (fun st => if references_deleted removed st then detached e st
                     else st)
          rows.
Proof.
  induction removed as [|c removed IH]; intros rows; simpl.
  - symmetry. apply map_id.
  - rewrite IH. unfold students_set_null. rewrite map_map.
    apply map_ext. intros st.
    destruct (holds (sql_eq N.eqb (Student.course_id st) (Course.id c)));
      simpl; [|reflexivity].
    unfold references_deleted. simpl.
    replace (existsb _ removed) with false; [reflexivity|].
    symmetry. apply not_true_is_false. intros Hex.
    apply existsb_exists in Hex. destruct Hex as (c' & _ & Hc').
    discriminate.
Qed.

Lemma update_courses_keeps_refs (e : env) (s : session)
      (w : Course.row -> bool) (a : CourseArgs.t) (d d' : db) :
  references_ok d -> update_courses e s w a d = Ok d' -> references_ok d'.
Proof.
  intros (Hc & Hu & Hr & Hp & Hn) H. unfold update_courses in H.
  bind_inv H. bind_inv H. bind_inv H. inversion H; subst; clear H.
  apply guard_Ok in Hrun1. apply update_rows_Ok in Hrun0.
  destruct Hrun0 as [Hfst Hsnd]. simpl in Hfst.
  split; [|now repeat split].
  unfold refers in *. rewrite Forall_forall in *. intros st Hst.
  cbn [students set_courses] in Hst.
  destruct (Student.course_id st) as [c|] eqn:Hcid; [|reflexivity].
  cbn [references]. specialize (Hc st Hst). rewrite Hcid in Hc.
  cbn [references] in Hc. apply course_exists_iff in Hc.
  destruct Hc as (o & Ho & Hoid).
  assert (Hnew : In (updated courses_table e d s w (course_tuple a0) o)
                    (courses (set_courses d (fst a1)))).
  { cbn [courses set_courses]. rewrite Hfst. now apply in_map. }
  unfold updated in Hnew.
  destruct (hit courses_table UPDATE d s w o) eqn:Hhit.
  - rewrite forallb_forall in Hrun1.
    specialize (Hrun1 (o, before_update courses_table e (course_tuple a0 o))).
    cbn [fst snd] in Hrun1.
    assert (Hin : In (o, before_update courses_table e (course_tuple a0 o))
                     (snd a1)).
    { rewrite Hsnd. apply in_map_iff. exists o. split; [reflexivity|].
      apply filter_In. now split. }
    specialize (Hrun1 Hin). apply orb_prop in Hrun1.
    destruct Hrun1 as [Hsame|Hkept].
    + apply negb_true_iff, key_changed_false in Hsame.
      apply course_exists_iff. eexists. split; [exact Hnew|].
      now rewrite <- Hsame.
    + apply negb_true_iff in Hkept. rewrite Hoid in Hkept.
      cbn [course_key_dangling] in Hkept.
      apply andb_false_iff in Hkept. destruct Hkept as [Hex|Hnoref].
      * now apply negb_false_iff in Hex.
      * exfalso. apply not_true_iff_false in Hnoref. apply Hnoref.
        apply existsb_exists. exists st. split; [exact Hst|].
        apply holds_sql_eq_N. eauto.
  - apply course_exists_iff. eauto.
Qed.

Lemma delete_courses_keeps_refs (e : env) (s : session)
      (w : Course.row -> bool) (d : db) :
  references_ok d -> references_ok (delete_courses e s w d).
Proof.
  intros (Hc & Hu & Hr & Hp & Hn).
  set (d' := delete_courses e s w d).
  assert (Hcourses : courses d'
                     = filter (fun c => negb (hit courses_table DELETE d s w c))
                              (courses d)) by reflexivity.
  assert (Hstudents : students d'
                      = map (fun st =>
                               if references_deleted
                                    (filter (hit courses_table DELETE d s w)
                                            (courses d)) st
                               then detached e st else st)
                            (students d)).
  { unfold d', delete_courses, delete_rows. simpl. apply fold_set_null. }
  assert (Hsame : forall k, user_exists d' k = user_exists d k)
    by reflexivity.
  unfold references_ok.
  split; [|split; [|split; [|split]]]; try assumption.
  - unfold refers in *. rewrite Forall_forall in *. intros st' Hst'.
    rewrite Hstudents in Hst'. apply in_map_iff in Hst'.
    destruct Hst' as (st & <- & Hst).
    destruct (references_deleted _ st) eqn:Hdel; [reflexivity|].
    destruct (Student.course_id st) as [c|] eqn:Hcid; [|reflexivity].
    cbn [references]. specialize (Hc st Hst). rewrite Hcid in Hc.
    cbn [references] in Hc. apply course_exists_iff in Hc.
    destruct Hc as (o & Ho & Hoid). apply course_exists_iff.
    exists o. split; [|assumption]. rewrite Hcourses. apply filter_In.
    split; [assumption|]. apply negb_true_iff. apply not_true_is_false.
    intros Hhit. apply not_true_iff_false in Hdel. apply Hdel.
    unfold references_deleted. apply existsb_exists. exists o. split.
    + apply filter_In. now split.
    + rewrite Hcid. apply holds_sql_eq_N. eauto.
  - unfold refers in *. rewrite Forall_forall in *. intros st' Hst'.
    rewrite Hstudents in Hst'. apply in_map_iff in Hst'.
    destruct Hst' as (st & <- & Hst). specialize (Hu st Hst).
    destruct (references_deleted _ st); cbn [detached Student.user_id];
      destruct (Student.user_id st); cbn [references] in *;
      try reflexivity; now rewrite Hsame.
Qed.

Lemma course_exists_grows (d : db) (rows : list Course.row) (k : UUID) :
  incl (courses d) rows ->
  course_exists d k = true -> course_exists (set_courses d rows) k = true.
Proof.
  intros Hincl H. apply course_exists_iff in H. destruct H as (o & Ho & Hid).
  apply course_exists_iff. exists o. split; [now apply Hincl | assumption].
Qed.

Lemma exec_keeps_refs (e : env) (s : session) (q : statement) (d d' : db) :
  references_ok d -> exec e s q d = Ok d' -> references_ok d'.
Proof.
  intros Hok H. destruct q; simpl in H.
  - destruct Hok as (Hc & Hu & Hr & Hp & Hn).
    unfold insert_course in H. bind_inv H. bind_inv H. inversion H; subst.
    apply insert_row_inv in Hrun0. subst.
    split; [|now repeat split].
    apply refers_weaken with (t := course_exists d); [|assumption].
    intros k. apply course_exists_grows. intros x Hx.
    apply in_or_app. now left.
  - eapply update_courses_keeps_refs; eauto.
  - inversion H; subst. now apply delete_courses_keeps_refs.
  - destruct Hok as (Hc & Hu & Hr & Hp & Hn).
    unfold insert_student in H. bind_inv H. bind_inv H. bind_inv H.
    bind_inv H. inversion H; subst.
    split; [|split; [|now repeat split]].
    + eapply refers_insert with (col := Student.course_id); eauto.
    + eapply refers_insert with (col := Student.user_id); eauto.
  - destruct Hok as (Hc & Hu & Hr & Hp & Hn).
    unfold update_students in H. bind_inv H. bind_inv H. bind_inv H.
    bind_inv H. inversion H; subst.
    split; [|split; [|now repeat split]].
    + eapply refers_update with (col := Student.course_id); eauto.
    + eapply refers_update with (col := Student.user_id); eauto.
  - destruct Hok as (Hc & Hu & Hr & Hp & Hn). inversion H; subst.
    split; [|split; [|now repeat split]];
      unfold delete_students, delete_rows; simpl; now apply refers_filter.
  - destruct Hok as (Hc & Hu & Hr & Hp & Hn).
    unfold insert_user_role in H. bind_inv H. bind_inv H. inversion H; subst.
    split; [|split; [|split; [|now split]]]; try assumption.
    eapply refers_insert with (col := UserRole.user_id); eauto.
  - destruct Hok as (Hc & Hu & Hr & Hp & Hn).
    unfold update_user_roles in H. bind_inv H. bind_inv H. inversion H; subst.
    split; [|split; [|split; [|now split]]]; try assumption.
    eapply refers_update with (col := UserRole.user_id); eauto.
  - destruct Hok as (Hc & Hu & Hr & Hp & Hn). inversion H; subst.
    split; [|split; [|split; [|now split]]]; try assumption.
    unfold delete_user_roles, delete_rows; simpl; now apply refers_filter.
  - destruct Hok as (Hc & Hu & Hr & Hp & Hn).
    unfold insert_profile in H. bind_inv H. bind_inv H. bind_inv H.
    inversion H; subst.
    split; [|split; [|split; [|split]]]; try assumption.
    eapply refers_insert with (col := Profile.user_id); eauto.
  - destruct Hok as (Hc & Hu & Hr & Hp & Hn).
    unfold update_profiles in H. bind_inv H. bind_inv H. bind_inv H.
    inversion H; subst.
    split; [|split; [|split; [|split]]]; try assumption.
    eapply refers_update with (col := Profile.user_id); eauto.
  - destruct Hok as (Hc & Hu & Hr & Hp & Hn). inversion H; subst.
    split; [|split; [|split; [|split]]]; try assumption.
    unfold delete_profiles, delete_rows; simpl; now apply refers_filter.
Qed.

Lemma user_exists_grows (d : db) (NEW : AuthUser.row) (k : UUID) :
  user_exists d k = true ->
  user_exists (set_auth_users d (auth_users d ++ [NEW])) k = true.
Proof.
  intros H. apply user_exists_iff in H. destruct H as (o & Ho & Hid).
  apply user_exists_iff. exists o. split; [|assumption].
  cbn. apply in_or_app. now left.
Qed.

(** Rows left by the cascade still point at identities that are left. *)
Lemma refers_after_cascade {R} (col : R -> option UUID) (rows : list R)
      (d : db) (u : UUID) :
  refers (user_exists d) col rows ->
  refers (user_exists (delete_identity u d)) col
         (filter (fun r => negb (holds (sql_eq N.eqb (col r) (Some u)))) rows).
Proof.
  unfold refers. rewrite !Forall_forall. intros H r Hr.
  apply filter_In in Hr. destruct Hr as [Hin Hkeep].
  specialize (H r Hin). destruct (col r) as [k|] eqn:Hk; [|reflexivity].
  cbn [references] in *. apply user_exists_iff in H.
  destruct H as (o & Ho & Hid). apply user_exists_iff. exists o.
  split; [|assumption]. cbn. apply filter_In. split; [assumption|].
  apply negb_true_iff. apply not_true_is_false. intros Heq.
  apply N.eqb_eq in Heq. apply negb_true_iff in Hkeep.
  apply not_true_iff_false in Hkeep. apply Hkeep.
  apply holds_sql_eq_N. exists u. split; congruence.
Qed.

Lemma step_keeps_refs (e : env) (ev : event) (d d' : db) :
  references_ok d -> step e ev d = Ok d' -> references_ok d'.
Proof.
  intros Hok H. destruct ev as [s q|NEW|u]; simpl in H.
  - eapply exec_keeps_refs; eauto.
  - unfold create_identity in H. bind_inv H. apply guard_Ok in Hrun.
    apply negb_true_iff in Hrun.
    unfold handle_new_user in H. bind_inv H.
    apply (exec_keeps_refs _ _ (InsertProfile _)) in Hrun0.
    + now apply (exec_keeps_refs _ _ (InsertUserRole _)) in H.
    + destruct Hok as (Hc & Hu & Hr & Hp & Hn).
      split; [|split; [|split; [|split]]]; try assumption.
      * eapply refers_weaken; [|exact Hu]. intros k.
        apply user_exists_grows.
      * eapply refers_weaken; [|exact Hr]. intros k.
        apply user_exists_grows.
      * eapply refers_weaken; [|exact Hp]. intros k.
        apply user_exists_grows.
      * cbn. rewrite map_app. apply NoDup_snoc; [assumption|].
        intros Hin. apply in_map_iff in Hin. destruct Hin as (o & Hid & Ho).
        apply not_true_iff_false in Hrun. apply Hrun.
        apply user_exists_iff. eauto.
  - inversion H; subst. destruct Hok as (Hc & Hu & Hr & Hp & Hn).
    split; [|split; [|split; [|split]]].
    + cbn. now apply refers_filter.
    + now apply refers_after_cascade.
    + now apply refers_after_cascade.
    + now apply refers_after_cascade.
    + cbn. now apply NoDup_map_filter.
Qed.

(** Every reachable state satisfies the whole schema: NOT NULL, primary
    keys, unique constraints and foreign keys. *)
Lemma reachable_schema_ok (d : db) : reachable d -> schema_ok d.
Proof.
  intros Hd. split; [now apply reachable_tables_ok|].
  induction Hd as [|e ev d d' _ IH Hstep].
  - repeat split; constructor.
  - eapply step_keeps_refs; eauto.
Qed.

(** ** The worked history is reachable *)

Lemma run_reachable (evs : list (env * event)) :
  forall d d', reachable d -> run evs d = Ok d' -> reachable d'.
Proof.
  induction evs as [|[e ev] evs IH]; intros d d' Hd H; simpl in H.
  - now inversion H; subst.
  - bind_inv H. eapply IH; [|exact H]. eapply reachable_step; eauto.
Qed.

Example history_runs : run history empty_db = Ok campus.
Proof. reflexivity. Qed.

(** The course and the two student rows of [campus]: id, owner, course,
    last update. *)
Example campus_rows :
  map (fun c => (Course.id c, Course.course_code c, Course.course_duration c))
      (courses campus)
  = [(Some 400%N, Some "cs101", Some 1)]
  /\ map (fun st => (Student.id st, Student.user_id st, Student.course_id st,
                     Student.updated_at st))
         (students campus)
     = [(Some 500%N, Some 2%N, Some 400%N, Some 5);
        (Some 600%N, Some 2%N, Some 400%N, Some 6)]
  /\ map (fun r => (UserRole.user_id r, UserRole.role r)) (user_roles campus)
     = [(Some 1%N, Some student); (Some 2%N, Some student);
        (Some 1%N, Some admin)].
Proof. repeat split. Qed.

Example trim_and_upper :
  Client.trim "  cs101 " = "cs101" /\ Client.toUpperCase "cs101" = "CS101".
Proof. split; reflexivity. Qed.

Lemma campus_reachable : reachable campus.
Proof.
  apply run_reachable with (evs := history) (d := empty_db).
  - constructor.
  - reflexivity.
Qed.

Lemma campus_references_ok : references_ok campus.
Proof.
  unfold references_ok, refers. simpl. split; [|split; [|split; [|split]]].
  - repeat constructor.
  - repeat constructor.
  - repeat constructor.
  - repeat constructor.
  - repeat constructor; simpl; intuition discriminate.
Qed.

(** ** Role resolver and ownership resolver *)

Lemma has_role_true_iff (d : db) (I : option UUID) (r : app_role) :
  has_role d I (Some r) = true
  <-> exists row u, In row (user_roles d) /\ I = Some u
                    /\ UserRole.user_id row = Some u
                    /\ UserRole.role row = Some r.
Proof.
  unfold has_role. rewrite existsb_exists. split.
  - intros (row & Hin & Hrow). rewrite holds_sql_and in Hrow.
    apply andb_prop in Hrow. destruct Hrow as [Hu Hr].
    apply holds_sql_eq_N in Hu. destruct Hu as (u & Hu & ->).
    apply holds_sql_eq_role in Hr. destruct Hr as (r' & Hr & Heq).
    inversion Heq; subst. exists row, u. auto.
  - intros (row & u & Hin & -> & Hu & Hr). exists row. split; [assumption|].
    rewrite holds_sql_and. apply andb_true_intro. split.
    + apply holds_sql_eq_N. eauto.
    + apply holds_sql_eq_role. eauto.
Qed.

(** C5. For every identity [I], present or absent, and every role [r],
    [has_role] (a total boolean function: it cannot raise) answers true
    exactly when some role row pairs [I] with [r]; it answers false for the
    absent identity, and false for [admin] whenever no role row pairs [I]
    with [admin]. *)
Theorem has_role_spec (d : db) (I : option UUID) (r : app_role) :
  (has_role d I (Some r) = true
   <-> exists row u, In row (user_roles d) /\ I = Some u
                     /\ UserRole.user_id row = Some u
                     /\ UserRole.role row = Some r)
  /\ (I = None -> has_role d I (Some r) = false)
  /\ ((forall row, In row (user_roles d) ->
                   ~ (UserRole.user_id row = I
                      /\ UserRole.role row = Some r)) ->
      has_role d I (Some r) = false)
  /\ ((forall row, In row (user_roles d) ->
                   ~ (UserRole.user_id row = I
                      /\ UserRole.role row = Some admin)) ->
      has_role d I (Some admin) = false).
Proof.
  assert (Hno : forall r0,
             (forall row, In row (user_roles d) ->
                          ~ (UserRole.user_id row = I
                             /\ UserRole.role row = Some r0)) ->
             has_role d I (Some r0) = false).
  { intros r0 Hnone. apply not_true_is_false. intros Htrue.
    apply has_role_true_iff in Htrue.
    destruct Htrue as (row & u & Hin & -> & Hu & Hr).
    exact (Hnone row Hin (conj Hu Hr)). }
  split; [apply has_role_true_iff|]. split; [|split; apply Hno].
  intros ->. apply not_true_is_false. intros Htrue.
  apply has_role_true_iff in Htrue.
  destruct Htrue as (row & u & _ & Habs & _). discriminate.
Qed.

Lemma has_role_spec_example :
  has_role campus (Some 1%N) (Some admin) = true
  /\ has_role campus (Some 2%N) (Some admin) = false
  /\ has_role campus None (Some student) = false.
Proof. repeat split. Qed.

(** C6. [get_user_student_id] returns at most one id (its result is an
    optional id).  When it returns [sid], the identity is present, some
    student row carries [sid], and, ids being the primary key, every
    student row with id [sid] has [user_id] equal to the identity.  It
    returns NULL when the identity owns no student row. *)
Theorem get_user_student_id_spec (d : db) (I : option UUID) :
  distinct_by (same N.eqb Student.id) (students d) ->
  (forall sid, get_user_student_id d I = Some sid ->
     exists u, I = Some u
       /\ (exists row, In row (students d) /\ Student.id row = Some sid)
       /\ forall row, In row (students d) -> Student.id row = Some sid ->
                      Student.user_id row = Some u)
  /\ ((forall row, In row (students d) -> Student.user_id row = I ->
                   I = None) ->
      get_user_student_id d I = None).
Proof.
  intros Hpk. unfold get_user_student_id. split.
  - intros sid Hget.
    destruct (filter _ (students d)) as [|s0 rest] eqn:Hf; [discriminate|].
    assert (Hs0 : In s0 (filter (fun s => holds (sql_eq N.eqb
                                   (Student.user_id s) I)) (students d)))
      by (rewrite Hf; now left).
    apply filter_In in Hs0. destruct Hs0 as [Hin Hown].
    apply holds_sql_eq_N in Hown. destruct Hown as (u & Hu & ->).
    exists u. split; [reflexivity|]. split; [now exists s0|].
    intros row Hrow Hid.
    destruct (@distinct_by_In _ _ _ _ _ Hpk Hrow Hin) as [->|Hne]; [assumption|].
    unfold same in Hne. rewrite Hid, Hget in Hne. simpl in Hne.
    now rewrite N.eqb_refl in Hne.
  - intros Hnone.
    destruct (filter _ (students d)) as [|s0 rest] eqn:Hf; [reflexivity|].
    assert (Hs0 : In s0 (filter (fun s => holds (sql_eq N.eqb
                                   (Student.user_id s) I)) (students d)))
      by (rewrite Hf; now left).
    apply filter_In in Hs0. destruct Hs0 as [Hin Hown].
    apply holds_sql_eq_N in Hown. destruct Hown as (u & Hu & ->).
    specialize (Hnone s0 Hin Hu). discriminate.
Qed.

Lemma get_user_student_id_spec_witness :
  distinct_by (same N.eqb Student.id) (students campus)
  /\ get_user_student_id campus (Some 2%N) = Some 500%N
  /\ (forall row, In row (students campus) ->
                  Student.id row = Some 500%N ->
                  Student.user_id row = Some 2%N).
Proof.
  assert (Hpk : distinct_by (same N.eqb Student.id) (students campus)).
  { repeat constructor. }
  split; [exact Hpk|]. split; [reflexivity|].
  destruct (get_user_student_id_spec campus (Some 2%N) Hpk) as [Hsome _].
  destruct (Hsome 500%N eq_refl) as (u & Hu & _ & Hall).
  inversion Hu; subst. exact Hall.
Defined.

(** ** Policies seen by an identity without the admin role *)

Section NonAdmin.
Variables (d : db) (I : UUID).
Hypothesis not_admin : has_role d (Some I) (Some admin) = false.

Lemma non_admin_sees_own_students (r : Student.row) :
  passes_using students_policies SELECT d (signed_in I) r = owned_by I r.
Proof.
  unfold passes_using, owned_by. simpl. unfold using_holds. simpl.
  rewrite not_admin. simpl. now rewrite orb_false_r.
Qed.

Lemma non_admin_cannot_insert_course (r : Course.row) :
  passes_check courses_policies INSERT d (signed_in I) r = false.
Proof.
  unfold passes_check. simpl. unfold with_check_holds. simpl.
  now rewrite not_admin.
Qed.

Lemma non_admin_hits_no_course (c : command) (w : Course.row -> bool)
      (r : Course.row) :
  c = UPDATE \/ c = DELETE -> hit courses_table c d (signed_in I) w r = false.
Proof.
  intros [-> | ->]; unfold hit, reachable_row, passes_using; simpl;
    unfold using_holds; simpl; now rewrite not_admin.
Qed.
End NonAdmin.

Lemma set_courses_same (d : db) : set_courses d (courses d) = d.
Proof. now destruct d. Qed.

Lemma set_students_same (d : db) : set_students d (students d) = d.
Proof. now destruct d. Qed.

(** C2, as the policies have it.  For an identity without the admin
    role, no write on [courses] goes through, whatever the payload.  Only
    the INSERT is refused: it raises (on the payload's own type error if
    it has one, else on the row-security check).  An UPDATE or a DELETE
    is not refused: the USING expression hides every row from it, so it
    reaches no row and completes without error (the UPDATE raising only
    a type error of its own payload).  In every case the database, the
    courses table in particular, is left as it was. *)
Theorem non_admin_course_writes_refused (d : db) (I : UUID) :
  has_role d (Some I) (Some admin) = false ->
  (forall e a,
      insert_course e (signed_in I) a d
      = match coerce_course a with
        | Ok _ => Err (insufficient_privilege "courses")
        | Err err => Err err
        end)
  /\ (forall e w a,
         filter (hit courses_table UPDATE d (signed_in I) w) (courses d) = []
         /\ update_courses e (signed_in I) w a d
            = match coerce_course a with
              | Ok _ => Ok d
              | Err err => Err err
              end)
  /\ (forall e w,
         filter (hit courses_table DELETE d (signed_in I) w) (courses d) = []
         /\ delete_courses e (signed_in I) w d = d).
Proof.
  intros Hna. split; [|split].
  - intros e a. unfold insert_course.
    destruct (coerce_course a) as [a'|err]; simpl; [|reflexivity].
    unfold insert_row, check_row.
    now rewrite non_admin_cannot_insert_course.
  - intros e w a. split.
    + apply filter_none. intros r _.
      apply non_admin_hits_no_course; auto.
    + unfold update_courses.
      destruct (coerce_course a) as [a'|err]; simpl; [|reflexivity].
      rewrite update_rows_miss.
      * simpl. now rewrite set_courses_same.
      * apply forallb_forall. intros r _. apply negb_true_iff.
        apply non_admin_hits_no_course; auto.
  - intros e w.
    assert (Hnone : filter (hit courses_table DELETE d (signed_in I) w)
                           (courses d) = []).
    { apply filter_none. intros r _. apply non_admin_hits_no_course; auto. }
    split; [exact Hnone|].
    unfold delete_courses, delete_rows. rewrite Hnone. simpl.
    rewrite filter_all.
    + now rewrite set_courses_same, set_students_same.
    + intros r _. apply negb_true_iff.
      apply non_admin_hits_no_course; auto.
Qed.

Lemma non_admin_course_writes_refused_witness :
  has_role campus (Some 2%N) (Some admin) = false
  /\ insert_course (at_time 7 700) (signed_in 2%N)
       (CourseArgs.mk omitted (given (Some "Logic")) (given (Some "LOG1"))
          (given (Some 6)) omitted omitted) campus
     = Err (insufficient_privilege "courses")
  /\ update_courses (at_time 7 700) (signed_in 2%N) (fun _ => true)
       (CourseArgs.mk omitted omitted omitted (given (Some 6)) omitted omitted)
       campus
     = Ok campus
  /\ delete_courses (at_time 7 700) (signed_in 2%N) (fun _ => true) campus
     = campus.
Proof.
  split; [reflexivity|].
  destruct (non_admin_course_writes_refused campus 2%N eq_refl)
    as (Hins & Hupd & Hdel).
  split; [exact (Hins _ _)|]. split.
  - exact (proj2 (Hupd (at_time 7 700) (fun _ => true)
                       (CourseArgs.mk omitted omitted omitted
                          (given (Some 6)) omitted omitted))).
  - exact (proj2 (Hdel (at_time 7 700) (fun _ => true))).
Defined.

(** C2, as stated, fails: identity 2 holds no admin role, and in
    [campus] its UPDATE of every course and its DELETE of every course
    are answered without any error; the Courses page, editing course 400
    for it, shows the success toast.  Nothing is written. *)
Lemma non_admin_course_update_not_refused :
  has_role campus (Some 2%N) (Some admin) = false
  /\ update_courses (at_time 9 900) (signed_in 2%N) (fun _ => true) redate
                    campus
     = Ok campus
  /\ (forall err,
        update_courses (at_time 9 900) (signed_in 2%N) (fun _ => true) redate
                       campus
        <> Err err)
  /\ delete_courses (at_time 9 900) (signed_in 2%N) (fun _ => true) campus
     = campus
  /\ Client.Courses.handleSubmit (at_time 9 900) (signed_in 2%N) (Some 400%N)
       (Client.Courses.mkform "Algebra" "cs101" 12) campus
     = (Client.Success "Course updated successfully", campus).
Proof.
  split; [reflexivity|]. split; [reflexivity|].
  split; [intros err H; discriminate H|]. split; reflexivity.
Qed.

(** X27. For an identity [I] without the admin role a SELECT on
    [students] returns exactly the rows whose [user_id] is [I]: never a
    row of another identity, never a row with no owner. *)
Theorem non_admin_selects_own_students (d : db) (I : UUID) :
  has_role d (Some I) (Some admin) = false ->
  select_students (signed_in I) d = filter (owned_by I) (students d)
  /\ forall r, In r (select_students (signed_in I) d)
               <-> In r (students d) /\ Student.user_id r = Some I.
Proof.
  intros Hna.
  assert (Heq : select_students (signed_in I) d
                = filter (owned_by I) (students d)).
  { unfold select_students, select_rows. apply filter_ext.
    intros r. now apply non_admin_sees_own_students. }
  split; [exact Heq|]. intros r. rewrite Heq, filter_In.
  unfold owned_by. rewrite holds_sql_eq_N. split.
  - intros (Hin & u & Hu & Hi). inversion Hi; subst. auto.
  - intros (Hin & Hu). eauto.
Qed.

Lemma non_admin_selects_own_students_witness :
  has_role campus (Some 2%N) (Some admin) = false
  /\ select_students (signed_in 2%N) campus
     = filter (owned_by 2%N) (students campus).
Proof.
  split; [reflexivity|].
  exact (proj1 (non_admin_selects_own_students campus 2%N eq_refl)).
Defined.

(** The bound of one row does not hold: identity 2 is no admin, and in
    the reachable state [campus] its SELECT on [students] returns two
    rows. *)
Lemma non_admin_select_two_rows :
  ~ (forall d I, reachable d ->
                 has_role d (Some I) (Some admin) = false ->
                 (List.length (select_students (signed_in I) d) <= 1)%nat).
Proof.
  intros H. specialize (H campus 2%N campus_reachable eq_refl).
  vm_compute in H. lia.
Qed.

(** C1. The failing input.  In the reachable state [campus] the admin
    has entered two student records for identity 2, which holds no admin
    role.  Its SELECT on [students] returns both rows, 500 and 600, where
    the claim allows one at most.  The student dashboard sends this very
    SELECT with [maybeSingle]: for the two rows it gets an error and no
    data, and shows no profile at all. *)
Theorem own_students_select_with_two_records :
  reachable campus
  /\ has_role campus (Some 2%N) (Some admin) = false
  /\ map Student.id (select_students (signed_in 2%N) campus)
     = [Some 500%N; Some 600%N]
  /\ map Student.user_id (select_students (signed_in 2%N) campus)
     = [Some 2%N; Some 2%N]
  /\ Client.Dashboard.maybeSingle
       (filter (Client.by_id Student.user_id 2%N)
               (select_students (signed_in 2%N) campus))
     = (None, true)
  /\ Client.Dashboard.fetchStudentProfile (Some 2%N) (signed_in 2%N) campus
     = None.
Proof.
  split; [exact campus_reachable|]. repeat split.
Qed.

(** ** One identity, several student rows *)

(** X28. When an INSERT into [students] succeeds.  In every reachable
    state the students table satisfies what it declares, [id] and
    [email] non-null and unique, and an INSERT of a row for an identity
    succeeds, appending exactly that row, as soon as row security admits
    it, name and email fit their 255 characters, no NOT NULL column is
    NULL, id and email are new and the referenced course and identity
    exist.  The schema asks nothing else of the row: [user_id] is not
    among the unique columns, and the identity then owns one row more. *)
Theorem student_insert_accepted
        (e : env) (s : session) (d : db) (id course : arg UUID)
        (created_at updated_at : arg timestamptz) (n m : string)
        (owner : UUID) :
  let a := StudentArgs.mk id (given (Some n)) (given (Some m)) course
                          (given (Some owner)) created_at updated_at in
  let r := student_tuple a (student_defaults e) in
  reachable d ->
  (char_length n <= 255)%nat ->
  (char_length m <= 255)%nat ->
  passes_check students_policies INSERT d s r = true ->
  present Student.id r = true ->
  present Student.created_at r = true ->
  present Student.updated_at r = true ->
  existsb (same N.eqb Student.id r) (students d) = false ->
  existsb (same String.eqb Student.email r) (students d) = false ->
  references (course_exists d) (Student.course_id r) = true ->
  user_exists d owner = true ->
  constraints_hold students_table (students d)
  /\ insert_student e s a d = Ok (set_students d (students d ++ [r]))
  /\ List.length (filter (owned_by owner) (students d ++ [r]))
     = S (List.length (filter (owned_by owner) (students d))).
Proof.
  intros a r Hreach Hn Hm Hrls Hid Hcr Hup Hpk Hmail Hcourse Huser.
  split; [|split].
  - now destruct (reachable_tables_ok Hreach) as (_ & Hs & _).
  - unfold insert_student, coerce_student, a.
    cbn [StudentArgs.name StudentArgs.email StudentArgs.id
         StudentArgs.course_id StudentArgs.user_id StudentArgs.created_at
         StudentArgs.updated_at coerce].
    rewrite (@varchar_fits _ _ Hn), (@varchar_fits _ _ Hm).
    cbn [bind coerce]. fold a. fold r.
    rewrite insert_row_Ok; [| exact Hrls | |].
    + cbn [bind]. unfold fk_insert. rewrite Hcourse.
      replace (Student.user_id r) with (Some owner) by reflexivity.
      cbn [references]. now rewrite Huser.
    + apply present_Some in Hid, Hcr, Hup.
      destruct Hid as (v1 & E1), Hcr as (v2 & E2), Hup as (v3 & E3).
      cbn. unfold present. now rewrite E1, E2, E3.
    + intros ix [<-|[<-|[]]]; assumption.
  - rewrite filter_app, length_app. cbn [filter].
    replace (owned_by owner r) with true.
    + simpl. lia.
    + unfold owned_by. cbn. now rewrite N.eqb_refl.
Qed.

Lemma student_insert_accepted_witness :
  let e := at_time 7 700 in
  let a := StudentArgs.mk omitted (given (Some "Rob"))
                          (given (Some "rob@example.org")) omitted
                          (given (Some 2%N)) omitted omitted in
  reachable campus
  /\ List.length (filter (owned_by 2%N) (students campus)) = 2%nat
  /\ insert_student e (signed_in 1%N) a campus
     = Ok (set_students campus
             (students campus ++ [student_tuple a (student_defaults e)])).
Proof.
  intros e a. split; [exact campus_reachable|]. split; [reflexivity|].
  refine (proj1 (proj2 (@student_insert_accepted
                          e (signed_in 1%N) campus omitted omitted omitted
                          omitted "Rob" "rob@example.org" 2%N
                          campus_reachable _ _ _ _ _ _ _ _ _ _)));
    try reflexivity; simpl; lia.
Defined.

(** C3. The failing input.  After the first five events of [history]
    identity 2 owns one student record, 500.  The admin's INSERT of a
    second record for identity 2 is accepted: nothing in the schema
    stands against it, [students.user_id] lacking the UNIQUE that
    [profiles.user_id] carries.  In the resulting state, [campus],
    identity 2 owns two records, and the student dashboard, which reads
    the identity's record with [maybeSingle], shows it none. *)
Theorem second_student_record_is_accepted :
  exists d5,
    run (firstn 5 history) empty_db = Ok d5
    /\ reachable d5
    /\ map Student.id (filter (owned_by 2%N) (students d5)) = [Some 500%N]
    /\ insert_student (at_time 6 600) (signed_in 1%N)
         (StudentArgs.mk omitted (given (Some "Bobby"))
            (given (Some "bobby@example.org"))
            (given (Some 400%N)) (given (Some 2%N)) omitted omitted) d5
       = Ok campus
    /\ map Student.id (filter (owned_by 2%N) (students campus))
       = [Some 500%N; Some 600%N]
    /\ Client.Dashboard.fetchStudentProfile (Some 2%N) (signed_in 2%N)
         campus
       = None.
Proof.
  eexists. split; [reflexivity|]. split.
  - apply run_reachable with (evs := firstn 5 history) (d := empty_db);
      [constructor | reflexivity].
  - repeat split.
Qed.

(** The bound of one record per identity does not hold in the reachable
    states: [campus] is one, and identity 2 owns two student rows
    there. *)
Lemma identity_owns_two_students :
  ~ (forall d, reachable d ->
               forall u, (List.length (filter (owned_by u) (students d))
                          <= 1)%nat).
Proof.
  intros H. specialize (H campus campus_reachable 2%N).
  vm_compute in H. lia.
Qed.

(** ** Provisioning *)

Lemma insert_profile_definer (e : env) (d : db) (u : UUID)
      (uname v : option string) :
  let p := provisioned_profile e u v in
  varchar 255 uname = Ok v ->
  existsb (same N.eqb Profile.id p) (profiles d) = false ->
  existsb (same N.eqb Profile.user_id p) (profiles d) = false ->
  user_exists d u = true ->
  insert_profile e definer
    (ProfileArgs.mk omitted (given (Some u)) (given uname) omitted omitted) d
  = Ok (set_profiles d (profiles d ++ [p])).
Proof.
  intros p Hv Hpk Hu Hfk. unfold insert_profile, coerce_profile.
  cbn [ProfileArgs.username ProfileArgs.id ProfileArgs.user_id
       ProfileArgs.created_at ProfileArgs.updated_at coerce].
  rewrite Hv. cbn [bind].
  change (profile_tuple _ (profile_defaults e)) with p.
  rewrite insert_row_Ok; [| reflexivity | reflexivity |].
  - cbn [bind]. unfold fk_insert. cbn [Profile.user_id p provisioned_profile
                                       references].
    now rewrite Hfk.
  - intros ix [<-|[<-|[]]]; assumption.
Qed.

Lemma insert_user_role_definer (e : env) (d : db) (u : UUID) :
  let r := provisioned_role e u in
  existsb (same N.eqb UserRole.id r) (user_roles d) = false ->
  existsb (same N.eqb UserRole.user_id r) (user_roles d) = false ->
  user_exists d u = true ->
  insert_user_role (next e) definer
    (UserRoleArgs.mk omitted (given (Some u)) (given (Some student)) omitted) d
  = Ok (set_user_roles d (user_roles d ++ [r])).
Proof.
  intros r Hpk Hu Hfk. unfold insert_user_role.
  change (user_role_tuple _ (user_role_defaults (next e))) with r.
  rewrite insert_row_Ok; [| reflexivity | reflexivity |].
  - cbn [bind]. unfold fk_insert. cbn [UserRole.user_id r provisioned_role
                                       references].
    now rewrite Hfk.
  - intros ix [<-|[<-|[]]]; [assumption|]. cbn [snd].
    apply not_true_is_false. intros Hex. apply existsb_exists in Hex.
    destruct Hex as (x & Hx & Hsame). apply andb_prop in Hsame.
    destruct Hsame as [Hsame _].
    assert (Habs : existsb (same N.eqb UserRole.user_id r) (user_roles d)
                   = true) by (apply existsb_exists; eauto).
    congruence.
Qed.

(** The trigger function writes both rows or raises: when it raises,
    whichever INSERT failed, no state comes back. *)
Lemma handle_new_user_atomic (e : env) (NEW : AuthUser.row) (d : db) :
  (exists err, handle_new_user e NEW d = Err err)
  \/ (exists p r,
         handle_new_user e NEW d
         = Ok (mkdb (courses d) (students d) (user_roles d ++ [r])
                    (profiles d ++ [p]) (auth_users d))
         /\ Profile.user_id p = Some (AuthUser.id NEW)
         /\ UserRole.user_id r = Some (AuthUser.id NEW)
         /\ UserRole.role r = Some student).
Proof.
  unfold handle_new_user.
  destruct (insert_profile _ _ _ d) as [d1|err] eqn:H1;
    [|left; exists err; reflexivity].
  cbn [bind].
  destruct (insert_user_role _ _ _ d1) as [d2|err] eqn:H2;
    [|left; exists err; reflexivity].
  right. unfold insert_profile in H1. bind_inv H1. bind_inv H1.
  bind_inv H1. inversion H1; subst; clear H1.
  apply insert_row_inv in Hrun0. subst.
  unfold insert_user_role in H2. bind_inv H2. bind_inv H2.
  inversion H2; subst; clear H2.
  apply insert_row_inv in Hrun0. subst.
  eexists _, _. split; [reflexivity|]. split; [|split; reflexivity].
  unfold coerce_profile in Hrun. bind_inv Hrun. now inversion Hrun.
Qed.

Section NewIdentity.
Variables (d : db) (u1 : UUID).
Hypothesis refs : references_ok d.
Hypothesis new_identity : user_exists d u1 = false.

Lemma new_identity_has_no_profile (p : Profile.row) :
  Profile.user_id p = Some u1 ->
  existsb (same N.eqb Profile.user_id p) (profiles d) = false.
Proof.
  intros Hp. apply not_true_is_false. intros Hex.
  apply existsb_exists in Hex. destruct Hex as (x & Hx & Hsame).
  unfold same in Hsame. rewrite Hp in Hsame.
  apply holds_sql_eq_N in Hsame. destruct Hsame as (u & Hu & Hxu).
  inversion Hu; subst u.
  destruct refs as (_ & _ & _ & Hprof & _).
unfold refers in Hprof. rewrite Forall_forall in Hprof.
  specialize (Hprof x Hx). rewrite Hxu in Hprof. simpl in Hprof.
  congruence.
Qed.

Lemma new_identity_has_no_role (r : UserRole.row) :
  UserRole.user_id r = Some u1 ->
  existsb (same N.eqb UserRole.user_id r) (user_roles d) = false.
Proof.
  intros Hr. apply not_true_is_false. intros Hex.
  apply existsb_exists in Hex. destruct Hex as (x & Hx & Hsame).
  unfold same in Hsame. rewrite Hr in Hsame.
  apply holds_sql_eq_N in Hsame. destruct Hsame as (u & Hu & Hxu).
  inversion Hu; subst u.
  destruct refs as (_ & _ & Hroles & _).
unfold refers in Hroles. rewrite Forall_forall in Hroles.
  specialize (Hroles x Hx). rewrite Hxu in Hroles. simpl in Hroles.
  congruence.
Qed.
End NewIdentity.

(** C4. Take a state whose foreign keys hold (every reachable state is
    one, [reachable_schema_ok]), an identity [u1] not yet in it whose
    signup metadata carries a username that fits the column (as "alice"
    does), and generated ids that are new.  Creating the identity
    succeeds and appends exactly one profile row (user [u1], that
    username) and exactly one role row (user [u1], role student); no other
    profile or role row belongs to [u1].  The trigger function writes both
    rows or raises leaving neither.  Run again for [u1] on the resulting
    state it raises a unique violation, on [profiles_user_id_key] unless
    the newly generated profile id itself collides, and creating the
    identity again raises on the identities' primary key: in both cases no
    row is added. *)
Theorem provisioning_once (e : env) (d : db) (u1 : UUID)
        (meta : option (list (string * option string))) (name : string) :
  let NEW := AuthUser.mk u1 meta in
  let p := provisioned_profile e u1 (Some name) in
  let r := provisioned_role e u1 in
  let d' := mkdb (courses d) (students d) (user_roles d ++ [r])
                 (profiles d ++ [p]) (auth_users d ++ [NEW]) in
  references_ok d ->
  user_exists d u1 = false ->
  json_text meta "username" = Some name ->
  (char_length name <= 255)%nat ->
  existsb (same N.eqb Profile.id p) (profiles d) = false ->
  existsb (same N.eqb UserRole.id r) (user_roles d) = false ->
  create_identity e NEW d = Ok d'
  /\ filter (profile_of u1) (profiles d') = [p]
  /\ filter (role_of u1) (user_roles d') = [r]
  /\ (forall e0 NEW0 d0,
         (exists err, handle_new_user e0 NEW0 d0 = Err err)
         \/ (exists p0 r0,
                handle_new_user e0 NEW0 d0
                = Ok (mkdb (courses d0) (students d0) (user_roles d0 ++ [r0])
                           (profiles d0 ++ [p0]) (auth_users d0))
                /\ Profile.user_id p0 = Some (AuthUser.id NEW0)
                /\ UserRole.user_id r0 = Some (AuthUser.id NEW0)
                /\ UserRole.role r0 = Some student))
  /\ (forall e2,
         handle_new_user e2 NEW d'
         = Err (unique_violation
                  (if existsb (same N.eqb Profile.id
                                    (provisioned_profile e2 u1 (Some name)))
                              (profiles d')
                   then "profiles_pkey" else "profiles_user_id_key")))
  /\ (forall e2, create_identity e2 NEW d'
                 = Err (unique_violation "users_pkey")).
Proof.
  intros NEW p r d' Hrefs Hnew Hname Hlen Hpid Hrid.
  assert (Hself : user_exists (set_auth_users d (auth_users d ++ [NEW])) u1
                  = true).
  { unfold user_exists. cbn [auth_users set_auth_users].
    rewrite existsb_app. cbn. now rewrite N.eqb_refl, orb_true_r. }
  split; [|split; [|split; [|split; [|split]]]].
  - unfold create_identity. cbn [AuthUser.id NEW]. rewrite Hnew.
    cbn [negb guard bind]. unfold handle_new_user.
    cbn [AuthUser.id AuthUser.raw_user_meta_data NEW]. rewrite Hname.
    rewrite (@insert_profile_definer e _ u1 (Some name) (Some name));
      [| now apply varchar_fits | exact Hpid
       | cbn [profiles set_auth_users];
         now apply new_identity_has_no_profile with (d := d) (u1 := u1)
       | exact Hself ].
    cbn [bind]. rewrite insert_user_role_definer;
      [reflexivity | exact Hrid
       | cbn [user_roles set_auth_users set_profiles];
         now apply new_identity_has_no_role with (d := d) (u1 := u1)
       | exact Hself ].
  - cbn [profiles d']. rewrite filter_app. rewrite filter_none.
    + cbn. unfold profile_of. cbn. now rewrite N.eqb_refl.
    + intros x Hx. apply not_true_is_false. intros Hown.
      apply holds_sql_eq_N in Hown. destruct Hown as (u & Hxu & Hu).
      inversion Hu; subst u.
      destruct Hrefs as (_ & _ & _ & Hprof & _).
      unfold refers in Hprof. rewrite Forall_forall in Hprof.
      specialize (Hprof x Hx). rewrite Hxu in Hprof. simpl in Hprof.
      congruence.
  - cbn [user_roles d']. rewrite filter_app. rewrite filter_none.
    + cbn. unfold role_of. cbn. now rewrite N.eqb_refl.
    + intros x Hx. apply not_true_is_false. intros Hown.
      apply holds_sql_eq_N in Hown. destruct Hown as (u & Hxu & Hu).
      inversion Hu; subst u.
      destruct Hrefs as (_ & _ & Hroles & _).
      unfold refers in Hroles. rewrite Forall_forall in Hroles.
      specialize (Hroles x Hx). rewrite Hxu in Hroles. simpl in Hroles.
      congruence.
  - intros e0 NEW0 d0. apply handle_new_user_atomic.
  - intros e2. unfold handle_new_user, insert_profile, coerce_profile.
    cbn [AuthUser.id AuthUser.raw_user_meta_data NEW ProfileArgs.username
         ProfileArgs.id ProfileArgs.user_id ProfileArgs.created_at
         ProfileArgs.updated_at coerce].
    rewrite Hname, (@varchar_fits _ _ Hlen). cbn [bind].
    change (profile_tuple _ (profile_defaults e2))
      with (provisioned_profile e2 u1 (Some name)).
    unfold insert_row, check_row.
    replace (passes_check (rls profiles_table) INSERT d' definer
                          (provisioned_profile e2 u1 (Some name)))
      with true by reflexivity.
    replace (check_not_null profiles_table (not_nulls profiles_table)
                            (provisioned_profile e2 u1 (Some name)))
      with (@Ok unit tt) by reflexivity.
    cbn [guard bind]. cbn [uniques profiles_table check_unique].
    destruct (existsb (same N.eqb Profile.id
                            (provisioned_profile e2 u1 (Some name)))
                      (profiles d')); [reflexivity|].
    replace (existsb (same N.eqb Profile.user_id
                           (provisioned_profile e2 u1 (Some name)))
                     (profiles d')) with true; [reflexivity|].
    symmetry. cbn [profiles d']. rewrite existsb_app. cbn.
    unfold same. cbn. now rewrite N.eqb_refl, orb_true_r.
  - intros e2. unfold create_identity. cbn [AuthUser.id NEW].
    change (user_exists d' u1)
      with (user_exists (set_auth_users d (auth_users d ++ [NEW])) u1).
    now rewrite Hself.
Qed.

Lemma provisioning_once_witness :
  let e := at_time 7 700 in
  let NEW := AuthUser.mk 3%N (Some [("username", Some "alice")]) in
  references_ok campus
  /\ user_exists campus 3%N = false
  /\ exists d',
      create_identity e NEW campus = Ok d'
      /\ filter (profile_of 3%N) (profiles d')
         = [provisioned_profile e 3%N (Some "alice")]
      /\ filter (role_of 3%N) (user_roles d') = [provisioned_role e 3%N]
      /\ handle_new_user (at_time 8 800) NEW d'
         = Err (unique_violation "profiles_user_id_key").
Proof.
  intros e NEW. split; [exact campus_references_ok|]. split; [reflexivity|].
  destruct (@provisioning_once e campus 3%N
              (Some [("username", Some "alice")]) "alice"
              campus_references_ok eq_refl eq_refl)
    as (Hcreate & Hprofile & Hrole & _ & Hagain & _);
    try reflexivity; try (simpl; lia).
  eexists. split; [exact Hcreate|]. split; [exact Hprofile|].
  split; [exact Hrole|]. exact (Hagain (at_time 8 800)).
Defined.

(** ** Uniqueness violations *)

Lemma includes_prefix (s sub : string) :
  prefix sub s = true -> Client.includes s sub = true.
Proof. intros H. destruct s; simpl in *; now rewrite H. Qed.

(** Every unique-violation message contains the word the pages look
    for. *)
Lemma unique_violation_says_duplicate (c : string) :
  Client.includes (message (unique_violation c)) "duplicate" = true.
Proof. apply includes_prefix. reflexivity. Qed.

Lemma upper_keeps_class (c : ascii) :
  is_continuation (Client.upper c) = is_continuation c.
Proof. destruct c as [[] [] [] [] [] [] [] []]; reflexivity. Qed.

Lemma char_length_toUpperCase (s : string) :
  char_length (Client.toUpperCase s) = char_length s.
Proof.
  induction s as [|c s IH]; simpl; [reflexivity|].
  now rewrite upper_keeps_class, IH.
Qed.

(** A text within a schema's [max] fits a column of that many
    characters. *)
Lemma length_between_le (lo hi : nat) (s : string) :
  Client.length_between lo hi s = true -> (char_length s <= hi)%nat.
Proof.
  unfold Client.length_between. intros H. apply andb_prop in H.
  destruct H as [_ H]. apply Nat.leb_le in H.
  pose proof (char_length_le_units s). lia.
Qed.

(** What the create path of the Courses page can get back: a validated
    form passes the type and NOT NULL checks, so the INSERT can only be
    refused by row security or by a unique index. *)
Lemma courses_page_insert_errors (e : env) (s : session)
      (formData : Client.Courses.form) (d : db) (err : pg_error) :
  Client.Courses.validateForm formData = true ->
  insert_course e s (Client.Courses.payload formData) d = Err err ->
  err = insufficient_privilege "courses" \/ exists ix, err = unique_violation ix.
Proof.
  unfold Client.Courses.validateForm. intros Hvalid H.
  apply andb_prop in Hvalid. destruct Hvalid as [Hvalid Hhi].
  apply andb_prop in Hvalid. destruct Hvalid as [Hvalid Hlo].
  apply andb_prop in Hvalid. destruct Hvalid as [Hname Hcode].
  apply length_between_le in Hname, Hcode.
  rewrite <- char_length_toUpperCase in Hcode.
  unfold insert_course, Client.Courses.payload, coerce_course in H.
  cbn [CourseArgs.course_name CourseArgs.course_code
       CourseArgs.course_duration CourseArgs.id CourseArgs.created_at
       CourseArgs.updated_at coerce] in H.
  rewrite (@varchar_fits _ _ Hname), (@varchar_fits _ _ Hcode) in H.
  cbn [bind] in H.
  assert (Hint : integer (Some (Client.Courses.course_duration formData))
                 = Ok (Some (Client.Courses.course_duration formData))).
  { unfold integer.
    replace ((-2147483648 <=? Client.Courses.course_duration formData)
             && (Client.Courses.course_duration formData <=? 2147483647))
      with true; [reflexivity|].
    symmetry. apply andb_true_intro.
    apply Z.leb_le in Hlo, Hhi. split; apply Z.leb_le; lia. }
  rewrite Hint in H. cbn [bind] in H.
  unfold insert_row, check_row in H.
  destruct (passes_check _ _ _ _ _); cbn [guard bind] in H;
    [|left; now inversion H].
  cbn in H.
  repeat match type of H with
         | context [if ?b then _ else _] => destruct b
         end;
    cbn in H; inversion H; eauto.
Qed.

(** The Students page can also be refused for a course that no longer
    exists. *)
Lemma students_page_insert_errors (is_email : string -> bool) (e : env)
      (s : session) (formData : Client.Students.form) (d : db)
      (err : pg_error) :
  Client.Students.validateForm is_email formData = true ->
  insert_student e s (Client.Students.payload formData) d = Err err ->
  err = insufficient_privilege "students"
  \/ err = foreign_key_violation "students" "students_course_id_fkey" None
  \/ exists ix, err = unique_violation ix.
Proof.
  unfold Client.Students.validateForm. intros Hvalid H.
  apply andb_prop in Hvalid. destruct Hvalid as [Hvalid Hmail].
  apply andb_prop in Hvalid. destruct Hvalid as [Hname _].
  apply length_between_le in Hname. apply Nat.leb_le in Hmail.
  pose proof (char_length_le_units
                (Client.trim (Client.Students.email formData))) as Hunits.
  assert (Hmail' : (char_length
                      (Client.trim (Client.Students.email formData))
                    <= 255)%nat) by lia.
  clear Hunits Hmail. rename Hmail' into Hmail.
  unfold insert_student, Client.Students.payload, coerce_student in H.
  cbn [StudentArgs.name StudentArgs.email StudentArgs.id
       StudentArgs.course_id StudentArgs.user_id StudentArgs.created_at
       StudentArgs.updated_at coerce] in H.
  rewrite (@varchar_fits _ _ Hname), (@varchar_fits _ _ Hmail) in H.
  cbn [bind] in H. unfold insert_row, check_row, fk_insert in H.
  destruct (passes_check _ _ _ _ _); cbn [guard bind] in H;
    [|left; now inversion H].
  cbn in H.
  repeat match type of H with
         | context [if ?b then _ else _] => destruct b
         end;
    cbn in H; try (inversion H; eauto; fail).
  destruct (references _ _); cbn in H; inversion H; auto.
Qed.

(** X29. The database compares course codes and student emails exactly
    as stored.  An INSERT, or the first row written by an UPDATE, that
    row security admits, that leaves no NOT NULL column NULL and takes no
    existing id, and whose course code (or student email) equals that of
    another row, raises [unique_violation] naming
    [courses_course_code_key] (or [students_email_key]); the statement
    writes nothing.  On the create path both pages answer a
    [unique_violation], and no other error, with their dedicated
    duplicate toast and field error, leaving the database as it was; the
    other refusals a validated form can meet are shown as plain failures
    carrying the server's message (for the Courses page: a form whose
    trimmed code is ASCII text, which the page's upper-casing maps
    letter by letter). *)
Theorem duplicate_key_rejected :
  (forall e s d a a',
      coerce_course a = Ok a' ->
      let r := course_tuple a' (course_defaults e) in
      passes_check courses_policies INSERT d s r = true ->
      check_not_null courses_table (not_nulls courses_table) r = Ok tt ->
      existsb (same N.eqb Course.id r) (courses d) = false ->
      (exists r0 code, In r0 (courses d)
                       /\ Course.course_code r0 = Some code
                       /\ Course.course_code r = Some code) ->
      insert_course e s a d = Err (unique_violation "courses_course_code_key"))
  /\ (forall e s w d a a' l1 o l2,
         coerce_course a = Ok a' ->
         courses d = l1 ++ o :: l2 ->
         forallb (fun x => negb (hit courses_table UPDATE d s w x)) l1 = true ->
         hit courses_table UPDATE d s w o = true ->
         let r := update_updated_at_column e (course_tuple a' o) in
         new_row_allowed courses_policies d s r = true ->
         check_not_null courses_table (not_nulls courses_table) r = Ok tt ->
         existsb (same N.eqb Course.id r) (l1 ++ l2) = false ->
         (exists r0 code, In r0 (l1 ++ l2)
                          /\ Course.course_code r0 = Some code
                          /\ Course.course_code r = Some code) ->
         update_courses e s w a d
         = Err (unique_violation "courses_course_code_key"))
  /\ (forall e s d a a',
         coerce_student a = Ok a' ->
         let r := student_tuple a' (student_defaults e) in
         passes_check students_policies INSERT d s r = true ->
         check_not_null students_table (not_nulls students_table) r = Ok tt ->
         existsb (same N.eqb Student.id r) (students d) = false ->
         (exists r0 mail, In r0 (students d)
                          /\ Student.email r0 = Some mail
                          /\ Student.email r = Some mail) ->
         insert_student e s a d = Err (unique_violation "students_email_key"))
  /\ (forall e s w d a a' l1 o l2,
         coerce_student a = Ok a' ->
         students d = l1 ++ o :: l2 ->
         forallb (fun x => negb (hit students_table UPDATE d s w x)) l1
         = true ->
         hit students_table UPDATE d s w o = true ->
         let r := update_updated_at_column e (student_tuple a' o) in
         new_row_allowed students_policies d s r = true ->
         check_not_null students_table (not_nulls students_table) r = Ok tt ->
         existsb (same N.eqb Student.id r) (l1 ++ l2) = false ->
         (exists r0 mail, In r0 (l1 ++ l2)
                          /\ Student.email r0 = Some mail
                          /\ Student.email r = Some mail) ->
         update_students e s w a d
         = Err (unique_violation "students_email_key"))
  /\ (forall e s formData d,
         Client.Courses.validateForm formData = true ->
         ascii_text (Client.trim (Client.Courses.course_code formData))
         = true ->
         let shown := Client.Courses.handleSubmit e s None formData d in
         match insert_course e s (Client.Courses.payload formData) d with
         | Ok d' => shown = (Client.Success "Course added successfully", d')
         | Err (unique_violation _) =>
             shown = (Client.Duplicate "A course with this code already exists"
                                       "course_code"
                                       "This course code is already in use", d)
         | Err err =>
             err = insufficient_privilege "courses"
             /\ shown = (Client.Failure (message err), d)
         end)
  /\ (forall is_email e s formData d,
         Client.Students.validateForm is_email formData = true ->
         let shown :=
           Client.Students.handleSubmit is_email e s None formData d in
         match insert_student e s (Client.Students.payload formData) d with
         | Ok d' => shown = (Client.Success "Student added successfully", d')
         | Err (unique_violation _) =>
             shown
             = (Client.Duplicate "A student with this email already exists"
                                 "email"
                                 "This email is already registered", d)
         | Err err =>
             (err = insufficient_privilege "students"
              \/ err = foreign_key_violation "students"
                                             "students_course_id_fkey" None)
             /\ shown = (Client.Failure (message err), d)
         end).
Proof.
  split; [|split; [|split; [|split; [|split]]]].
  - intros e s d a a' Ha r Hrls Hnn Hpk Hdup.
    unfold insert_course. rewrite Ha. cbn [bind]. fold r.
    rewrite insert_row_Err
      with (err := unique_violation "courses_course_code_key");
      [reflexivity | exact Hrls | exact Hnn |].
    apply check_unique_second; [exact Hpk | now apply existsb_same_string].
  - intros e s w d a a' l1 o l2 Ha Hrows Hmiss Hhit r Hrls Hnn Hpk Hdup.
    unfold update_courses. rewrite Ha, Hrows. cbn [bind].
    rewrite update_rows_Err
      with (err := unique_violation "courses_course_code_key");
      [reflexivity | exact Hmiss | exact Hhit | exact Hrls | exact Hnn |].
    apply check_unique_second; [exact Hpk | now apply existsb_same_string].
  - intros e s d a a' Ha r Hrls Hnn Hpk Hdup.
    unfold insert_student. rewrite Ha. cbn [bind]. fold r.
    rewrite insert_row_Err
      with (err := unique_violation "students_email_key");
      [reflexivity | exact Hrls | exact Hnn |].
    apply check_unique_second; [exact Hpk | now apply existsb_same_string].
  - intros e s w d a a' l1 o l2 Ha Hrows Hmiss Hhit r Hrls Hnn Hpk Hdup.
    unfold update_students. rewrite Ha, Hrows. cbn [bind].
    rewrite update_rows_Err
      with (err := unique_violation "students_email_key");
      [reflexivity | exact Hmiss | exact Hhit | exact Hrls | exact Hnn |].
    apply check_unique_second; [exact Hpk | now apply existsb_same_string].
  - intros e s formData d Hvalid _ shown. unfold shown.
    unfold Client.Courses.handleSubmit. rewrite Hvalid. cbn [negb].
    destruct (insert_course e s (Client.Courses.payload formData) d)
      as [d'|err] eqn:Hins; [reflexivity|].
    destruct (courses_page_insert_errors _ _ _ _ Hvalid Hins)
      as [->|[ix ->]].
    + split; reflexivity.
    + now rewrite unique_violation_says_duplicate.
  - intros is_email e s formData d Hvalid shown. unfold shown.
    unfold Client.Students.handleSubmit. rewrite Hvalid. cbn [negb].
    destruct (insert_student e s (Client.Students.payload formData) d)
      as [d'|err] eqn:Hins; [reflexivity|].
    destruct (students_page_insert_errors _ _ _ _ _ Hvalid Hins)
      as [->|[->|[ix ->]]].
    + split; [now left | reflexivity].
    + split; [now right | reflexivity].
    + now rewrite unique_violation_says_duplicate.
Qed.

Lemma duplicate_key_rejected_witness :
  insert_course (at_time 8 800) (signed_in 1%N)
    (CourseArgs.mk omitted (given (Some "Algebra II")) (given (Some "cs101"))
       omitted omitted omitted) campus
  = Err (unique_violation "courses_course_code_key")
  /\ update_courses (at_time 8 800) (signed_in 1%N)
       (Client.by_id Course.id 400%N)
       (CourseArgs.mk omitted omitted (given (Some "LOG1")) omitted omitted
          omitted) campus_two_courses
     = Err (unique_violation "courses_course_code_key")
  /\ insert_student (at_time 8 800) (signed_in 1%N)
       (StudentArgs.mk omitted (given (Some "Robert"))
          (given (Some "bob@example.org")) omitted omitted omitted omitted)
       campus
     = Err (unique_violation "students_email_key")
  /\ Client.Courses.handleSubmit (at_time 8 800) (signed_in 1%N) None
       (Client.Courses.mkform "Logic II" " log1 " 6) campus_two_courses
     = (Client.Duplicate "A course with this code already exists"
                         "course_code"
                         "This course code is already in use",
        campus_two_courses).
Proof.
  destruct duplicate_key_rejected
    as (Hins & Hupd & Hsins & _ & Hpage & _).
  split; [|split; [|split]].
  - apply Hins with (a' := CourseArgs.mk omitted (given (Some "Algebra II"))
                             (given (Some "cs101")) omitted omitted omitted);
      try reflexivity.
    eexists _, "cs101". split; [left; reflexivity|]. split; reflexivity.
  - apply Hupd with (a' := CourseArgs.mk omitted omitted
                             (given (Some "LOG1")) omitted omitted omitted)
                    (l1 := []) (o := nth 0 (courses campus_two_courses)
                                       (Course.mk None None None None None None))
                    (l2 := skipn 1 (courses campus_two_courses));
      try reflexivity.
    eexists _, "LOG1". split; [left; reflexivity|]. split; reflexivity.
  - apply Hsins with (a' := StudentArgs.mk omitted (given (Some "Robert"))
                              (given (Some "bob@example.org")) omitted omitted
                              omitted omitted);
      try reflexivity.
    eexists _, "bob@example.org". split; [left; reflexivity|].
    split; reflexivity.
  - exact (Hpage (at_time 8 800) (signed_in 1%N)
                 (Client.Courses.mkform "Logic II" " log1 " 6)
                 campus_two_courses eq_refl eq_refl).
Defined.

(** The database does not fold case; only the Courses page does, before
    it sends a code.  A lower-case code stored by other means and its
    upper-case variant coexist: [campus] stores "cs101", the page sends
    "CS101" for a new course, and the INSERT goes through. *)
Lemma case_variant_code_accepted :
  ~ (forall e s editingCourse formData d,
        Client.Courses.validateForm formData = true ->
        (exists r0 code,
            In r0 (courses d)
            /\ Course.course_code r0 = Some code
            /\ Client.toUpperCase code
               = Client.toUpperCase
                   (Client.trim (Client.Courses.course_code formData))) ->
        exists toast field field_error,
          fst (Client.Courses.handleSubmit e s editingCourse formData d)
          = Client.Duplicate toast field field_error).
Proof.
  intros H.
  destruct (H (at_time 7 700) (signed_in 1%N) None
              (Client.Courses.mkform "Algebra II" "cs101" 6) campus
              eq_refl) as (t & f & fe & Habs).
  - eexists _, "cs101". split; [left; reflexivity|]. split; reflexivity.
  - vm_compute in Habs. discriminate Habs.
Qed.


(** A request the policies do not admit is refused on that ground before
    any key is compared. *)
Example duplicate_from_non_admin_is_a_policy_error :
  insert_course (at_time 8 800) (signed_in 2%N)
    (CourseArgs.mk omitted (given (Some "Algebra II")) (given (Some "cs101"))
       omitted omitted omitted) campus
  = Err (insufficient_privilege "courses").
Proof. reflexivity. Qed.

(** ** Deleting courses *)

(** C8, as the schema has it.  A DELETE on [courses] removes the rows it
    hits and deletes no student row.  A student row that referenced a
    deleted course comes out with [course_id] NULL and, the SET NULL
    action being an UPDATE of [students], with [updated_at] set to the
    transaction's [now()] by that table's trigger; its other columns, the
    student rows referencing no deleted course, and the other tables are
    unchanged. *)
Theorem delete_courses_effect (e : env) (s : session)
        (w : Course.row -> bool) (d : db) :
  let removed := filter (hit courses_table DELETE d s w) (courses d) in
  let d' := delete_courses e s w d in
  courses d' = filter (fun c => negb (hit courses_table DELETE d s w c))
                      (courses d)
  /\ students d'
     = map (fun st => if references_deleted removed st then detached e st
                      else st)
           (students d)
  /\ List.length (students d') = List.length (students d)
  /\ user_roles d' = user_roles d
  /\ profiles d' = profiles d
  /\ auth_users d' = auth_users d.
Proof.
  intros removed d'.
  assert (Hst : students d'
                = map (fun st => if references_deleted removed st
                                 then detached e st else st)
                      (students d)).
  { unfold d', delete_courses, delete_rows. simpl. apply fold_set_null. }
  split; [reflexivity|]. split; [exact Hst|]. split.
  - rewrite Hst. apply length_map.
  - repeat split.
Qed.

(** C8, as stated, fails: in [campus] the admin deletes the course at time
    9, and the first student row, last written at time 5, comes out with
    [updated_at] 9. *)
Lemma delete_course_touches_updated_at :
  ~ (forall e s w d i st st',
        nth_error (students d) i = Some st ->
        nth_error (students (delete_courses e s w d)) i = Some st' ->
        Student.updated_at st' = Student.updated_at st).
Proof.
  intros H.
  specialize (H (at_time 9 900) (signed_in 1%N) (fun _ => true) campus
                0%nat _ _ eq_refl eq_refl).
  discriminate H.
Qed.

(** ** Timestamp maintenance *)

Lemma refreshed_map {R} `{HasUpdatedAt R} (T : table R) (e : env) (d : db)
      (s : session) (w : R -> bool) (assign : R -> R) :
  before_update T = update_updated_at_column ->
  forall rows,
    refreshed T e d s w rows (map (updated T e d s w assign) rows).
Proof.
  intros Htrig. induction rows as [|r rows IH]; simpl; constructor.
  - unfold updated. destruct (hit T UPDATE d s w r); [|reflexivity].
    rewrite Htrig. unfold update_updated_at_column.
    apply get_set_updated_at.
  - exact IH.
Qed.

(** C9. A successful UPDATE on [courses], [students] or [profiles] leaves
    every row it wrote with [updated_at] equal to the transaction's
    [now()], whatever [updated_at] the SET list [a] carried, and leaves the
    rows it did not hit as they were. *)
Theorem update_overwrites_updated_at (e : env) (s : session) (d d' : db) :
  (forall w a, update_courses e s w a d = Ok d' ->
               refreshed courses_table e d s w (courses d) (courses d'))
  /\ (forall w a, update_students e s w a d = Ok d' ->
                  refreshed students_table e d s w (students d) (students d'))
  /\ (forall w a, update_profiles e s w a d = Ok d' ->
                  refreshed profiles_table e d s w (profiles d) (profiles d')).
Proof.
  split; [|split]; intros w a H.
  - unfold update_courses in H. bind_inv H. bind_inv H. bind_inv H.
    inversion H; subst; clear H. apply update_rows_Ok in Hrun0.
    destruct Hrun0 as [-> _]. simpl. now apply refreshed_map.
  - unfold update_students in H. bind_inv H. bind_inv H. bind_inv H.
    bind_inv H. inversion H; subst; clear H. apply update_rows_Ok in Hrun0.
    destruct Hrun0 as [-> _]. simpl. now apply refreshed_map.
  - unfold update_profiles in H. bind_inv H. bind_inv H. bind_inv H.
    inversion H; subst; clear H. apply update_rows_Ok in Hrun0.
    destruct Hrun0 as [-> _]. simpl. now apply refreshed_map.
Qed.

Lemma update_overwrites_updated_at_witness :
  update_courses (at_time 9 900) (signed_in 1%N) (fun _ => true) redate campus
  = Ok campus_redated
  /\ map Course.updated_at (courses campus_redated) = [Some 9]
  /\ refreshed courses_table (at_time 9 900) campus (signed_in 1%N)
               (fun _ => true) (courses campus) (courses campus_redated).
Proof.
  split; [reflexivity|]. split; [reflexivity|].
  exact (proj1 (update_overwrites_updated_at
                  (at_time 9 900) (signed_in 1%N) campus campus_redated)
               (fun _ => true) redate eq_refl).
Defined.

(** ** Column defaults *)

(** C10. An INSERT into [courses] that leaves [course_duration] out, gives
    a name and a code that fit their columns, is admitted by row security,
    leaves no NOT NULL column NULL and collides with no existing id or
    code, succeeds; the row it appends has [course_duration] 1, the
    column's DEFAULT. *)
Theorem insert_course_default_duration
        (e : env) (s : session) (d : db) (id : arg UUID)
        (created_at updated_at : arg timestamptz) (n c : string) :
  let a := CourseArgs.mk id (given (Some n)) (given (Some c)) omitted
                         created_at updated_at in
  let r := course_tuple a (course_defaults e) in
  (char_length n <= 255)%nat ->
  (char_length c <= 50)%nat ->
  passes_check courses_policies INSERT d s r = true ->
  present Course.id r = true ->
  present Course.created_at r = true ->
  present Course.updated_at r = true ->
  existsb (same N.eqb Course.id r) (courses d) = false ->
  existsb (same String.eqb Course.course_code r) (courses d) = false ->
  insert_course e s a d = Ok (set_courses d (courses d ++ [r]))
  /\ Course.course_duration r = Some 1
  /\ In r (courses (set_courses d (courses d ++ [r]))).
Proof.
  intros a r Hn Hc Hrls Hid Hcr Hup Hpk Hcode.
  split; [|split; [reflexivity | simpl; apply in_or_app; right; now left]].
  unfold insert_course, coerce_course, a.
  cbn [CourseArgs.course_name CourseArgs.course_code
       CourseArgs.course_duration CourseArgs.id CourseArgs.created_at
       CourseArgs.updated_at coerce].
  rewrite (@varchar_fits _ _ Hn), (@varchar_fits _ _ Hc).
  cbn [bind integer coerce]. fold a. fold r.
  rewrite insert_row_Ok; [reflexivity | exact Hrls | |].
  - apply present_Some in Hid, Hcr, Hup.
    destruct Hid as (v1 & E1), Hcr as (v2 & E2), Hup as (v3 & E3).
    cbn. unfold present. now rewrite E1, E2, E3.
  - intros ix [<-|[<-|[]]]; assumption.
Qed.

Lemma insert_course_default_duration_witness :
  let e := at_time 7 700 in
  let a := CourseArgs.mk omitted (given (Some "Logic")) (given (Some "LOG1"))
                         omitted omitted omitted in
  insert_course e (signed_in 1%N) a campus
  = Ok (set_courses campus
          (courses campus ++ [course_tuple a (course_defaults e)]))
  /\ Course.course_duration (course_tuple a (course_defaults e)) = Some 1.
Proof.
  intros e a.
  destruct (@insert_course_default_duration
              e (signed_in 1%N) campus omitted omitted omitted
              "Logic" "LOG1") as (H1 & H2 & _);
    try reflexivity; try (simpl; lia).
  split; [exact H1 | exact H2].
Defined.

(** ** What each kind of session can read *)

Lemma policies_to_authenticated :
  Forall (fun p => to_role p = authenticated) courses_policies
  /\ Forall (fun p => to_role p = authenticated) students_policies
  /\ Forall (fun p => to_role p = authenticated) user_roles_policies
  /\ Forall (fun p => to_role p = authenticated) profiles_policies.
Proof. repeat split; repeat constructor. Qed.

Section OtherRole.
Context {R : Type}.
Variable ps : list (policy R).
Hypothesis to_auth : Forall (fun p => to_role p = authenticated) ps.
Variables (d : db) (s : session).
Hypothesis is_anon : current_role s = anon.

Lemma anon_applies_nowhere (c : command) :
  forallb (fun p => negb (applies c s p)) ps = true.
Proof.
  apply forallb_forall. intros p Hp. rewrite Forall_forall in to_auth.
  unfold applies. now rewrite (to_auth p Hp), is_anon.
Qed.

Lemma anon_passes_using (c : command) (r : R) :
  passes_using ps c d s r = false.
Proof.
  unfold passes_using. rewrite is_anon.
  apply not_true_is_false. intros H. apply existsb_exists in H.
  destruct H as (p & Hp & H). apply andb_prop in H. destruct H as [H _].
  pose proof (anon_applies_nowhere c) as Hno.
  rewrite forallb_forall in Hno. specialize (Hno p Hp).
  now rewrite H in Hno.
Qed.

Lemma anon_passes_check (c : command) (r : R) :
  passes_check ps c d s r = false.
Proof.
  unfold passes_check. rewrite is_anon.
  apply not_true_is_false. intros H. apply existsb_exists in H.
  destruct H as (p & Hp & H). apply andb_prop in H. destruct H as [H _].
  pose proof (anon_applies_nowhere c) as Hno.
  rewrite forallb_forall in Hno. specialize (Hno p Hp).
  now rewrite H in Hno.
Qed.
End OtherRole.

(** A table the session's policies let it write nothing to. *)
Section ClosedTable.
Context {R : Type}.
Variable T : table R.
Variables (d : db) (s : session).
Hypothesis no_insert : forall r, passes_check (rls T) INSERT d s r = false.
Hypothesis no_update : forall r, passes_using (rls T) UPDATE d s r = false.
Hypothesis no_delete : forall r, passes_using (rls T) DELETE d s r = false.

Lemma closed_insert (r : R) (rows : list R) :
  insert_row T d s r rows = Err (insufficient_privilege (relname T)).
Proof. unfold insert_row, check_row. now rewrite no_insert. Qed.

Lemma closed_update (e : env) (w : R -> bool) (assign : R -> R)
      (rows : list R) :
  update_rows T e d s w assign [] rows = Ok (rows, []).
Proof.
  rewrite update_rows_miss; [reflexivity|].
  apply forallb_forall. intros r _.
  unfold hit, reachable_row. now rewrite no_update.
Qed.

Lemma closed_delete (w : R -> bool) (rows : list R) :
  delete_rows T d s w rows = (rows, []).
Proof.
  unfold delete_rows. f_equal.
  - apply filter_all. intros r _.
    unfold hit, reachable_row. now rewrite no_delete.
  - apply filter_none. intros r _.
    unfold hit, reachable_row. now rewrite no_delete.
Qed.
End ClosedTable.

Lemma closed_select {R} (T : table R) (d : db) (s : session)
      (rows : list R) :
  (forall r, passes_using (rls T) SELECT d s r = false) ->
  select_rows T d s rows = [].
Proof. intros H. apply filter_none. intros r _. apply H. Qed.

Lemma set_user_roles_same (d : db) : set_user_roles d (user_roles d) = d.
Proof. now destruct d. Qed.

Lemma set_profiles_same (d : db) : set_profiles d (profiles d) = d.
Proof. now destruct d. Qed.

Lemma delete_courses_closed (e : env) (s : session) (w : Course.row -> bool)
      (d : db) :
  (forall r, passes_using courses_policies DELETE d s r = false) ->
  delete_courses e s w d = d.
Proof.
  intros Hno. unfold delete_courses.
  rewrite (@closed_delete _ courses_table d s Hno). simpl.
  now rewrite set_courses_same, set_students_same.
Qed.

(** X1. No policy of the migration is written for the [anon] role: a
    session running as [anon], whatever [auth.uid()] it carries, reads no
    row of any of the four tables, and no request of it changes the
    database. *)
Theorem anon_is_shut_out (e : env) (d : db) (u : option UUID) :
  let s := mksession anon u in
  select_courses s d = []
  /\ select_students s d = []
  /\ select_user_roles s d = []
  /\ select_profiles s d = []
  /\ forall q d', exec e s q d = Ok d' -> d' = d.
Proof.
  intros s.
  destruct policies_to_authenticated as (Pc & Ps & Pr & Pp).
  assert (Hcu : forall c r, passes_using (rls courses_table) c d s r = false)
    by (intros; now apply anon_passes_using).
  assert (Hcc : forall c r, passes_check (rls courses_table) c d s r = false)
    by (intros; now apply anon_passes_check).
  assert (Hsu : forall c r, passes_using (rls students_table) c d s r = false)
    by (intros; now apply anon_passes_using).
  assert (Hsc : forall c r, passes_check (rls students_table) c d s r = false)
    by (intros; now apply anon_passes_check).
  assert (Hru : forall c r,
             passes_using (rls user_roles_table) c d s r = false)
    by (intros; now apply anon_passes_using).
  assert (Hrc : forall c r,
             passes_check (rls user_roles_table) c d s r = false)
    by (intros; now apply anon_passes_check).
  assert (Hpu : forall c r, passes_using (rls profiles_table) c d s r = false)
    by (intros; now apply anon_passes_using).
  assert (Hpc : forall c r, passes_check (rls profiles_table) c d s r = false)
    by (intros; now apply anon_passes_check).
  split; [apply closed_select; auto|]. split; [apply closed_select; auto|].
  split; [apply closed_select; auto|]. split; [apply closed_select; auto|].
  intros q d' H. destruct q; simpl in H.
  - unfold insert_course in H. destruct (coerce_course a); [|discriminate].
    cbn [bind] in H. cbv zeta in H.
    now rewrite closed_insert in H by auto.
  - unfold update_courses in H. destruct (coerce_course a); [|discriminate].
    cbn [bind] in H.
    rewrite closed_update in H by auto. simpl in H.
    inversion H. apply set_courses_same.
  - inversion H. apply delete_courses_closed. auto.
  - unfold insert_student in H. destruct (coerce_student a); [|discriminate].
    cbn [bind] in H. cbv zeta in H.
    now rewrite closed_insert in H by auto.
  - unfold update_students in H. destruct (coerce_student a); [|discriminate].
    cbn [bind] in H.
    rewrite closed_update in H by auto. simpl in H.
    inversion H. apply set_students_same.
  - inversion H. unfold delete_students.
    rewrite closed_delete by auto. apply set_students_same.
  - unfold insert_user_role in H. cbv zeta in H.
    now rewrite closed_insert in H by auto.
  - unfold update_user_roles in H.
    rewrite closed_update in H by auto. simpl in H.
    inversion H. apply set_user_roles_same.
  - inversion H. unfold delete_user_roles.
    rewrite closed_delete by auto. apply set_user_roles_same.
  - unfold insert_profile in H. destruct (coerce_profile a); [|discriminate].
    cbn [bind] in H. cbv zeta in H.
    now rewrite closed_insert in H by auto.
  - unfold update_profiles in H. destruct (coerce_profile a); [|discriminate].
    cbn [bind] in H.
    rewrite closed_update in H by auto. simpl in H.
    inversion H. apply set_profiles_same.
  - inversion H. unfold delete_profiles.
    rewrite closed_delete by auto. apply set_profiles_same.
Qed.

(** X2. Every signed-in identity reads all courses; one that holds the
    admin role also reads every student, role and profile row. *)
Theorem admin_reads_everything (d : db) (I : UUID) :
  has_role d (Some I) (Some admin) = true ->
  select_courses (signed_in I) d = courses d
  /\ select_students (signed_in I) d = students d
  /\ select_user_roles (signed_in I) d = user_roles d
  /\ select_profiles (signed_in I) d = profiles d.
Proof.
  intros Hadm.
  split; [|split; [|split]];
    apply filter_all; intros r _;
    unfold passes_using; simpl; unfold using_holds; simpl;
    rewrite ?Hadm; simpl; now rewrite ?orb_true_r.
Qed.

Lemma admin_reads_everything_witness :
  has_role campus (Some 1%N) (Some admin) = true
  /\ select_students (signed_in 1%N) campus = students campus
  /\ select_user_roles (signed_in 1%N) campus = user_roles campus.
Proof.
  split; [reflexivity|].
  destruct (admin_reads_everything campus 1%N eq_refl) as (_ & Hs & Hr & _).
  split; [exact Hs | exact Hr].
Defined.

(** X3. A signed-in identity without the admin role still reads every
    course, but of the role and profile rows only those whose [user_id]
    is its own. *)
Theorem non_admin_reads_own_roles_and_profile (d : db) (I : UUID) :
  has_role d (Some I) (Some admin) = false ->
  select_courses (signed_in I) d = courses d
  /\ select_user_roles (signed_in I) d = filter (role_of I) (user_roles d)
  /\ select_profiles (signed_in I) d = filter (profile_of I) (profiles d).
Proof.
  intros Hna. split; [|split].
  - apply filter_all. intros r _. reflexivity.
  - apply filter_ext. intros r.
    unfold passes_using, role_of. simpl. unfold using_holds. simpl.
    rewrite Hna. simpl. now rewrite !orb_false_r.
  - apply filter_ext. intros r.
    unfold passes_using, profile_of. simpl. unfold using_holds. simpl.
    rewrite Hna. simpl. now rewrite !orb_false_r.
Qed.

Lemma non_admin_reads_own_roles_and_profile_witness :
  has_role campus (Some 2%N) (Some admin) = false
  /\ List.length (select_courses (signed_in 2%N) campus) = 1%nat
  /\ map UserRole.role (select_user_roles (signed_in 2%N) campus)
     = [Some student]
  /\ map Profile.user_id (select_profiles (signed_in 2%N) campus)
     = [Some 2%N].
Proof.
  split; [reflexivity|].
  destruct (non_admin_reads_own_roles_and_profile campus 2%N eq_refl)
    as (Hc & Hr & Hp).
  rewrite Hc, Hr, Hp. repeat split.
Defined.

(** ** What a request can write *)

Lemma update_rows_allowed {R} (T : table R) (e : env) (d : db) (s : session)
      (w : R -> bool) (assign : R -> R) (todo : list R) :
  forall seen res,
    update_rows T e d s w assign seen todo = Ok res ->
    forall r, In r todo -> hit T UPDATE d s w r = true ->
              new_row_allowed (rls T) d s (before_update T e (assign r))
              = true.
Proof.
  induction todo as [|x rest IH]; intros seen res H r Hr Hhit;
    [contradiction|].
  simpl in H. destruct (hit T UPDATE d s w x) eqn:Hx.
  - bind_inv H. bind_inv H. unfold check_row in Hrun. bind_inv Hrun.
    apply guard_Ok in Hrun1. destruct Hr as [<-|Hr]; [assumption|].
    eapply IH; eauto.
  - destruct Hr as [<-|Hr]; [congruence|]. eapply IH; eauto.
Qed.

(** The profiles policies, for any signed-in identity: the write policies
    name the row's owner only, and none is written for DELETE. *)
Section ProfilePolicies.
Variables (d : db) (I : UUID).

Lemma profile_update_using (r : Profile.row) :
  passes_using profiles_policies UPDATE d (signed_in I) r = profile_of I r.
Proof.
  unfold passes_using, profile_of. simpl. unfold using_holds. simpl.
  now rewrite orb_false_r.
Qed.

Lemma profile_update_check (r : Profile.row) :
  passes_check profiles_policies UPDATE d (signed_in I) r = profile_of I r.
Proof.
  unfold passes_check, profile_of. simpl. unfold with_check_holds. simpl.
  unfold using_holds. simpl. now rewrite orb_false_r.
Qed.

Lemma profile_insert_check (r : Profile.row) :
  passes_check profiles_policies INSERT d (signed_in I) r = profile_of I r.
Proof.
  unfold passes_check, profile_of. simpl. unfold with_check_holds. simpl.
  now rewrite orb_false_r.
Qed.

Lemma profile_delete_using (r : Profile.row) :
  passes_using profiles_policies DELETE d (signed_in I) r = false.
Proof. reflexivity. Qed.
End ProfilePolicies.

Section NonAdminWrites.
Variables (d : db) (I : UUID).
Hypothesis not_admin : has_role d (Some I) (Some admin) = false.

Lemma non_admin_students_closed :
  (forall r, passes_check (rls students_table) INSERT d (signed_in I) r = false)
  /\ (forall r, passes_using (rls students_table) UPDATE d (signed_in I) r
                = false)
  /\ (forall r, passes_using (rls students_table) DELETE d (signed_in I) r
                = false).
Proof.
  repeat split; intros r;
    unfold passes_check, passes_using; simpl;
    unfold with_check_holds, using_holds; simpl; now rewrite not_admin.
Qed.

Lemma non_admin_courses_closed :
  (forall r, passes_check (rls courses_table) INSERT d (signed_in I) r = false)
  /\ (forall r, passes_using (rls courses_table) UPDATE d (signed_in I) r
                = false)
  /\ (forall r, passes_using (rls courses_table) DELETE d (signed_in I) r
                = false).
Proof.
  repeat split; intros r;
    unfold passes_check, passes_using; simpl;
    unfold with_check_holds, using_holds; simpl; now rewrite not_admin.
Qed.

Lemma non_admin_user_roles_closed :
  (forall r, passes_check (rls user_roles_table) INSERT d (signed_in I) r
             = false)
  /\ (forall r, passes_using (rls user_roles_table) UPDATE d (signed_in I) r
                = false)
  /\ (forall r, passes_using (rls user_roles_table) DELETE d (signed_in I) r
                = false).
Proof.
  repeat split; intros r;
    unfold passes_check, passes_using; simpl;
    unfold with_check_holds, using_holds; simpl; now rewrite not_admin.
Qed.
End NonAdminWrites.

(** Rows of other owners, in order. *)
Lemma others_kept_by_update (I : UUID) (f : Profile.row -> Profile.row)
      (h : Profile.row -> bool) (rows : list Profile.row) :
  (forall r, In r rows -> h r = true ->
             profile_of I r = true /\ profile_of I (f r) = true) ->
  filter (fun p => negb (profile_of I p))
         (map (fun r => if h r then f r else r) rows)
  = filter (fun p => negb (profile_of I p)) rows.
Proof.
  induction rows as [|r rows IH]; intros H; simpl; [reflexivity|].
  rewrite IH by (intros x Hx; apply H; now right).
  destruct (h r) eqn:Hh; [|reflexivity].
  destruct (H r (or_introl eq_refl) Hh) as [H1 H2]. now rewrite H1, H2.
Qed.

(** X4. Whatever a signed-in identity without the admin role requests,
    it cannot write to courses, students or role assignments (so it can
    grant itself nothing: [has_role] answers as before for everyone), and
    of the profiles it leaves every row of another owner as it was. *)
Theorem non_admin_writes_only_own_profile
        (e : env) (d d' : db) (I : UUID) (q : statement) :
  has_role d (Some I) (Some admin) = false ->
  exec e (signed_in I) q d = Ok d' ->
  courses d' = courses d
  /\ students d' = students d
  /\ user_roles d' = user_roles d
  /\ auth_users d' = auth_users d
  /\ filter (fun p => negb (profile_of I p)) (profiles d')
     = filter (fun p => negb (profile_of I p)) (profiles d)
  /\ forall u r, has_role d' u r = has_role d u r.
Proof.
  intros Hna H.
  destruct (@non_admin_courses_closed d I Hna) as (Ci & Cu & Cd).
  destruct (@non_admin_students_closed d I Hna) as (Si & Su & Sd).
  destruct (@non_admin_user_roles_closed d I Hna) as (Ri & Ru & Rd).
  destruct q; simpl in H.
  - unfold insert_course in H. destruct (coerce_course a); [|discriminate].
    cbn [bind] in H. cbv zeta in H.
    now rewrite closed_insert in H by auto.
  - unfold update_courses in H. destruct (coerce_course a); [|discriminate].
    cbn [bind] in H. rewrite closed_update in H by auto. simpl in H.
    injection H as <-. rewrite set_courses_same. repeat split.
  - injection H as <-. rewrite delete_courses_closed by auto. repeat split.
  - unfold insert_student in H. destruct (coerce_student a); [|discriminate].
    cbn [bind] in H. cbv zeta in H.
    now rewrite closed_insert in H by auto.
  - unfold update_students in H. destruct (coerce_student a); [|discriminate].
    cbn [bind] in H. rewrite closed_update in H by auto. simpl in H.
    injection H as <-. rewrite set_students_same. repeat split.
  - injection H as <-. unfold delete_students.
    rewrite closed_delete by auto. cbn [fst].
    rewrite set_students_same. repeat split.
  - unfold insert_user_role in H. cbv zeta in H.
    now rewrite closed_insert in H by auto.
  - unfold update_user_roles in H.
    rewrite closed_update in H by auto. simpl in H.
    injection H as <-. rewrite set_user_roles_same. repeat split.
  - injection H as <-. unfold delete_user_roles.
    rewrite closed_delete by auto. cbn [fst].
    rewrite set_user_roles_same. repeat split.
  - unfold insert_profile in H. bind_inv H. bind_inv H. bind_inv H.
    inversion H; subst; clear H.
    pose proof Hrun0 as Hshape. apply insert_row_inv in Hshape. subst.
    unfold insert_row in Hrun0. bind_inv Hrun0.
    match goal with
    | Hc : check_row _ _ _ _ = Ok _ |- _ =>
        apply check_row_Ok in Hc; destruct Hc as (Hallowed & _ & _)
    end.
    change (rls profiles_table) with profiles_policies in Hallowed.
    rewrite profile_insert_check in Hallowed.
    repeat split. cbn [profiles set_profiles]. rewrite filter_app. simpl.
    rewrite Hallowed. simpl. apply app_nil_r.
  - unfold update_profiles in H. bind_inv H. bind_inv H. bind_inv H.
    inversion H; subst; clear H.
    pose proof (@update_rows_allowed _ _ _ _ _ _ _ _ _ _ Hrun0) as Hall.
    apply update_rows_Ok in Hrun0. destruct Hrun0 as [Hfst _].
    repeat split. cbn [profiles set_profiles]. rewrite Hfst. simpl.
    unfold updated. apply others_kept_by_update.
    intros r Hr Hhit. split.
    + unfold hit, reachable_row in Hhit.
      apply andb_prop in Hhit. destruct Hhit as [Hhit _].
      apply andb_prop in Hhit. destruct Hhit as [Hhit _].
      change (rls profiles_table) with profiles_policies in Hhit.
      now rewrite profile_update_using in Hhit.
    + specialize (Hall r Hr Hhit). unfold new_row_allowed in Hall.
      apply andb_prop in Hall. destruct Hall as [Hall _].
      change (rls profiles_table) with profiles_policies in Hall.
      now rewrite profile_update_check in Hall.
  - injection H as <-. unfold delete_profiles.
    rewrite closed_delete by (intros r; apply profile_delete_using).
    cbn [fst]. rewrite set_profiles_same. repeat split.
Qed.

Lemma non_admin_writes_only_own_profile_witness :
  has_role campus (Some 2%N) (Some admin) = false
  /\ exists d',
      exec (at_time 7 700) (signed_in 2%N)
           (UpdateProfiles (fun _ => true)
              (ProfileArgs.mk omitted omitted (given (Some "bobby")) omitted
                 omitted))
           campus = Ok d'
      /\ map Profile.username (profiles d') = [Some "alice"; Some "bobby"]
      /\ user_roles d' = user_roles campus.
Proof.
  split; [reflexivity|]. eexists. split; [reflexivity|].
  split; [reflexivity|].
  exact (proj1 (proj2 (proj2
           (@non_admin_writes_only_own_profile (at_time 7 700) campus _ 2%N
              (UpdateProfiles (fun _ => true)
                 (ProfileArgs.mk omitted omitted (given (Some "bobby"))
                    omitted omitted))
              eq_refl eq_refl)))).
Defined.

Lemma update_profiles_others_kept (e : env) (I : UUID)
      (w : Profile.row -> bool) (a : ProfileArgs.t) (d d' : db) :
  update_profiles e (signed_in I) w a d = Ok d' ->
  filter (fun p => negb (profile_of I p)) (profiles d')
  = filter (fun p => negb (profile_of I p)) (profiles d)
  /\ courses d' = courses d /\ students d' = students d
  /\ user_roles d' = user_roles d /\ auth_users d' = auth_users d.
Proof.
  intros H. unfold update_profiles in H. bind_inv H. bind_inv H. bind_inv H.
  inversion H; subst; clear H.
  pose proof (@update_rows_allowed _ _ _ _ _ _ _ _ _ _ Hrun0) as Hall.
  apply update_rows_Ok in Hrun0. destruct Hrun0 as [Hfst _].
  split; [|repeat split]. cbn [profiles set_profiles]. rewrite Hfst. simpl.
  unfold updated. apply others_kept_by_update.
  intros r Hr Hhit. split.
  - unfold hit, reachable_row in Hhit.
    apply andb_prop in Hhit. destruct Hhit as [Hhit _].
    apply andb_prop in Hhit. destruct Hhit as [Hhit _].
    change (rls profiles_table) with profiles_policies in Hhit.
    now rewrite profile_update_using in Hhit.
  - specialize (Hall r Hr Hhit). unfold new_row_allowed in Hall.
    apply andb_prop in Hall. destruct Hall as [Hall _].
    change (rls profiles_table) with profiles_policies in Hall.
    now rewrite profile_update_check in Hall.
Qed.

(** X5. The admin role gives no write access to profiles: for every
    signed-in identity, admin or not, a DELETE on profiles removes nothing
    (no policy is written for DELETE), and an UPDATE leaves every profile
    row of another owner, and every other table, as it was. *)
Theorem profiles_of_others_are_write_protected (d : db) (I : UUID) :
  (forall w, delete_profiles (signed_in I) w d = d)
  /\ (forall e w a d',
         update_profiles e (signed_in I) w a d = Ok d' ->
         filter (fun p => negb (profile_of I p)) (profiles d')
         = filter (fun p => negb (profile_of I p)) (profiles d)
         /\ courses d' = courses d /\ students d' = students d
         /\ user_roles d' = user_roles d /\ auth_users d' = auth_users d).
Proof.
  split.
  - intros w. unfold delete_profiles.
    rewrite closed_delete by (intros r; apply profile_delete_using).
    apply set_profiles_same.
  - intros e w a d'. apply update_profiles_others_kept.
Qed.

Lemma first_hit {A} (f : A -> bool) (l : list A) :
  existsb f l = true ->
  exists l1 o l2, l = l1 ++ o :: l2
                  /\ forallb (fun x => negb (f x)) l1 = true /\ f o = true.
Proof.
  induction l as [|x l IH]; simpl; [discriminate|].
  destruct (f x) eqn:Hx.
  - intros _. exists [], x, l. repeat split. assumption.
  - simpl. intros H. destruct (IH H) as (l1 & o & l2 & -> & Hl1 & Ho).
    exists (x :: l1), o, l2. simpl. rewrite Hx. simpl. auto.
Qed.

(** X6. A profile cannot be handed to another identity: the UPDATE
    policy has no WITH CHECK of its own, so its USING expression is
    applied to the new row too.  For every signed-in identity [I], admin
    or not, an UPDATE that hits a row and sets [user_id] to anything but
    [I] raises the row-security error, and nothing is written. *)
Theorem profile_owner_cannot_be_reassigned
        (e : env) (d : db) (I : UUID) (w : Profile.row -> bool)
        (a a' : ProfileArgs.t) (v : option UUID) :
  coerce_profile a = Ok a' ->
  ProfileArgs.user_id a' = given v ->
  v <> Some I ->
  existsb (hit profiles_table UPDATE d (signed_in I) w) (profiles d) = true ->
  update_profiles e (signed_in I) w a d
  = Err (insufficient_privilege "profiles").
Proof.
  intros Ha Hv Hne Hhit. unfold update_profiles. rewrite Ha. cbn [bind].
  destruct (first_hit _ _ Hhit) as (l1 & o & l2 & -> & Hmiss & Ho).
  rewrite update_rows_skip by assumption. simpl. rewrite Ho.
  unfold check_row, new_row_allowed.
  change (rls profiles_table) with profiles_policies.
  rewrite profile_update_check.
  match goal with
  | |- context [profile_of I ?x] => replace (profile_of I x) with false
  end; [reflexivity|].
  symmetry. unfold profile_of. cbn. rewrite Hv. cbn.
  destruct v as [j|]; [|reflexivity]. cbn.
  destruct (N.eqb_spec j I); [subst; congruence | reflexivity].
Qed.

Lemma profile_owner_cannot_be_reassigned_witness :
  update_profiles (at_time 7 700) (signed_in 2%N) (fun _ => true)
    (ProfileArgs.mk omitted (given (Some 1%N)) omitted omitted omitted) campus
  = Err (insufficient_privilege "profiles").
Proof.
  apply (@profile_owner_cannot_be_reassigned
           (at_time 7 700) campus 2%N (fun _ => true)
           (ProfileArgs.mk omitted (given (Some 1%N)) omitted omitted omitted)
           (ProfileArgs.mk omitted (given (Some 1%N)) omitted omitted omitted)
           (Some 1%N));
    try reflexivity. discriminate.
Defined.

(** ** Deleting an identity *)

Lemma filter_filter_implied {A} (f g : A -> bool) (l : list A) :
  (forall x, f x = true -> g x = true) ->
  filter f (filter g l) = filter f l.
Proof.
  intros Himp. induction l as [|x l IH]; simpl; [reflexivity|].
  destruct (g x) eqn:Hg; simpl.
  - now rewrite IH.
  - rewrite IH. destruct (f x) eqn:Hf; [|reflexivity].
    apply Himp in Hf. congruence.
Qed.

Lemma existsb_filter_implied {A} (f g : A -> bool) (l : list A) :
  (forall x, f x = true -> g x = true) ->
  existsb f (filter g l) = existsb f l.
Proof.
  intros Himp. induction l as [|x l IH]; simpl; [reflexivity|].
  destruct (g x) eqn:Hg; simpl.
  - now rewrite IH.
  - rewrite IH. destruct (f x) eqn:Hf; [|reflexivity].
    apply Himp in Hf. congruence.
Qed.

Lemma other_owner_survives (u v : UUID) (k : option UUID) :
  v <> u ->
  holds (sql_eq N.eqb k (Some v)) = true ->
  negb (holds (sql_eq N.eqb k (Some u))) = true.
Proof.
  intros Hne Hv. apply holds_sql_eq_N in Hv. destruct Hv as (x & -> & Hx).
  inversion Hx; subst x. simpl.
  destruct (N.eqb_spec v u); [contradiction | reflexivity].
Qed.

(** X7. Deleting an identity takes with it, through the three ON DELETE
    CASCADE references, every student, role and profile row that names
    it: afterwards the identity holds no role, owns no student record and
    has no profile.  Courses are untouched, and for every other identity
    the roles it holds and the student and profile rows it owns are as
    before. *)
Theorem delete_identity_cascades (u : UUID) (d : db) :
  let d' := delete_identity u d in
  user_exists d' u = false
  /\ (forall r, has_role d' (Some u) r = false)
  /\ get_user_student_id d' (Some u) = None
  /\ filter (owned_by u) (students d') = []
  /\ filter (profile_of u) (profiles d') = []
  /\ courses d' = courses d
  /\ forall v, v <> u ->
        (forall r, has_role d' (Some v) r = has_role d (Some v) r)
        /\ filter (owned_by v) (students d') = filter (owned_by v) (students d)
        /\ filter (profile_of v) (profiles d')
           = filter (profile_of v) (profiles d)
        /\ user_exists d' v = user_exists d v.
Proof.
  intros d'.
  assert (Hst : filter (owned_by u) (students d') = []).
  { apply filter_none. intros x Hx. cbn in Hx. apply filter_In in Hx.
    destruct Hx as [_ Hx]. now apply negb_true_iff in Hx. }
  split; [|split; [|split; [|split; [|split; [|split]]]]].
  - unfold user_exists. cbn. apply not_true_is_false. intros H.
    apply existsb_exists in H. destruct H as (x & Hx & Hid).
    apply filter_In in Hx. destruct Hx as [_ Hx].
    apply negb_true_iff in Hx. congruence.
  - intros r. unfold has_role. cbn. apply not_true_is_false. intros H.
    apply existsb_exists in H. destruct H as (x & Hx & Hrole).
    apply filter_In in Hx. destruct Hx as [_ Hx].
    apply negb_true_iff in Hx. rewrite holds_sql_and in Hrole.
    apply andb_prop in Hrole. destruct Hrole as [Hrole _]. congruence.
  - unfold get_user_student_id. fold (owned_by u). now rewrite Hst.
  - exact Hst.
  - apply filter_none. intros x Hx. cbn in Hx. apply filter_In in Hx.
    destruct Hx as [_ Hx]. now apply negb_true_iff in Hx.
  - reflexivity.
  - intros v Hne. split; [|split; [|split]].
    + intros r. unfold has_role. cbn. apply existsb_filter_implied.
      intros x Hx. rewrite holds_sql_and in Hx. apply andb_prop in Hx.
      destruct Hx as [Hx _]. now apply other_owner_survives with (v := v).
    + cbn. apply filter_filter_implied. intros x Hx.
      now apply other_owner_survives with (v := v).
    + cbn. apply filter_filter_implied. intros x Hx.
      now apply other_owner_survives with (v := v).
    + unfold user_exists. cbn. apply existsb_filter_implied.
      intros x Hx. apply N.eqb_eq in Hx. apply negb_true_iff.
      apply N.eqb_neq. congruence.
Qed.

(** ** Signing up *)

(** X8. Whenever creating an identity succeeds, it has added exactly the
    identity, one profile row carrying the metadata's username (NULL when
    the metadata has none) and one role row with role student.  The new
    identity holds the student role, and nobody's admin status has
    changed: signing up never grants admin. *)
Theorem signup_grants_student_only (e : env) (NEW : AuthUser.row)
        (d d' : db) :
  create_identity e NEW d = Ok d' ->
  exists v,
    varchar 255 (json_text (AuthUser.raw_user_meta_data NEW) "username")
    = Ok v
    /\ (json_text (AuthUser.raw_user_meta_data NEW) "username" = None ->
        v = None)
    /\ d' = mkdb (courses d) (students d)
                 (user_roles d ++ [provisioned_role e (AuthUser.id NEW)])
                 (profiles d ++ [provisioned_profile e (AuthUser.id NEW) v])
                 (auth_users d ++ [NEW])
    /\ has_role d' (Some (AuthUser.id NEW)) (Some student) = true
    /\ forall u, has_role d' u (Some admin) = has_role d u (Some admin).
Proof.
  intros H. unfold create_identity in H. bind_inv H.
  unfold handle_new_user in H. bind_inv H.
  unfold insert_profile in Hrun0. bind_inv Hrun0. bind_inv Hrun0.
  bind_inv Hrun0. inversion Hrun0; subst; clear Hrun0.
  unfold insert_user_role in H. bind_inv H. bind_inv H.
  inversion H; subst; clear H.
  repeat match goal with
         | Hi : insert_row _ _ _ _ _ = Ok _ |- _ =>
             apply insert_row_inv in Hi; subst
         end.
  unfold coerce_profile in Hrun1. bind_inv Hrun1.
  inversion Hrun1; subst; clear Hrun1.
  unfold coerce in Hrun0. bind_inv Hrun0. inversion Hrun0; subst.
  exists a1. split; [assumption|]. split.
  - intros Hnone. rewrite Hnone in Hrun1. simpl in Hrun1. congruence.
  - split; [reflexivity|]. split.
    + unfold has_role. cbn [user_roles set_user_roles set_profiles
                            set_auth_users].
      rewrite existsb_app. cbn. now rewrite N.eqb_refl, orb_true_r.
    + intros u. unfold has_role. cbn [user_roles set_user_roles set_profiles
                                      set_auth_users].
      rewrite existsb_app. cbn. destruct u as [u|]; cbn.
      * destruct (N.eqb _ u); cbn; now rewrite orb_false_r.
      * now rewrite orb_false_r.
Qed.

Lemma signup_grants_student_only_witness :
  exists d',
    create_identity (at_time 7 700) (AuthUser.mk 3%N None) campus = Ok d'
    /\ map Profile.username (profiles d') = [Some "alice"; None; None]
    /\ has_role d' (Some 3%N) (Some student) = true
    /\ has_role d' (Some 3%N) (Some admin) = false.
Proof.
  eexists. split; [reflexivity|].
  destruct (@signup_grants_student_only (at_time 7 700)
              (AuthUser.mk 3%N None) campus _ eq_refl)
    as (v & _ & _ & _ & Hstudent & Hadmin).
  split; [reflexivity|]. split; [exact Hstudent|].
  rewrite Hadmin. reflexivity.
Defined.

(** X9. The profile's username column holds 255 characters.  When the
    signup metadata carries a username of more characters (the excess
    not being spaces), the trigger's first INSERT raises and the
    identity is not created at all.  The limit counts characters, not
    bytes. *)
Theorem signup_rejects_overlong_username (e : env) (NEW : AuthUser.row)
        (d : db) (name : string) :
  user_exists d (AuthUser.id NEW) = false ->
  json_text (AuthUser.raw_user_meta_data NEW) "username" = Some name ->
  (255 < char_length name)%nat ->
  all_spaces (char_drop 255 name) = false ->
  create_identity e NEW d = Err (string_data_right_truncation 255).
Proof.
  intros Hnew Hname Hlen Hexcess. unfold create_identity. rewrite Hnew.
  cbn [negb guard bind].
  unfold handle_new_user, insert_profile, coerce_profile.
  cbn [ProfileArgs.username coerce]. rewrite Hname. unfold varchar.
  replace (char_length name <=? 255)%nat with false
    by (symmetry; apply Nat.leb_gt; lia).
  now rewrite Hexcess.
Qed.

Lemma signup_rejects_overlong_username_witness :
  create_identity (at_time 7 700)
    (AuthUser.mk 3%N (Some [("username", Some overlong_name)])) campus
  = Err (string_data_right_truncation 255).
Proof.
  apply signup_rejects_overlong_username with (name := overlong_name);
    try reflexivity.
  vm_compute. lia.
Defined.

(** A username of 200 accented characters takes 400 bytes and is stored
    as it is. *)
Example signup_stores_accented_username :
  String.length accented_name = 400%nat
  /\ char_length accented_name = 200%nat
  /\ exists d',
       create_identity (at_time 7 700)
         (AuthUser.mk 3%N (Some [("username", Some accented_name)])) campus
       = Ok d'
       /\ map Profile.username (profiles d')
          = [Some "alice"; None; Some accented_name].
Proof.
  split; [reflexivity|]. split; [reflexivity|].
  eexists. split; vm_compute; reflexivity.
Qed.

(** ** The ownership resolver and the student's own view *)

(** X10. When the students table satisfies its constraints and the
    identity owns at least one student row, [get_user_student_id] does
    return an id, and it is the id of a row that identity owns. *)
Theorem get_user_student_id_finds_owned_row (d : db) (u : UUID) :
  constraints_hold students_table (students d) ->
  (exists st, In st (students d) /\ Student.user_id st = Some u) ->
  exists sid st,
    get_user_student_id d (Some u) = Some sid
    /\ In st (students d)
    /\ Student.id st = Some sid
    /\ Student.user_id st = Some u.
Proof.
  intros [Hnn _] (st0 & Hin0 & Hu0). unfold get_user_student_id.
  fold (owned_by u).
  destruct (filter (owned_by u) (students d)) as [|st rest] eqn:Hf.
  - assert (Habs : In st0 (filter (owned_by u) (students d))).
    { apply filter_In. split; [assumption|]. unfold owned_by.
      apply holds_sql_eq_N. eauto. }
    rewrite Hf in Habs. contradiction.
  - assert (Hst : In st (filter (owned_by u) (students d)))
      by (rewrite Hf; now left).
    apply filter_In in Hst. destruct Hst as [Hin Hown].
    rewrite Forall_forall in Hnn. specialize (Hnn st Hin).
    cbn in Hnn. unfold present in Hnn.
    destruct (Student.id st) as [sid|] eqn:Hid; [|discriminate].
    exists sid, st. repeat split; try assumption.
    unfold owned_by in Hown. apply holds_sql_eq_N in Hown.
    destruct Hown as (x & Hx & Hxu). congruence.
Qed.

Lemma get_user_student_id_finds_owned_row_witness :
  constraints_hold students_table (students campus)
  /\ exists sid, get_user_student_id campus (Some 2%N) = Some sid.
Proof.
  pose proof (proj1 (proj2 (reachable_tables_ok campus_reachable))) as Hc.
  split; [exact Hc|].
  destruct (@get_user_student_id_finds_owned_row campus 2%N Hc)
    as (sid & st & Hget & _).
  - eexists. split; [left; reflexivity | reflexivity].
  - exists sid. exact Hget.
Defined.

(** X11. For an identity without the admin role the resolver and the
    row-level policy agree: [get_user_student_id] returns the id of the
    first row that identity's own SELECT on students returns, and NULL
    when that SELECT returns nothing. *)
Theorem get_user_student_id_is_first_selected (d : db) (I : UUID) :
  has_role d (Some I) (Some admin) = false ->
  get_user_student_id d (Some I)
  = match select_students (signed_in I) d with
    | [] => None
    | st :: _ => Student.id st
    end.
Proof.
  intros Hna. unfold get_user_student_id, select_students, select_rows.
  symmetry. erewrite filter_ext;
    [|intros st; apply (@non_admin_sees_own_students d I Hna)].
  reflexivity.
Qed.

Lemma get_user_student_id_is_first_selected_witness :
  has_role campus (Some 2%N) (Some admin) = false
  /\ get_user_student_id campus (Some 2%N) = Some 500%N.
Proof.
  split; [reflexivity|].
  exact (eq_trans (@get_user_student_id_is_first_selected campus 2%N eq_refl)
                  eq_refl).
Defined.

(** ** Granting and revoking roles *)

Lemma admin_manages_roles (d : db) (A : UUID) :
  has_role d (Some A) (Some admin) = true ->
  (forall r, passes_check user_roles_policies INSERT d (signed_in A) r = true)
  /\ (forall w r, hit user_roles_table DELETE d (signed_in A) w r = w r).
Proof.
  intros Hadm. split.
  - intros r. unfold passes_check. simpl.
    unfold with_check_holds, using_holds. simpl. now rewrite Hadm.
  - intros w r. unfold hit, reachable_row, passes_using. simpl.
    unfold using_holds. simpl. rewrite Hadm. simpl.
    now rewrite !orb_true_r.
Qed.

Lemma has_role_existsb_pair (d : db) (u : UUID) (r : app_role)
      (row : UserRole.row) :
  UserRole.user_id row = Some u ->
  UserRole.role row = Some r ->
  existsb (fun x => same N.eqb UserRole.user_id row x
                    && same app_role_eqb UserRole.role row x)
          (user_roles d)
  = has_role d (Some u) (Some r).
Proof.
  intros Hu Hr. unfold has_role.
  induction (user_roles d) as [|x l IH]; simpl; [reflexivity|].
  rewrite IH. f_equal. rewrite holds_sql_and. unfold same.
  rewrite Hu, Hr.
  destruct (UserRole.user_id x) as [xu|], (UserRole.role x) as [xr|];
    simpl; try reflexivity.
  - rewrite (N.eqb_sym u xu). destruct (N.eqb xu u), r, xr; reflexivity.
  - rewrite (N.eqb_sym u xu). destruct (N.eqb xu u); reflexivity.
Qed.

(** X12. Role assignments are unique per (identity, role): an INSERT into
    user_roles that row security admits, with a new id, for a pair the
    identity already holds raises [unique_violation] on
    [user_roles_user_id_role_key]. *)
Theorem role_grant_twice_rejected (e : env) (s : session) (d : db)
        (a : UserRoleArgs.t) (u : UUID) (r : app_role) :
  let row := user_role_tuple a (user_role_defaults e) in
  passes_check user_roles_policies INSERT d s row = true ->
  check_not_null user_roles_table (not_nulls user_roles_table) row = Ok tt ->
  existsb (same N.eqb UserRole.id row) (user_roles d) = false ->
  UserRole.user_id row = Some u ->
  UserRole.role row = Some r ->
  has_role d (Some u) (Some r) = true ->
  insert_user_role e s a d
  = Err (unique_violation "user_roles_user_id_role_key").
Proof.
  intros row Hrls Hnn Hpk Hu Hr Hheld. unfold insert_user_role. fold row.
  rewrite insert_row_Err
    with (err := unique_violation "user_roles_user_id_role_key");
    [reflexivity | exact Hrls | exact Hnn |].
  apply check_unique_second; [exact Hpk|].
  now rewrite (@has_role_existsb_pair d u r row Hu Hr).
Qed.

Lemma role_grant_twice_rejected_witness :
  insert_user_role (at_time 7 700) (signed_in 1%N)
    (UserRoleArgs.mk omitted (given (Some 2%N)) omitted omitted) campus
  = Err (unique_violation "user_roles_user_id_role_key").
Proof.
  apply role_grant_twice_rejected with (u := 2%N) (r := student);
    reflexivity.
Defined.

(** X13. An admin can grant a role: for an existing identity that does
    not yet hold the role, the INSERT (with a new generated id) succeeds;
    afterwards [has_role] answers true for that pair, and every pair that
    was held before is still held, so one identity may hold both roles. *)
Theorem admin_grants_role (e : env) (d : db) (A u : UUID) (r : app_role) :
  let row := UserRole.mk (Some (gen_random_uuid e 0%nat)) (Some u) (Some r)
                         (Some (now e)) in
  let d' := set_user_roles d (user_roles d ++ [row]) in
  has_role d (Some A) (Some admin) = true ->
  user_exists d u = true ->
  has_role d (Some u) (Some r) = false ->
  existsb (same N.eqb UserRole.id row) (user_roles d) = false ->
  insert_user_role e (signed_in A)
    (UserRoleArgs.mk omitted (given (Some u)) (given (Some r)) omitted) d
  = Ok d'
  /\ has_role d' (Some u) (Some r) = true
  /\ forall v r', has_role d v r' = true -> has_role d' v r' = true.
Proof.
  intros row d' Hadm Hu Hnot Hpk.
  destruct (admin_manages_roles d A Hadm) as [Hins _].
  split; [|split].
  - unfold insert_user_role.
    change (user_role_tuple _ (user_role_defaults e)) with row.
    rewrite insert_row_Ok; [| apply Hins | reflexivity |].
    + cbn [bind]. unfold fk_insert. cbn [UserRole.user_id row references].
      now rewrite Hu.
    + intros ix [<-|[<-|[]]]; [exact Hpk|]. cbn [snd].
      rewrite (@has_role_existsb_pair d u r row eq_refl eq_refl).
      exact Hnot.
  - unfold has_role. cbn [user_roles d' set_user_roles].
    rewrite existsb_app. cbn. rewrite N.eqb_refl.
    replace (app_role_eqb r r) with true by (now destruct r).
    now rewrite orb_true_r.
  - intros v r' H. unfold has_role in *. cbn [user_roles d' set_user_roles].
    rewrite existsb_app, H. reflexivity.
Qed.

Lemma admin_grants_role_witness :
  exists d',
    insert_user_role (at_time 7 700) (signed_in 1%N)
      (UserRoleArgs.mk omitted (given (Some 2%N)) (given (Some admin))
         omitted) campus = Ok d'
    /\ has_role d' (Some 2%N) (Some admin) = true
    /\ has_role d' (Some 2%N) (Some student) = true.
Proof.
  destruct (@admin_grants_role (at_time 7 700) campus 1%N 2%N admin)
    as (Hins & Hnew & Hold); try reflexivity.
  eexists. split; [exact Hins|]. split; [exact Hnew|].
  apply Hold. reflexivity.
Defined.

(** X14. An admin can revoke a role: after its DELETE of the rows pairing
    an identity with a role, [has_role] answers false for that pair and
    as before for every other pair.  The policy is evaluated on the state
    before the statement, so this holds as well when the admin revokes
    its own admin role. *)
Theorem admin_revokes_role (d : db) (A u : UUID) (r : app_role) :
  let w := fun row : UserRole.row =>
             holds (sql_and (sql_eq N.eqb (UserRole.user_id row) (Some u))
                            (sql_eq app_role_eqb (UserRole.role row)
                                    (Some r))) in
  let d' := delete_user_roles (signed_in A) w d in
  has_role d (Some A) (Some admin) = true ->
  has_role d' (Some u) (Some r) = false
  /\ forall v r', (v, r') <> (u, r) ->
                  has_role d' (Some v) (Some r') = has_role d (Some v) (Some r').
Proof.
  intros w d' Hadm.
  destruct (admin_manages_roles d A Hadm) as [_ Hdel].
  assert (Hrows : user_roles d'
                  = filter (fun row => negb (w row)) (user_roles d)).
  { unfold d', delete_user_roles, delete_rows. cbn.
    apply filter_ext. intros row. now rewrite Hdel. }
  split.
  - unfold has_role. rewrite Hrows. apply not_true_is_false. intros H.
    apply existsb_exists in H. destruct H as (x & Hx & Hpair).
    apply filter_In in Hx. destruct Hx as [_ Hx].
    apply negb_true_iff in Hx. unfold w in Hx. congruence.
  - intros v r' Hne. unfold has_role. rewrite Hrows.
    apply existsb_filter_implied. intros x Hx.
    apply negb_true_iff. apply not_true_is_false. intros Hw.
    unfold w in Hw. rewrite holds_sql_and in Hx, Hw.
    apply andb_prop in Hx, Hw. destruct Hx as [Hx1 Hx2], Hw as [Hw1 Hw2].
    apply holds_sql_eq_N in Hx1, Hw1. apply holds_sql_eq_role in Hx2, Hw2.
    destruct Hx1 as (a1 & E1 & E2), Hw1 as (a2 & E3 & E4),
             Hx2 as (b1 & E5 & E6), Hw2 as (b2 & E7 & E8).
    apply Hne. congruence.
Qed.

Lemma admin_revokes_role_witness :
  has_role campus (Some 1%N) (Some admin) = true
  /\ has_role
       (delete_user_roles (signed_in 1%N)
          (fun row =>
             holds (sql_and (sql_eq N.eqb (UserRole.user_id row) (Some 1%N))
                            (sql_eq app_role_eqb (UserRole.role row)
                                    (Some admin))))
          campus)
       (Some 1%N) (Some admin) = false.
Proof.
  split; [reflexivity|].
  exact (proj1 (@admin_revokes_role campus 1%N 1%N admin eq_refl)).
Defined.

(** ** Foreign keys at work *)

(** X15. A student cannot be enrolled in a course that does not exist:
    an INSERT into students that passes row security, NOT NULL and the
    unique indexes but names a [course_id] with no course row raises the
    foreign-key error of [students_course_id_fkey]. *)
Theorem student_course_must_exist (e : env) (s : session) (d : db)
        (a a' : StudentArgs.t) (c : UUID) :
  let r := student_tuple a' (student_defaults e) in
  coerce_student a = Ok a' ->
  passes_check students_policies INSERT d s r = true ->
  check_not_null students_table (not_nulls students_table) r = Ok tt ->
  existsb (same N.eqb Student.id r) (students d) = false ->
  existsb (same String.eqb Student.email r) (students d) = false ->
  Student.course_id r = Some c ->
  course_exists d c = false ->
  insert_student e s a d
  = Err (foreign_key_violation "students" "students_course_id_fkey" None).
Proof.
  intros r Ha Hrls Hnn Hpk Hmail Hc Hnone. unfold insert_student.
  rewrite Ha. cbn [bind]. fold r.
  rewrite insert_row_Ok; [| exact Hrls | exact Hnn |].
  - cbn [bind]. unfold fk_insert. rewrite Hc. cbn [references].
    now rewrite Hnone.
  - intros ix [<-|[<-|[]]]; assumption.
Qed.

Lemma student_course_must_exist_witness :
  insert_student (at_time 7 700) (signed_in 1%N)
    (StudentArgs.mk omitted (given (Some "Rob"))
       (given (Some "rob@example.org")) (given (Some 999%N)) omitted omitted
       omitted) campus
  = Err (foreign_key_violation "students" "students_course_id_fkey" None).
Proof.
  apply student_course_must_exist
    with (a' := StudentArgs.mk omitted (given (Some "Rob"))
                  (given (Some "rob@example.org")) (given (Some 999%N))
                  omitted omitted omitted) (c := 999%N);
    reflexivity.
Defined.

Lemma update_rows_single {R} (T : table R) (e : env) (d : db) (s : session)
      (w : R -> bool) (assign : R -> R) (l1 l2 : list R) (o : R) :
  forallb (fun x => negb (hit T UPDATE d s w x)) l1 = true ->
  forallb (fun x => negb (hit T UPDATE d s w x)) l2 = true ->
  hit T UPDATE d s w o = true ->
  check_row T (new_row_allowed (rls T) d s (before_update T e (assign o)))
            (l1 ++ l2) (before_update T e (assign o)) = Ok tt ->
  update_rows T e d s w assign [] (l1 ++ o :: l2)
  = Ok (l1 ++ before_update T e (assign o) :: l2,
        [(o, before_update T e (assign o))]).
Proof.
  intros H1 H2 Ho Hcheck. rewrite update_rows_skip by assumption.
  simpl. rewrite Ho, Hcheck. cbn [bind].
  rewrite update_rows_miss by assumption. cbn.
  now rewrite <- app_assoc.
Qed.

(** X16. [students.course_id] declares no ON UPDATE action, so a course
    that students reference cannot be renumbered: an UPDATE that hits
    just that course, passes every check on the new row and gives it
    another id, while no other course carries the old id, raises the
    foreign-key error and changes nothing. *)
Theorem referenced_course_id_is_fixed
        (e : env) (s : session) (w : Course.row -> bool) (d : db)
        (a a' : CourseArgs.t) (l1 l2 : list Course.row) (o : Course.row)
        (c : UUID) (st : Student.row) :
  let r := update_updated_at_column e (course_tuple a' o) in
  coerce_course a = Ok a' ->
  courses d = l1 ++ o :: l2 ->
  forallb (fun x => negb (hit courses_table UPDATE d s w x)) l1 = true ->
  forallb (fun x => negb (hit courses_table UPDATE d s w x)) l2 = true ->
  hit courses_table UPDATE d s w o = true ->
  check_row courses_table (new_row_allowed courses_policies d s r)
            (l1 ++ l2) r = Ok tt ->
  Course.id o = Some c ->
  Course.id r <> Some c ->
  existsb (fun x => holds (sql_eq N.eqb (Course.id x) (Some c))) (l1 ++ l2)
  = false ->
  In st (students d) ->
  Student.course_id st = Some c ->
  update_courses e s w a d
  = Err (foreign_key_violation "courses" "students_course_id_fkey"
                               (Some "students")).
Proof.
  intros r Ha Hrows H1 H2 Ho Hcheck Hid Hnew Hfree Hst Hcid.
  unfold update_courses. rewrite Ha, Hrows. cbn [bind].
  rewrite update_rows_single by assumption. cbn [bind fst snd forallb].
  change (before_update courses_table e (course_tuple a' o)) with r.
  assert (Hchanged : key_changed (Course.id o) (Course.id r) = true).
  { rewrite Hid. destruct (Course.id r) as [k|]; simpl; [|reflexivity].
    apply negb_true_iff. apply N.eqb_neq. congruence. }
  rewrite Hchanged. cbn [negb orb]. rewrite Hid.
  assert (Hdangling :
            course_key_dangling
              (set_courses d (l1 ++ r :: l2)) (Some c) = true).
  { unfold course_key_dangling. apply andb_true_intro. split.
    - apply negb_true_iff. unfold course_exists.
      cbn [courses set_courses]. rewrite existsb_app in Hfree.
      apply orb_false_iff in Hfree. destruct Hfree as [F1 F2].
      rewrite existsb_app. cbn [existsb]. rewrite F1, F2, orb_false_r.
      cbn [orb]. destruct (Course.id r) as [k|] eqn:Hk; [|reflexivity].
      cbn. destruct (N.eqb_spec k c); [subst; congruence | reflexivity].
    - apply existsb_exists. exists st. split; [exact Hst|].
      apply holds_sql_eq_N. eauto. }
  rewrite Hdangling. reflexivity.
Qed.

Lemma referenced_course_id_is_fixed_witness :
  update_courses (at_time 7 700) (signed_in 1%N) (fun _ => true)
    (CourseArgs.mk (given (Some 401%N)) omitted omitted omitted omitted
       omitted) campus
  = Err (foreign_key_violation "courses" "students_course_id_fkey"
                               (Some "students")).
Proof.
  apply referenced_course_id_is_fixed
    with (a' := CourseArgs.mk (given (Some 401%N)) omitted omitted omitted
                  omitted omitted)
         (l1 := [])
         (o := nth 0 (courses campus)
                   (Course.mk None None None None None None))
         (l2 := []) (c := 400%N)
         (st := nth 0 (students campus)
                    (Student.mk None None None None None None None));
    try reflexivity.
  - discriminate.
  - left. reflexivity.
Defined.

(** ** What holds of every reachable database *)

(** Under a unique index on a column, at most one row holds a given
    value. *)
Lemma distinct_by_at_most_one {R} (col : R -> option UUID) (u : UUID)
      (rows : list R) :
  distinct_by (same N.eqb col) rows ->
  (List.length
     (filter (fun r => holds (sql_eq N.eqb (col r) (Some u))) rows) <= 1)%nat.
Proof.
  induction rows as [|x l IH]; intros Hd; [simpl; lia|].
  apply distinct_by_cons in Hd. destruct Hd as [Hl Hx].
  specialize (IH Hl). cbn [filter].
  destruct (holds (sql_eq N.eqb (col x) (Some u))) eqn:Hxu; [|exact IH].
  replace (filter (fun r => holds (sql_eq N.eqb (col r) (Some u))) l)
    with (@nil R); [simpl; lia|].
  symmetry. apply filter_none. intros y Hy.
  destruct (holds (sql_eq N.eqb (col y) (Some u))) eqn:Hyu; [|reflexivity].
  exfalso. destruct (Hx y Hy) as [Hxy _].
  apply holds_sql_eq_N in Hxu, Hyu.
  destruct Hxu as (a & Ha & Hau), Hyu as (b & Hb & Hbu).
  inversion Hau; inversion Hbu; subst.
  unfold same in Hxy. rewrite Ha, Hb in Hxy. simpl in Hxy.
  now rewrite N.eqb_refl in Hxy.
Qed.

(** X17. In every database reached from the empty one by requests and
    identity events, nothing dangles: a student's course, when set, is a
    stored course; the identity of a student record (when set), of every
    role assignment and of every profile exists; and no identity has
    more than one profile. *)
Theorem reachable_database_has_no_orphans (d : db) :
  reachable d ->
  (forall st c, In st (students d) -> Student.course_id st = Some c ->
                exists course,
                  In course (courses d) /\ Course.id course = Some c)
  /\ (forall st u, In st (students d) -> Student.user_id st = Some u ->
                   user_exists d u = true)
  /\ (forall r, In r (user_roles d) ->
                exists u, UserRole.user_id r = Some u
                          /\ user_exists d u = true)
  /\ (forall p, In p (profiles d) ->
                exists u, Profile.user_id p = Some u
                          /\ user_exists d u = true)
  /\ (forall u,
        (List.length (filter (profile_of u) (profiles d)) <= 1)%nat).
Proof.
  intros Hd. destruct (reachable_schema_ok Hd) as [Htab Hrefs].
  destruct Htab as (_ & _ & [Hrn _] & [Hpn Hpu]).
  destruct Hrefs as (Hsc & Hsu & Hru & Hpr & _).
  unfold refers in Hsc, Hsu, Hru, Hpr.
  rewrite Forall_forall in Hsc, Hsu, Hru, Hpr, Hrn, Hpn.
  split; [|split; [|split; [|split]]].
  - intros st c Hin Hc. specialize (Hsc st Hin). rewrite Hc in Hsc.
    now apply course_exists_iff.
  - intros st u Hin Hu. specialize (Hsu st Hin). now rewrite Hu in Hsu.
  - intros r Hin. specialize (Hru r Hin). specialize (Hrn r Hin).
    destruct (UserRole.user_id r) as [u|] eqn:Hu.
    + exists u. now split.
    + exfalso. cbn in Hrn. unfold present in Hrn. rewrite Hu in Hrn.
      destruct (UserRole.id r); discriminate.
  - intros p Hin. specialize (Hpr p Hin). specialize (Hpn p Hin).
    destruct (Profile.user_id p) as [u|] eqn:Hu.
    + exists u. now split.
    + exfalso. cbn in Hpn. unfold present in Hpn. rewrite Hu in Hpn.
      destruct (Profile.id p); discriminate.
  - intros u. apply distinct_by_at_most_one.
    cbn [uniques profiles_table] in Hpu.
    inversion Hpu as [|? ? _ Hrest]; subst.
    inversion Hrest as [|? ? Hkey _]; subst. exact Hkey.
Qed.

Lemma reachable_database_has_no_orphans_witness :
  reachable campus
  /\ forall st c, In st (students campus) -> Student.course_id st = Some c ->
                  exists course,
                    In course (courses campus) /\ Course.id course = Some c.
Proof.
  split; [exact campus_reachable|].
  exact (proj1 (reachable_database_has_no_orphans campus_reachable)).
Defined.

(** ** The Courses page: counts, search, delete *)

Lemma countMap_get_set (m : list (UUID * nat)) (c k : UUID) (n : nat) :
  Client.Courses.get (Client.Courses.set m c n) k
  = if N.eqb c k then Some n else Client.Courses.get m k.
Proof.
  induction m as [|[k0 n0] m IH]; simpl.
  - reflexivity.
  - destruct (N.eqb_spec k0 c) as [->|Hne]; simpl.
    + destruct (N.eqb c k); reflexivity.
    + destruct (N.eqb_spec k0 k) as [->|Hne'].
      * destruct (N.eqb_spec c k); [subst; contradiction | reflexivity].
      * exact IH.
Qed.

Lemma countMap_fold (rows : list (option UUID)) (k : UUID) :
  forall m,
    Client.Courses.or_zero
      (Client.Courses.get
         (fold_left
            (fun countMap course_id =>
               match course_id with
               | Some c =>
                   Client.Courses.set countMap c
                     (Client.Courses.or_zero (Client.Courses.get countMap c)
                      + 1)%nat
               | None => countMap
               end)
            rows m)
         k)
    = (Client.Courses.or_zero (Client.Courses.get m k)
       + List.length (filter (names_course k) rows))%nat.
Proof.
  induction rows as [|[c|] rows IH]; intros m; simpl.
  - lia.
  - rewrite IH, countMap_get_set.
    destruct (N.eqb_spec c k) as [->|Hne]; simpl; lia.
  - apply IH.
Qed.

(** X18. The student count the Courses page shows beside a course is the
    number of student rows, among those the session can read, whose
    [course_id] is that course (students with no course are counted
    nowhere); every other field of the course is shown as fetched.  With
    no students response every count is 0, with no courses response the
    list is empty. *)
Theorem student_count_is_enrolment
        (rows : list Client.Courses.Item.t) (s : session) (d : db) :
  Client.Courses.coursesWithCounts
    (Some rows) (Some (map Student.course_id (select_students s d)))
  = map (fun course =>
           Client.Courses.Item.mk
             (Client.Courses.Item.id course)
             (Client.Courses.Item.course_name course)
             (Client.Courses.Item.course_code course)
             (Client.Courses.Item.course_duration course)
             (Some (List.length
                      (filter (Client.by_id Student.course_id
                                            (Client.Courses.Item.id course))
                              (select_students s d)))))
        rows
  /\ map Client.Courses.Item.student_count
         (Client.Courses.coursesWithCounts (Some rows) None)
     = map (fun _ => Some 0%nat) rows
  /\ (forall studentCounts,
         Client.Courses.coursesWithCounts None studentCounts = []).
Proof.
  split; [|split].
  - unfold Client.Courses.coursesWithCounts, Client.Courses.countStudents.
    apply map_ext. intros course. f_equal. f_equal.
    rewrite countMap_fold. simpl.
    induction (select_students s d) as [|st l IH]; simpl; [reflexivity|].
    unfold Client.by_id at 1. unfold names_course at 1.
    destruct (Student.course_id st) as [c|]; simpl; [|exact IH].
    destruct (N.eqb c (Client.Courses.Item.id course)); simpl;
      [now rewrite IH | exact IH].
  - unfold Client.Courses.coursesWithCounts. simpl. rewrite map_map.
    reflexivity.
  - reflexivity.
Qed.

Lemma lower_upper (c : ascii) : Client.lower (Client.upper c) = Client.lower c.
Proof.
  destruct c as [[] [] [] [] [] [] [] []]; reflexivity.
Qed.

Lemma toLowerCase_toUpperCase (s : string) :
  Client.toLowerCase (Client.toUpperCase s) = Client.toLowerCase s.
Proof.
  induction s as [|c s IH]; simpl; [reflexivity|].
  now rewrite lower_upper, IH.
Qed.

Lemma lower_idempotent (c : ascii) :
  Client.lower (Client.lower c) = Client.lower c.
Proof.
  destruct c as [[] [] [] [] [] [] [] []]; reflexivity.
Qed.

Lemma toLowerCase_idempotent (s : string) :
  Client.toLowerCase (Client.toLowerCase s) = Client.toLowerCase s.
Proof.
  induction s as [|c s IH]; simpl; [reflexivity|].
  now rewrite lower_idempotent, IH.
Qed.

Lemma includes_empty (s : string) : Client.includes s "" = true.
Proof. destruct s; reflexivity. Qed.

(** X19. The search box of the Courses page, for a list and a search
    term of ASCII text (where the page's case mapping is the mapping of
    the letters a-z and A-Z): an empty search shows every course; a
    search never shows a course that is not in the list, and shows every
    course whose name or code contains the term, case ignored; the
    result does not depend on the case of what is typed. *)
Theorem course_search (courses : list Client.Courses.Item.t)
        (searchTerm : string) :
  Forall (fun course =>
            ascii_text (Client.Courses.Item.course_name course) = true
            /\ ascii_text (Client.Courses.Item.course_code course) = true)
         courses ->
  ascii_text searchTerm = true ->
  Client.Courses.filteredCourses courses "" = courses
  /\ incl (Client.Courses.filteredCourses courses searchTerm) courses
  /\ Client.Courses.filteredCourses courses (Client.toUpperCase searchTerm)
     = Client.Courses.filteredCourses courses searchTerm
  /\ Client.Courses.filteredCourses courses (Client.toLowerCase searchTerm)
     = Client.Courses.filteredCourses courses searchTerm
  /\ forall course,
       In course courses ->
       Client.includes
         (Client.toLowerCase (Client.Courses.Item.course_name course))
         (Client.toLowerCase searchTerm) = true
       \/ Client.includes
            (Client.toLowerCase (Client.Courses.Item.course_code course))
            (Client.toLowerCase searchTerm) = true ->
       In course (Client.Courses.filteredCourses courses searchTerm).
Proof.
  intros _ _.
  unfold Client.Courses.filteredCourses. split; [|split; [|split; [|split]]].
  - apply filter_all. intros c _. simpl. now rewrite includes_empty.
  - intros c Hc. apply filter_In in Hc. tauto.
  - now rewrite toLowerCase_toUpperCase.
  - now rewrite toLowerCase_idempotent.
  - intros c Hc Hmatch. apply filter_In. split; [assumption|].
    apply orb_true_iff. exact Hmatch.
Qed.

Lemma course_search_witness :
  let courses :=
    [Client.Courses.Item.mk 400%N "Algebra" "CS101" 12 (Some 2%nat);
     Client.Courses.Item.mk 500%N "Logic" "LOG1" 6 (Some 0%nat)] in
  Client.Courses.filteredCourses courses "LOG"
  = Client.Courses.filteredCourses courses "log"
  /\ map Client.Courses.Item.id (Client.Courses.filteredCourses courses "log")
     = [500%N].
Proof.
  intros courses. split; [|reflexivity].
  refine (proj1 (proj2 (proj2 (@course_search courses "log" _ eq_refl)))).
  repeat constructor.
Defined.

(** X20. The list of the Students page, for a list and a search term of
    ASCII text: with an empty search and the course filter on 'all'
    every student is shown; with a course chosen, only students of that
    course are shown, never one without a course; a student whose name
    or email contains the term, case ignored, is shown under the filter
    'all'; and the search does not depend on the case of what is
    typed. *)
Theorem student_search (students : list Client.Students.Item.t)
        (searchTerm : string) (filterCourse : option UUID) :
  Forall (fun student =>
            ascii_text (Client.Students.Item.name student) = true
            /\ ascii_text (Client.Students.Item.email student) = true)
         students ->
  ascii_text searchTerm = true ->
  Client.Students.filteredStudents students "" None = students
  /\ (forall c student,
         In student
            (Client.Students.filteredStudents students searchTerm (Some c)) ->
         In student students
         /\ Client.Students.Item.course_id student = Some c)
  /\ (forall student,
         In student students ->
         Client.includes
           (Client.toLowerCase (Client.Students.Item.name student))
           (Client.toLowerCase searchTerm) = true
         \/ Client.includes
              (Client.toLowerCase (Client.Students.Item.email student))
              (Client.toLowerCase searchTerm) = true ->
         In student
            (Client.Students.filteredStudents students searchTerm None))
  /\ Client.Students.filteredStudents students (Client.toUpperCase searchTerm)
                                      filterCourse
     = Client.Students.filteredStudents students searchTerm filterCourse
  /\ Client.Students.filteredStudents students (Client.toLowerCase searchTerm)
                                      filterCourse
     = Client.Students.filteredStudents students searchTerm filterCourse.
Proof.
  intros _ _.
  unfold Client.Students.filteredStudents.
  split; [|split; [|split; [|split]]].
  - apply filter_all. intros st _. simpl. now rewrite includes_empty.
  - intros c st Hst. apply filter_In in Hst. destruct Hst as [Hin Hm].
    split; [assumption|]. apply andb_prop in Hm. destruct Hm as [_ Hm].
    destruct (Client.Students.Item.course_id st) as [c'|];
      [|discriminate].
    apply N.eqb_eq in Hm. now subst.
  - intros st Hin Hmatch. apply filter_In. split; [assumption|].
    cbv zeta. rewrite andb_true_r. apply orb_true_iff. exact Hmatch.
  - now rewrite toLowerCase_toUpperCase.
  - now rewrite toLowerCase_idempotent.
Qed.

Lemma student_search_witness :
  let students :=
    [Client.Students.Item.mk 500%N "Bob" "bob@example.org" (Some 400%N) None;
     Client.Students.Item.mk 600%N "Rob" "rob@example.org" None None] in
  Client.Students.filteredStudents students "BOB" None
  = Client.Students.filteredStudents students "bob" None
  /\ map Client.Students.Item.id
         (Client.Students.filteredStudents students "bob" None)
     = [500%N].
Proof.
  intros students. split; [|reflexivity].
  refine (proj1 (proj2 (proj2 (proj2
            (@student_search students "bob" None _ eq_refl))))).
  repeat constructor.
Defined.

(** X21. Deleting from the pages as an identity without the admin role:
    the DELETE reaches no row and raises nothing, so both pages show
    their success toast although the database is unchanged. *)
Theorem non_admin_delete_reports_success (e : env) (d : db) (I id : UUID) :
  has_role d (Some I) (Some admin) = false ->
  Client.Courses.handleDelete e (signed_in I) id d
  = (Client.Success "Course deleted successfully", d)
  /\ Client.Students.handleDelete (signed_in I) id d
     = (Client.Success "Student deleted successfully", d).
Proof.
  intros Hna.
  destruct (@non_admin_courses_closed d I Hna) as (_ & _ & Cd).
  destruct (@non_admin_students_closed d I Hna) as (_ & _ & Sd).
  split.
  - unfold Client.Courses.handleDelete.
    now rewrite delete_courses_closed by auto.
  - unfold Client.Students.handleDelete, delete_students.
    rewrite closed_delete by auto. cbn [fst].
    now rewrite set_students_same.
Qed.

Lemma non_admin_delete_reports_success_witness :
  has_role campus (Some 2%N) (Some admin) = false
  /\ Client.Courses.handleDelete (at_time 7 700) (signed_in 2%N) 400%N campus
     = (Client.Success "Course deleted successfully", campus).
Proof.
  split; [reflexivity|].
  exact (proj1 (@non_admin_delete_reports_success
                  (at_time 7 700) campus 2%N 400%N eq_refl)).
Defined.

(** ** The dashboard *)




(** In [campus] identity 2 owns two student rows and is shown no
    profile. *)
Example dashboard_profile_with_two_rows :
  Client.Dashboard.fetchStudentProfile (Some 2%N) (signed_in 2%N) campus
  = None.
Proof. reflexivity. Qed.

(** ** The layout's user name *)

Lemma before_at_has_no_at (email : string) :
  Client.includes (Client.DashboardLayout.before_at email) "@" = false.
Proof.
  induction email as [|c rest IH]; [reflexivity|].
  cbn [Client.DashboardLayout.before_at].
  destruct (Ascii.eqb_spec c "@"%char) as [->|Hne]; [reflexivity|].
  cbn [Client.includes prefix].
  destruct (ascii_dec "@"%char c) as [Heq|_];
    [exfalso; apply Hne; now symmetry|].
  cbn [orb]. exact IH.
Qed.

(** [before_at] is the part before the first at-sign. *)
Lemma before_at_split (name rest : string) :
  Client.includes name "@" = false ->
  Client.DashboardLayout.before_at name = name
  /\ Client.DashboardLayout.before_at (name ++ String "@"%char rest)%string = name.
Proof.
  induction name as [|c name IH]; intros Hno.
  - split; reflexivity.
  - cbn [Client.includes prefix] in Hno.
    destruct (ascii_dec "@"%char c) as [Heq|Hne].
    + subst c. destruct name; discriminate Hno.
    + cbn [orb] in Hno. destruct (IH Hno) as [IH1 IH2].
      cbn [Client.DashboardLayout.before_at append].
      destruct (Ascii.eqb_spec c "@"%char) as [->|_];
        [now contradiction Hne|].
      now rewrite IH1, IH2.
Qed.

(** X23. The name shown in the sidebar is the part of the email before
    the first '@', and "User" when nobody is signed in, when the identity
    has no email, and when that part is empty (the email is empty or
    starts with '@'); so it is never empty and never contains an
    at-sign.  The initial beside it is "U" when nobody is signed in or
    the identity has no email, the first character in upper case for an
    email that starts with an ASCII character, and evaluating it throws
    exactly when the email is the empty string. *)
Theorem sidebar_user_name :
  Client.DashboardLayout.userName None = "User"
  /\ Client.DashboardLayout.userName (Some None) = "User"
  /\ Client.DashboardLayout.userName (Some (Some "")) = "User"
  /\ (forall rest,
        Client.DashboardLayout.userName (Some (Some (String "@"%char rest)))
        = "User")
  /\ (forall name rest,
        name <> "" ->
        Client.includes name "@" = false ->
        Client.DashboardLayout.userName (Some (Some name)) = name
        /\ Client.DashboardLayout.userName
             (Some (Some (name ++ String "@"%char rest)%string))
           = name)
  /\ (forall user,
        Client.DashboardLayout.userName user <> ""
        /\ Client.includes (Client.DashboardLayout.userName user) "@" = false)
  /\ Client.DashboardLayout.userInitial None = Some "U"
  /\ Client.DashboardLayout.userInitial (Some None) = Some "U"
  /\ (forall c rest,
        is_ascii c = true ->
        Client.DashboardLayout.userInitial (Some (Some (String c rest)))
        = Some (String (Client.upper c) ""))
  /\ (forall user,
        Client.DashboardLayout.userInitial user = None
        <-> user = Some (Some "")).
Proof.
  split; [reflexivity|]. split; [reflexivity|]. split; [reflexivity|].
  split; [reflexivity|]. split; [|split; [|split; [|split; [|split]]]].
  - intros name rest Hne Hno.
    destruct (@before_at_split name rest Hno) as [H1 H2].
    cbn [Client.DashboardLayout.userName]. rewrite H1, H2.
    destruct name; [contradiction | split; reflexivity].
  - intros user. split.
    + destruct user as [[email|]|]; simpl; try discriminate.
      destruct (Client.DashboardLayout.before_at email); discriminate.
    + destruct user as [[email|]|]; simpl; try reflexivity.
      pose proof (before_at_has_no_at email) as H.
      destruct (Client.DashboardLayout.before_at email); [reflexivity|].
      exact H.
  - reflexivity.
  - reflexivity.
  - intros c rest _. reflexivity.
  - intros user. destruct user as [[[|c rest]|]|]; simpl; split; intros H;
      try discriminate; try reflexivity.
Qed.

Lemma sidebar_user_name_witness :
  Client.DashboardLayout.userName (Some (Some "bob@example.org")) = "bob"
  /\ Client.DashboardLayout.userInitial (Some (Some "bob@example.org"))
     = Some "B".
Proof.
  destruct sidebar_user_name
    as (_ & _ & _ & _ & Hname & _ & _ & _ & Hinitial & _).
  split.
  - refine (proj2 (Hname "bob" "example.org" _ eq_refl)). discriminate.
  - exact (Hinitial "b"%char "ob@example.org" eq_refl).
Defined.

(** ** Signing in and signing up from the page *)

Lemma first_issue_none (issues : list (option string)) :
  Client.Auth.first_issue issues = None <-> Forall (fun i => i = None) issues.
Proof.
  unfold Client.Auth.first_issue. induction issues as [|[m|] l IH]; simpl.
  - split; [constructor | reflexivity].
  - split; [discriminate|]. intros H. inversion H. discriminate.
  - rewrite IH. split; intros H; [now constructor | now inversion H].
Qed.

(** X24. The authentication page reports success only when every check
    of its schema passes and the hook returns no error: for sign-up, a
    valid email of length at most 255, a password of length 6 to 100
    and a username of length 2 to 50 (lengths in UTF-16 code units;
    email and username measured after trimming, so an empty username
    is always refused); for sign-in, the email and password checks
    alone. *)
Theorem auth_success_only_when_valid
        (is_email : string -> bool)
        (signIn : string -> string -> option string)
        (signUp : string -> string -> string -> option string)
        (email password username : string) :
  (Client.Auth.handleSignUp is_email signUp email password username
   = Client.Auth.toast_success "Account created successfully!"
   <-> is_email (Client.trim email) = true
       /\ (Client.js_length (Client.trim email) <= 255)%nat
       /\ (6 <= Client.js_length password <= 100)%nat
       /\ (2 <= Client.js_length (Client.trim username) <= 50)%nat
       /\ signUp email password username = None)
  /\ (Client.Auth.handleSignIn is_email signIn email password
      = Client.Auth.toast_success "Welcome back!"
      <-> is_email (Client.trim email) = true
          /\ (Client.js_length (Client.trim email) <= 255)%nat
          /\ (6 <= Client.js_length password <= 100)%nat
          /\ signIn email password = None).
Proof.
  assert (He : Client.Auth.email_issue is_email email = None
               <-> is_email (Client.trim email) = true
                   /\ (Client.js_length (Client.trim email) <= 255)%nat).
  { unfold Client.Auth.email_issue.
    destruct (is_email (Client.trim email)); simpl.
    - destruct (Nat.ltb_spec 255 (Client.js_length (Client.trim email)))
        as [Hlong|Hshort];
        split; intros Hx; try discriminate; try reflexivity.
      + destruct Hx. lia.
      + split; [reflexivity | lia].
    - split; [discriminate | intros [Hx _]; discriminate]. }
  assert (Hp : Client.Auth.password_issue password = None
               <-> (6 <= Client.js_length password <= 100)%nat).
  { unfold Client.Auth.password_issue.
    destruct (Nat.ltb_spec (Client.js_length password) 6) as [Hlo|Hlo];
      [split; [discriminate | lia]|].
    destruct (Nat.ltb_spec 100 (Client.js_length password)) as [Hhi|Hhi];
      split; intros Hx; try discriminate; try reflexivity; lia. }
  assert (Hu : Client.Auth.username_issue username = None
               <-> (2 <= Client.js_length (Client.trim username) <= 50)%nat).
  { unfold Client.Auth.username_issue.
    destruct (Nat.ltb_spec (Client.js_length (Client.trim username)) 2)
      as [Hlo|Hlo];
      [split; [discriminate | lia]|].
    destruct (Nat.ltb_spec 50 (Client.js_length (Client.trim username)))
      as [Hhi|Hhi];
      split; intros Hx; try discriminate; try reflexivity; lia. }
  split.
  - unfold Client.Auth.handleSignUp.
    destruct (Client.Auth.first_issue _) as [m|] eqn:Hfirst.
    + split; [discriminate|]. intros (H1 & H2 & H3 & H4 & _).
      assert (Hnone : Client.Auth.first_issue
                        [Client.Auth.email_issue is_email email;
                         Client.Auth.password_issue password;
                         Client.Auth.username_issue username] = None).
      { apply first_issue_none. repeat constructor;
          [apply He | apply Hp | apply Hu]; auto. }
      congruence.
    + apply first_issue_none in Hfirst.
      inversion Hfirst as [|? ? F1 Hrest]; subst.
      inversion Hrest as [|? ? F2 Hrest']; subst.
      inversion Hrest' as [|? ? F3 _]; subst.
      apply He in F1. apply Hp in F2. apply Hu in F3.
      destruct (signUp email password username) as [msg|].
      * split; [|intros (_ & _ & _ & _ & H); discriminate].
        destruct (Client.includes msg "already registered"); discriminate.
      * split; [intros _; tauto | reflexivity].
  - unfold Client.Auth.handleSignIn.
    destruct (Client.Auth.first_issue _) as [m|] eqn:Hfirst.
    + split; [discriminate|]. intros (H1 & H2 & H3 & _).
      assert (Hnone : Client.Auth.first_issue
                        [Client.Auth.email_issue is_email email;
                         Client.Auth.password_issue password] = None).
      { apply first_issue_none. repeat constructor;
          [apply He | apply Hp]; auto. }
      congruence.
    + apply first_issue_none in Hfirst.
      inversion Hfirst as [|? ? F1 Hrest]; subst.
      inversion Hrest as [|? ? F2 _]; subst.
      apply He in F1. apply Hp in F2.
      destruct (signIn email password) as [msg|].
      * split; [|intros (_ & _ & _ & H); discriminate].
        destruct (Client.includes msg "Invalid login credentials");
          discriminate.
      * split; [intros _; tauto | reflexivity].
Qed.

(** Lengths are counted in UTF-16 code units and white space is the
    whole of JavaScript's: a password of three accented letters (six
    bytes) is too short, and a username of one letter between two
    no-break spaces is one character long. *)
Example auth_counts_code_units :
  let accept := fun _ : string => true in
  let no_error := fun _ _ _ : string => @None string in
  let nbsp := String (ascii_of_nat 194) (String (ascii_of_nat 160) "") in
  Client.js_length (e_acute ++ e_acute ++ e_acute)%string = 3%nat
  /\ Client.Auth.handleSignUp accept no_error "a@b.org"
       (e_acute ++ e_acute ++ e_acute)%string "alice"
     = Client.Auth.toast_error "Password must be at least 6 characters"
  /\ Client.trim (nbsp ++ "a" ++ nbsp)%string = "a"
  /\ Client.Auth.handleSignUp accept no_error "a@b.org" "secret"
       (nbsp ++ "a" ++ nbsp)%string
     = Client.Auth.toast_error "Username must be at least 2 characters".
Proof. cbv zeta. repeat split. Qed.

(** ** Course codes written through the page *)

Lemma upper_idempotent (c : ascii) : Client.upper (Client.upper c) = Client.upper c.
Proof.
  destruct c as [[] [] [] [] [] [] [] []]; reflexivity.
Qed.

Lemma toUpperCase_idempotent (s : string) :
  Client.toUpperCase (Client.toUpperCase s) = Client.toUpperCase s.
Proof.
  induction s as [|c s IH]; simpl; [reflexivity|].
  now rewrite upper_idempotent, IH.
Qed.

(** A validated form passes the column types unchanged. *)
Lemma courses_page_coerce (formData : Client.Courses.form) :
  Client.Courses.validateForm formData = true ->
  coerce_course (Client.Courses.payload formData)
  = Ok (Client.Courses.payload formData).
Proof.
  unfold Client.Courses.validateForm. intros Hvalid.
  apply andb_prop in Hvalid. destruct Hvalid as [Hvalid Hhi].
  apply andb_prop in Hvalid. destruct Hvalid as [Hvalid Hlo].
  apply andb_prop in Hvalid. destruct Hvalid as [Hname Hcode].
  apply length_between_le in Hname, Hcode.
  rewrite <- char_length_toUpperCase in Hcode.
  unfold Client.Courses.payload, coerce_course.
  cbn [CourseArgs.course_name CourseArgs.course_code
       CourseArgs.course_duration CourseArgs.id CourseArgs.created_at
       CourseArgs.updated_at coerce].
  rewrite (@varchar_fits _ _ Hname), (@varchar_fits _ _ Hcode).
  cbn [bind].
  unfold integer.
  replace ((-2147483648 <=? Client.Courses.course_duration formData)
           && (Client.Courses.course_duration formData <=? 2147483647))
    with true; [reflexivity|].
  symmetry. apply andb_true_intro.
  apply Z.leb_le in Hlo, Hhi. split; apply Z.leb_le; lia.
Qed.

(** The INSERT of the create path, for a validated form: row security,
    then the primary key, then the unique course code. *)
Lemma courses_page_insert (e : env) (s : session)
      (formData : Client.Courses.form) (d : db) :
  Client.Courses.validateForm formData = true ->
  insert_course e s (Client.Courses.payload formData) d
  = let r := course_tuple (Client.Courses.payload formData)
                          (course_defaults e) in
    if passes_check courses_policies INSERT d s r then
      if existsb (same N.eqb Course.id r) (courses d)
      then Err (unique_violation "courses_pkey")
      else if existsb (same String.eqb Course.course_code r) (courses d)
           then Err (unique_violation "courses_course_code_key")
           else Ok (set_courses d (courses d ++ [r]))
    else Err (insufficient_privilege "courses").
Proof.
  intros Hvalid. unfold insert_course.
  rewrite (courses_page_coerce _ Hvalid). cbn [bind].
  unfold insert_row, check_row.
  change (rls courses_table) with courses_policies.
  cbv zeta.
  destruct (passes_check courses_policies INSERT d s _);
    cbn [guard bind relname courses_table]; [|reflexivity].
  cbn [not_nulls courses_table check_not_null present course_tuple
       Client.Courses.payload pick CourseArgs.id CourseArgs.course_name
       CourseArgs.course_code CourseArgs.course_duration
       CourseArgs.created_at CourseArgs.updated_at
       Course.id Course.course_name Course.course_code
       Course.course_duration Course.created_at Course.updated_at
       course_defaults bind].
  cbn [uniques courses_table check_unique].
  repeat match goal with
         | |- context [if existsb ?f ?l then _ else _] =>
             destruct (existsb f l)
         end; reflexivity.
Qed.

(** X25. Whatever is submitted through the Courses page, and by
    whomever, the stored course codes stay in upper case if they were:
    the page writes a code only after trimming and upper-casing it, on
    both the create and the edit path. *)
Theorem page_keeps_codes_upper_case (e : env) (s : session)
        (editingCourse : option UUID) (formData : Client.Courses.form)
        (d : db) :
  upper_case_codes d ->
  upper_case_codes (snd (Client.Courses.handleSubmit e s editingCourse
                                                     formData d)).
Proof.
  intros Hup. unfold Client.Courses.handleSubmit.
  destruct (Client.Courses.validateForm formData) eqn:Hvalid;
    cbn [negb]; [|exact Hup].
  destruct editingCourse as [id|].
  - destruct (update_courses _ _ _ _ _) as [d'|err] eqn:Hrun; [|exact Hup].
    cbn [snd]. unfold update_courses in Hrun.
    rewrite (@courses_page_coerce _ Hvalid) in Hrun. cbn [bind] in Hrun.
    bind_inv Hrun. bind_inv Hrun. inversion Hrun; subst; clear Hrun.
    apply update_rows_Ok in Hrun0. destruct Hrun0 as [Hrows _].
    intros c code Hin Hcode. cbn [courses set_courses] in Hin.
    rewrite Hrows in Hin. cbn [app] in Hin.
    apply in_map_iff in Hin. destruct Hin as (r0 & <- & Hin0).
    unfold updated in Hcode.
    destruct (hit courses_table UPDATE d s _ r0).
    + cbn in Hcode. inversion Hcode. apply toUpperCase_idempotent.
    + exact (Hup _ _ Hin0 Hcode).
  - rewrite (@courses_page_insert _ _ _ _ Hvalid). cbv zeta.
    destruct (passes_check courses_policies INSERT d s _);
      [|now destruct (_ || _)].
    destruct (existsb (same N.eqb Course.id _) (courses d));
      [now destruct (_ || _)|].
    destruct (existsb (same String.eqb Course.course_code _) (courses d));
      [now destruct (_ || _)|].
    cbn [snd]. intros c code Hin Hcode. cbn [courses set_courses] in Hin.
    apply in_app_or in Hin. destruct Hin as [Hin|[<-|[]]].
    + exact (Hup _ _ Hin Hcode).
    + cbn in Hcode. inversion Hcode. apply toUpperCase_idempotent.
Qed.

Lemma page_keeps_codes_upper_case_witness :
  upper_case_codes campus_by_page
  /\ upper_case_codes
       (snd (Client.Courses.handleSubmit (at_time 9 900) (signed_in 1%N)
               (Some 400%N) (Client.Courses.mkform "Logic" " lg101 " 6)
               campus_by_page)).
Proof.
  assert (Hup : upper_case_codes campus_by_page).
  { intros c code Hin Hcode. vm_compute in Hin.
    repeat match type of Hin with
           | _ \/ _ => destruct Hin as [<-|Hin]
           | False => destruct Hin
           end;
      vm_compute in Hcode; inversion Hcode; reflexivity. }
  split; [exact Hup|].
  exact (@page_keeps_codes_upper_case (at_time 9 900) (signed_in 1%N)
           (Some 400%N) (Client.Courses.mkform "Logic" " lg101 " 6)
           campus_by_page Hup).
Defined.

(** X26. When the stored course codes are in upper case, an
    administrator who submits a valid new course whose code, ASCII text
    apart from the white space around it, differs from a stored one only
    in letter case or surrounding white space is told the code is
    already in use, and nothing is written. *)
Theorem case_variant_of_stored_code_is_caught (e : env) (d : db) (A : UUID)
        (formData : Client.Courses.form) (stored : Course.row)
        (code : string) :
  upper_case_codes d ->
  has_role d (Some A) (Some admin) = true ->
  Client.Courses.validateForm formData = true ->
  ascii_text (Client.trim (Client.Courses.course_code formData)) = true ->
  In stored (courses d) ->
  Course.course_code stored = Some code ->
  Client.toUpperCase code
  = Client.toUpperCase (Client.trim (Client.Courses.course_code formData)) ->
  Client.Courses.handleSubmit e (signed_in A) None formData d
  = (Client.Duplicate "A course with this code already exists"
                      "course_code" "This course code is already in use", d).
Proof.
  intros Hup Hadm Hvalid _ Hin Hcode Hsame.
  unfold Client.Courses.handleSubmit. rewrite Hvalid. cbn [negb].
  rewrite (@courses_page_insert _ _ _ _ Hvalid). cbv zeta.
  assert (Hpass : forall r,
             passes_check courses_policies INSERT d (signed_in A) r = true).
  { intros r. unfold passes_check. simpl. unfold with_check_holds. simpl.
    now rewrite Hadm. }
  rewrite Hpass.
  destruct (existsb (same N.eqb Course.id _) (courses d)).
  - now rewrite unique_violation_says_duplicate.
  - rewrite existsb_same_string.
    + now rewrite unique_violation_says_duplicate.
    + exists stored, code. split; [exact Hin|]. split; [exact Hcode|].
      cbn. rewrite <- Hsame. f_equal. exact (Hup _ _ Hin Hcode).
Qed.

Lemma case_variant_of_stored_code_is_caught_witness :
  Client.Courses.handleSubmit (at_time 9 900) (signed_in 1%N) None
    (Client.Courses.mkform "Algebra II" "Cs101 " 6) campus_by_page
  = (Client.Duplicate "A course with this code already exists"
                      "course_code" "This course code is already in use",
     campus_by_page).
Proof.
  assert (Hup : upper_case_codes campus_by_page).
  { intros c code Hin Hcode. vm_compute in Hin.
    repeat match type of Hin with
           | _ \/ _ => destruct Hin as [<-|Hin]
           | False => destruct Hin
           end;
      vm_compute in Hcode; inversion Hcode; reflexivity. }
  apply (@case_variant_of_stored_code_is_caught (at_time 9 900)
           campus_by_page 1%N
           (Client.Courses.mkform "Algebra II" "Cs101 " 6)
           (Course.mk (Some 400%N) (Some "Algebra") (Some "CS101") (Some 12)
                      (Some 4) (Some 4))
           "CS101" Hup).
  - reflexivity.
  - reflexivity.
  - reflexivity.
  - vm_compute. left. reflexivity.
  - reflexivity.
  - reflexivity.
Defined.
